(** * Smart home automation backend: simulator, schedule engine, broadcast hub

    A shallow embedding of [backend/server.py]: the [ConnectionManager]
    (broadcast hub), the [DeviceSimulator] (device registry and tick) and the
    [TaskScheduler] (schedule engine), with the properties of the written
    specification stated and proved over it.

    Modelling conventions.
    - Python [int] is [Z]; [str] is [string], its characters read as code
      points below 256; [Optional] is [option]; a list is a [list].
    - The simulator's [Dict[str, Dict]] is an insertion-ordered association
      list, as iteration order is observable (store writes, snapshot order).
    - Stateful code runs in a state-and-exception monad over [world]; a
      raised exception leaves the mutations made before it in place.
    - Everything the process does not control is read from the
      [environment] of the world.  The wall clock, the random generator,
      uuid4 and whether a store call fails are indexed by the number of
      environment calls made so far.  Whether a websocket is closed is a
      property of the connection that holds while one operation runs; a
      socket that closes between two operations is a change of environment.
    - The text of an exception is not modelled: where the source logs
      [str(e)], the model writes the name of the exception class.
    - The interleaving of asyncio tasks at [await] points is not modelled:
      every operation runs to completion on its own. *)

From Stdlib Require Import ZArith List String Ascii Bool QArith Lia.
From Stdlib Require Import DecimalString.
Import ListNotations.
Local Open Scope string_scope.
Local Open Scope list_scope.
Local Open Scope Z_scope.

(* ------------------------------------------------------------------ *)
(** ** Exceptions and results *)

Inductive exn : Type :=
| ValueError        (* int() on a malformed literal *)
| IndexError        (* list index out of range *)
| KeyError          (* missing dict key *)
| PersistenceError  (* a motor/pymongo call that failed *)
| ConnectionClosed. (* send_text on a dead websocket *)

(** What a log line shows of an exception: the class name, standing for
    the message [str(e)] of the source. *)
Definition exn_str (e : exn) : string :=
  match e with
  | ValueError => "ValueError"
  | IndexError => "IndexError"
  | KeyError => "KeyError"
  | PersistenceError => "PersistenceError"
  | ConnectionClosed => "ConnectionClosed"
  end.

Inductive result (A : Type) : Type :=
| Ok (a : A)
| Raise (e : exn).
Arguments Ok {A} a.
Arguments Raise {A} e.

Definition rbind {A B} (r : result A) (k : A -> result B) : result B :=
  match r with
  | Ok a => k a
  | Raise e => Raise e
  end.

Declare Scope res_scope.
Delimit Scope res_scope with res.
Notation "x <~ c ; k" := (rbind c (fun x => k))
  (at level 61, c at next level, right associativity) : res_scope.

(* ------------------------------------------------------------------ *)
(** ** Enumerations *)

Inductive DeviceType := RELAY | SWITCH | SENSOR.
Inductive DeviceStatus := ONLINE | OFFLINE | ERROR.
Inductive RelayState := ON | OFF.
Inductive ScheduleType := ONCE | DAILY | WEEKLY.

Definition status_value (s : DeviceStatus) : string :=
  match s with ONLINE => "online" | OFFLINE => "offline" | ERROR => "error" end.

Definition relay_value (s : RelayState) : string :=
  match s with ON => "on" | OFF => "off" end.

Definition relay_eqb (a b : RelayState) : bool :=
  match a, b with ON, ON | OFF, OFF => true | _, _ => false end.

(* ------------------------------------------------------------------ *)
(** ** datetime *)

Record datetime := mk_datetime {
  year : Z; month : Z; day : Z;
  hour : Z; minute : Z; second : Z; microsecond : Z
}.

(** [datetime.date()]: the calendar part. *)
Definition date (t : datetime) : Z * Z * Z := (year t, month t, day t).

Definition date_eqb (a b : Z * Z * Z) : bool :=
  match a, b with
  | (y1, m1, d1), (y2, m2, d2) => (y1 =? y2) && (m1 =? m2) && (d1 =? d2)
  end.

(** The proleptic Gregorian ordinal of the standard library's [datetime]. *)
Definition is_leap (y : Z) : bool :=
  (y mod 4 =? 0) && (negb (y mod 100 =? 0) || (y mod 400 =? 0)).

Definition days_before_year (y : Z) : Z :=
  let p := y - 1 in p * 365 + p / 4 - p / 100 + p / 400.

Definition DAYS_BEFORE_MONTH : list Z :=
  [0; 0; 31; 59; 90; 120; 151; 181; 212; 243; 273; 304; 334].

Definition days_before_month (y m : Z) : Z :=
  nth (Z.to_nat m) DAYS_BEFORE_MONTH 0
  + (if (2 <? m) && is_leap y then 1 else 0).

Definition toordinal (t : datetime) : Z :=
  days_before_year (year t) + days_before_month (year t) (month t) + day t.

(** [datetime.weekday()]: 0 is Monday, 6 is Sunday. *)
Definition weekday (t : datetime) : Z := (toordinal t + 6) mod 7.

(* ------------------------------------------------------------------ *)
(** ** The two string builtins [should_trigger] relies on *)

(** [s.split(sep)] for a one-character separator. *)
Fixpoint py_split (sep : ascii) (s : string) : list string :=
  match s with
  | EmptyString => [EmptyString]
  | String c rest =>
      if Ascii.eqb c sep then EmptyString :: py_split sep rest
      else match py_split sep rest with
           | [] => [String c EmptyString]
           | p :: ps => String c p :: ps
           end
  end.

(** [parts[i]]. *)
Definition py_index {A} (l : list A) (i : nat) : result A :=
  match nth_error l i with
  | Some a => Ok a
  | None => Raise IndexError
  end.

(** Characters [int()] strips (code points below 256): the ASCII white
    space 9..13 and 32, and the two Unicode spaces 133 and 160.  The ASCII
    separators 28..31 are not stripped. *)
Definition is_space (c : ascii) : bool :=
  let n := N_of_ascii c in
  (((9 <=? n) && (n <=? 13)) || (n =? 32) || (n =? 133) || (n =? 160))%N.

Fixpoint lstrip (s : string) : string :=
  match s with
  | String c r => if is_space c then lstrip r else s
  | EmptyString => EmptyString
  end.

Fixpoint rstrip (s : string) : string :=
  match s with
  | EmptyString => EmptyString
  | String c r =>
      match rstrip r with
      | EmptyString => if is_space c then EmptyString else String c EmptyString
      | r' => String c r'
      end
  end.

(** The value of a decimal digit; below code point 256 the only decimal
    digits are 0..9. *)
Definition digit_of (c : ascii) : option Z :=
  let n := N_of_ascii c in
  if ((48 <=? n) && (n <=? 57))%N then Some (Z.of_N n - 48) else None.

(** Decimal digits, where single underscores may separate digits. *)
Fixpoint int_digits (acc : Z) (after_digit : bool) (s : string) : option Z :=
  match s with
  | EmptyString => if after_digit then Some acc else None
  | String c r =>
      match digit_of c with
      | Some d => int_digits (10 * acc + d) true r
      | None =>
          if Ascii.eqb c "_" && after_digit then int_digits acc false r
          else None
      end
  end.

(** The interpreter's default cap on the digits of an integer literal
    ([sys.int_max_str_digits]). *)
Definition int_max_str_digits : Z := 4300.

Fixpoint count_digits (s : string) : Z :=
  match s with
  | EmptyString => 0
  | String c r =>
      match digit_of c with
      | Some _ => 1 + count_digits r
      | None => count_digits r
      end
  end.

(** [int(s)] in base ten: surrounding white space, an optional sign, digits,
    at most [int_max_str_digits] of them.  Every failure is a
    [ValueError]. *)
Definition py_int (s : string) : result Z :=
  let t := rstrip (lstrip s) in
  let body :=
    match t with
    | String "+" r => int_digits 0 false r
    | String "-" r => option_map Z.opp (int_digits 0 false r)
    | _ => int_digits 0 false t
    end in
  match body with
  | Some n =>
      if count_digits t <=? int_max_str_digits then Ok n
      else Raise ValueError
  | None => Raise ValueError
  end.

(* ------------------------------------------------------------------ *)
(** ** Models *)

Module Device.
Record t := mk {
  id : string;
  name : string;
  device_type : DeviceType;
  room : string;
  gpio_pin : option Z;
  status : DeviceStatus;
  relay_state : RelayState;
  last_seen : datetime;
  created_at : datetime;
  ip_address : option string;
  wifi_signal : option Z;
  uptime : Z;
  total_runtime : Z
}.

Definition with_name (v : string) (d : t) : t :=
  mk (id d) v (device_type d) (room d) (gpio_pin d) (status d)
     (relay_state d) (last_seen d) (created_at d) (ip_address d)
     (wifi_signal d) (uptime d) (total_runtime d).
Definition with_room (v : string) (d : t) : t :=
  mk (id d) (name d) (device_type d) v (gpio_pin d) (status d)
     (relay_state d) (last_seen d) (created_at d) (ip_address d)
     (wifi_signal d) (uptime d) (total_runtime d).
Definition with_gpio_pin (v : option Z) (d : t) : t :=
  mk (id d) (name d) (device_type d) (room d) v (status d)
     (relay_state d) (last_seen d) (created_at d) (ip_address d)
     (wifi_signal d) (uptime d) (total_runtime d).
Definition with_status (v : DeviceStatus) (d : t) : t :=
  mk (id d) (name d) (device_type d) (room d) (gpio_pin d) v
     (relay_state d) (last_seen d) (created_at d) (ip_address d)
     (wifi_signal d) (uptime d) (total_runtime d).
Definition with_relay_state (v : RelayState) (d : t) : t :=
  mk (id d) (name d) (device_type d) (room d) (gpio_pin d) (status d)
     v (last_seen d) (created_at d) (ip_address d)
     (wifi_signal d) (uptime d) (total_runtime d).
Definition with_last_seen (v : datetime) (d : t) : t :=
  mk (id d) (name d) (device_type d) (room d) (gpio_pin d) (status d)
     (relay_state d) v (created_at d) (ip_address d)
     (wifi_signal d) (uptime d) (total_runtime d).
Definition with_ip_address (v : option string) (d : t) : t :=
  mk (id d) (name d) (device_type d) (room d) (gpio_pin d) (status d)
     (relay_state d) (last_seen d) (created_at d) v
     (wifi_signal d) (uptime d) (total_runtime d).
Definition with_wifi_signal (v : option Z) (d : t) : t :=
  mk (id d) (name d) (device_type d) (room d) (gpio_pin d) (status d)
     (relay_state d) (last_seen d) (created_at d) (ip_address d)
     v (uptime d) (total_runtime d).
Definition with_uptime (v : Z) (d : t) : t :=
  mk (id d) (name d) (device_type d) (room d) (gpio_pin d) (status d)
     (relay_state d) (last_seen d) (created_at d) (ip_address d)
     (wifi_signal d) v (total_runtime d).
Definition with_total_runtime (v : Z) (d : t) : t :=
  mk (id d) (name d) (device_type d) (room d) (gpio_pin d) (status d)
     (relay_state d) (last_seen d) (created_at d) (ip_address d)
     (wifi_signal d) (uptime d) v.
End Device.

Module DeviceCreate.
Record t := mk {
  name : string;
  device_type : DeviceType;
  room : string;
  gpio_pin : option Z
}.
End DeviceCreate.

Module DeviceUpdate.
Record t := mk {
  name : option string;
  room : option string;
  gpio_pin : option Z
}.
End DeviceUpdate.

Module Schedule.
Record t := mk {
  id : string;
  device_id : string;
  name : string;
  schedule_type : ScheduleType;
  target_state : RelayState;
  trigger_time : string;
  trigger_date : option datetime;
  days_of_week : option (list Z);
  is_active : bool;
  created_at : datetime
}.

Definition with_is_active (v : bool) (s : t) : t :=
  mk (id s) (device_id s) (name s) (schedule_type s) (target_state s)
     (trigger_time s) (trigger_date s) (days_of_week s) v (created_at s).
End Schedule.

Module DeviceLog.
Record t := mk {
  id : string;
  device_id : string;
  action : string;
  old_state : option string;
  new_state : option string;
  triggered_by : string;
  timestamp : datetime
}.
End DeviceLog.

(* ------------------------------------------------------------------ *)
(** ** TaskScheduler.should_trigger *)

(** The first three statements of [should_trigger]: split at the colon,
    convert part 0, then part 1.  Further parts are ignored. *)
Definition parse_trigger_time (trigger_time : string) : result (Z * Z) :=
  (let trigger_time_parts := py_split ":" trigger_time in
   p0 <~ py_index trigger_time_parts 0;
   trigger_hour <~ py_int p0;
   p1 <~ py_index trigger_time_parts 1;
   trigger_minute <~ py_int p1;
   Ok (trigger_hour, trigger_minute))%res.

Definition should_trigger (schedule : Schedule.t) (current_time : datetime)
  : result bool :=
  (hm <~ parse_trigger_time (Schedule.trigger_time schedule);
   let '(trigger_hour, trigger_minute) := hm in
   if (hour current_time =? trigger_hour)
      && (minute current_time =? trigger_minute)
   then
     match Schedule.schedule_type schedule with
     | ONCE =>
         match Schedule.trigger_date schedule with
         | Some trigger_date =>
             Ok (date_eqb (date current_time) (date trigger_date))
         | None => Ok false
         end
     | DAILY => Ok true
     | WEEKLY =>
         match Schedule.days_of_week schedule with
         | Some (d :: ds) =>
             Ok (existsb (Z.eqb (weekday current_time)) (d :: ds))
         | _ => Ok false
         end
     end
   else Ok false)%res.


(* ------------------------------------------------------------------ *)
(** ** The world: process state, store contents, observable trace *)

(** A websocket, by object identity. *)
Definition conn := nat.

(** One row of the periodic status snapshot. *)
Record status_row := mk_row {
  row_id : string;
  row_status : string;
  row_relay_state : string;
  row_uptime : Z;
  row_wifi_signal : option Z;
  row_last_seen : datetime
}.

(** The payloads handed to [json.dumps] before [manager.broadcast]. *)
Inductive message : Type :=
| device_update_msg (device_id : string) (relay_state : string)
                (last_seen : datetime)
| status_update_msg (rows : list status_row).

Inductive event : Type :=
| Published (m : message)             (* manager.broadcast(m) was entered *)
| Sent (c : conn) (m : message)       (* send_text returned *)
| SendFailed (c : conn) (m : message) (* send_text raised *)
| Slept (seconds : Q)                 (* asyncio.sleep *)
| LogError (msg : string)             (* logging.error *)
| LogInfo (msg : string).             (* logging.info *)

Record environment := mk_env {
  clock : nat -> datetime;      (* datetime.utcnow() *)
  entropy : nat -> Z;           (* raw output of the random generator *)
  fresh_uuid : nat -> string;   (* str(uuid.uuid4()) *)
  store_fails : nat -> bool;    (* does this store call raise? *)
  send_fails : conn -> bool     (* is this websocket closed? *)
}.

Record simulation_data := mk_sim {
  sim_wifi_signal : Z;
  response_time : Q
}.

(** A value of [DeviceSimulator.devices]. *)
Record device_entry := mk_data {
  device : Device.t;
  last_state_change : datetime;
  sim_data : simulation_data
}.

Record world := mk_world {
  active_connections : list conn;             (* manager.active_connections *)
  devices : list (string * device_entry);      (* device_simulator.devices *)
  simulator_running : bool;                   (* device_simulator.running *)
  scheduler_running : bool;                   (* task_scheduler.running *)
  db_devices : list Device.t;                 (* db.devices *)
  db_schedules : list Schedule.t;             (* db.schedules *)
  db_device_logs : list DeviceLog.t;          (* db.device_logs *)
  trace : list event;                         (* oldest first *)
  calls : nat;                                (* environment calls so far *)
  env : environment
}.

Definition set_active_connections (v : list conn) (w : world) : world :=
  mk_world v (devices w) (simulator_running w) (scheduler_running w)
    (db_devices w) (db_schedules w) (db_device_logs w) (trace w) (calls w)
    (env w).
Definition set_devices (v : list (string * device_entry)) (w : world) : world :=
  mk_world (active_connections w) v (simulator_running w)
    (scheduler_running w) (db_devices w) (db_schedules w) (db_device_logs w)
    (trace w) (calls w) (env w).
Definition set_simulator_running (v : bool) (w : world) : world :=
  mk_world (active_connections w) (devices w) v (scheduler_running w)
    (db_devices w) (db_schedules w) (db_device_logs w) (trace w) (calls w)
    (env w).
Definition set_scheduler_running (v : bool) (w : world) : world :=
  mk_world (active_connections w) (devices w) (simulator_running w) v
    (db_devices w) (db_schedules w) (db_device_logs w) (trace w) (calls w)
    (env w).
Definition set_db_devices (v : list Device.t) (w : world) : world :=
  mk_world (active_connections w) (devices w) (simulator_running w)
    (scheduler_running w) v (db_schedules w) (db_device_logs w) (trace w)
    (calls w) (env w).
Definition set_db_schedules (v : list Schedule.t) (w : world) : world :=
  mk_world (active_connections w) (devices w) (simulator_running w)
    (scheduler_running w) (db_devices w) v (db_device_logs w) (trace w)
    (calls w) (env w).
Definition set_db_device_logs (v : list DeviceLog.t) (w : world) : world :=
  mk_world (active_connections w) (devices w) (simulator_running w)
    (scheduler_running w) (db_devices w) (db_schedules w) v (trace w)
    (calls w) (env w).
Definition set_trace (v : list event) (w : world) : world :=
  mk_world (active_connections w) (devices w) (simulator_running w)
    (scheduler_running w) (db_devices w) (db_schedules w) (db_device_logs w)
    v (calls w) (env w).
Definition set_calls (v : nat) (w : world) : world :=
  mk_world (active_connections w) (devices w) (simulator_running w)
    (scheduler_running w) (db_devices w) (db_schedules w) (db_device_logs w)
    (trace w) v (env w).

(* ------------------------------------------------------------------ *)
(** ** The monad of stateful, fallible code *)

Definition M (A : Type) : Type := world -> result A * world.

Definition ret {A} (a : A) : M A := fun w => (Ok a, w).

Definition bind {A B} (m : M A) (k : A -> M B) : M B :=
  fun w =>
    match m w with
    | (Ok a, w') => k a w'
    | (Raise e, w') => (Raise e, w')
    end.

Definition raise {A} (e : exn) : M A := fun w => (Raise e, w).

(** [try: body / except Exception as e: handler]. *)
Definition try_except {A} (body : M A) (handler : exn -> M A) : M A :=
  fun w =>
    match body w with
    | (Ok a, w') => (Ok a, w')
    | (Raise e, w') => handler e w'
    end.

Definition get {A} (f : world -> A) : M A := fun w => (Ok (f w), w).
Definition modify (f : world -> world) : M unit := fun w => (Ok tt, f w).
Definition lift {A} (r : result A) : M A := fun w => (r, w).

Declare Scope m_scope.
Delimit Scope m_scope with m.
Notation "x <- c ;; k" := (bind c (fun x => k))
  (at level 61, c at next level, right associativity) : m_scope.
Notation "c ;; k" := (bind c (fun _ => k))
  (at level 61, right associativity) : m_scope.
Local Open Scope m_scope.

(** One read of the environment; every read advances [calls]. *)
Definition ask {A} (f : environment -> nat -> A) : M A :=
  fun w => (Ok (f (env w) (calls w)), set_calls (S (calls w)) w).

Definition utcnow : M datetime := ask clock.
Definition uuid4 : M string := ask fresh_uuid.

(** [random.random()]: a multiple of 2^-53 in [0, 1). *)
Definition unit_interval (n : Z) : Q :=
  Qmake (n mod 9007199254740992) 9007199254740992.

Definition random_random : M Q :=
  n <- ask entropy ;;
  ret (unit_interval n).

(** [random.randint(a, b)]: an integer in [a, b] when [a <= b]. *)
Definition randint (a b : Z) : M Z :=
  n <- ask entropy ;;
  ret (a + n mod (b - a + 1)).

(** [random.uniform(a, b)]. *)
Definition scale (a b r : Q) : Q := (a + (b - a) * r)%Q.

Definition uniform (a b : Q) : M Q :=
  r <- random_random ;;
  ret (scale a b r).

Definition emit (e : event) : M unit :=
  modify (fun w => set_trace (trace w ++ [e]) w).

Definition sleep (seconds : Q) : M unit := emit (Slept seconds).
Definition logging_error (msg : string) : M unit := emit (LogError msg).
Definition logging_info (msg : string) : M unit := emit (LogInfo msg).

(* ------------------------------------------------------------------ *)
(** ** The document store *)

(** Every store call first learns from the environment whether it fails;
    a failed call raises and writes nothing. *)
Definition store_call : M unit :=
  fails <- ask store_fails ;;
  if fails then raise PersistenceError else ret tt.

(** [update_one(filter, {"$set": ...})]: the first matching document. *)
Fixpoint update_first {A} (p : A -> bool) (f : A -> A) (l : list A) : list A :=
  match l with
  | [] => []
  | a :: r => if p a then f a :: r else a :: update_first p f r
  end.

(** [delete_one(filter)]: drops the first match, reports whether any was. *)
Fixpoint delete_first {A} (p : A -> bool) (l : list A) : list A * bool :=
  match l with
  | [] => ([], false)
  | a :: r =>
      if p a then (r, true)
      else let '(r', found) := delete_first p r in (a :: r', found)
  end.

Definition has_device_id (device_id : string) (d : Device.t) : bool :=
  String.eqb (Device.id d) device_id.

Definition has_schedule_id (schedule_id : string) (s : Schedule.t) : bool :=
  String.eqb (Schedule.id s) schedule_id.

Definition db_devices_update_one (device_id : string)
    (set : Device.t -> Device.t) : M unit :=
  store_call ;;
  modify (fun w =>
    set_db_devices (update_first (has_device_id device_id) set (db_devices w)) w).

Definition db_devices_insert_one (d : Device.t) : M unit :=
  store_call ;;
  modify (fun w => set_db_devices (db_devices w ++ [d]) w).

Definition db_devices_delete_one (device_id : string) : M bool :=
  store_call ;;
  docs <- get db_devices ;;
  let '(docs', found) := delete_first (has_device_id device_id) docs in
  modify (set_db_devices docs') ;;
  ret found.

Definition db_devices_find : M (list Device.t) :=
  store_call ;; get db_devices.

Definition db_devices_find_one (device_id : string) : M (option Device.t) :=
  store_call ;;
  docs <- get db_devices ;;
  ret (find (has_device_id device_id) docs).

Definition db_device_logs_insert_one (l : DeviceLog.t) : M unit :=
  store_call ;;
  modify (fun w => set_db_device_logs (db_device_logs w ++ [l]) w).

Definition db_schedules_update_one (schedule_id : string)
    (set : Schedule.t -> Schedule.t) : M unit :=
  store_call ;;
  modify (fun w =>
    set_db_schedules
      (update_first (has_schedule_id schedule_id) set (db_schedules w)) w).

(** [db.schedules.find({"is_active": True}).to_list(None)]. *)
Definition db_schedules_find_active : M (list Schedule.t) :=
  store_call ;;
  docs <- get db_schedules ;;
  ret (filter Schedule.is_active docs).

(* ------------------------------------------------------------------ *)
(** ** Python dict operations on the simulator's registry *)

Section Dict.
Context {V : Type}.

Fixpoint dict_get (k : string) (d : list (string * V)) : option V :=
  match d with
  | [] => None
  | (k', v) :: r => if String.eqb k' k then Some v else dict_get k r
  end.

(** [d[k] = v]: overwrite in place, or append a new key. *)
Fixpoint dict_set (k : string) (v : V) (d : list (string * V))
  : list (string * V) :=
  match d with
  | [] => [(k, v)]
  | (k', v') :: r =>
      if String.eqb k' k then (k', v) :: r else (k', v') :: dict_set k v r
  end.

(** [del d[k]]. *)
Fixpoint dict_del (k : string) (d : list (string * V)) : list (string * V) :=
  match d with
  | [] => []
  | (k', v') :: r =>
      if String.eqb k' k then r else (k', v') :: dict_del k r
  end.

End Dict.

(* ------------------------------------------------------------------ *)
(** ** ConnectionManager *)

Definition connect (websocket : conn) : M unit :=
  modify (fun w =>
    set_active_connections (active_connections w ++ [websocket]) w).

(** [list.remove(x)]: the first occurrence. *)
Fixpoint list_remove (x : conn) (l : list conn) : list conn :=
  match l with
  | [] => []
  | y :: r => if Nat.eqb y x then r else y :: list_remove x r
  end.

Definition disconnect (websocket : conn) : M unit :=
  modify (fun w =>
    if existsb (Nat.eqb websocket) (active_connections w)
    then set_active_connections
           (list_remove websocket (active_connections w)) w
    else w).

Definition send_text (connection : conn) (m : message) : M unit :=
  closed <- get (fun w => send_fails (env w) connection) ;;
  if closed then emit (SendFailed connection m) ;; raise ConnectionClosed
  else emit (Sent connection m).

(** The first loop of [broadcast]; [disconnected] is its local list. *)
Fixpoint broadcast_send (m : message) (connections disconnected : list conn)
  : M (list conn) :=
  match connections with
  | [] => ret disconnected
  | connection :: rest =>
      disconnected' <-
        try_except (send_text connection m ;; ret disconnected)
                   (fun _ => ret (disconnected ++ [connection])) ;;
      broadcast_send m rest disconnected'
  end.

(** The second loop of [broadcast]. *)
Fixpoint broadcast_cleanup (disconnected : list conn) : M unit :=
  match disconnected with
  | [] => ret tt
  | c :: rest => disconnect c ;; broadcast_cleanup rest
  end.

Definition broadcast (m : message) : M unit :=
  emit (Published m) ;;
  connections <- get active_connections ;;
  disconnected <- broadcast_send m connections [] ;;
  broadcast_cleanup disconnected.

(* ------------------------------------------------------------------ *)
(** ** DeviceSimulator *)

(** [start]: the flag; the task it spawns is the loop [simulate_devices]
    below, which the model runs on its own. *)
Definition simulator_start : M unit :=
  running <- get simulator_running ;;
  if running then ret tt else modify (set_simulator_running true).

Definition simulator_stop : M unit := modify (set_simulator_running false).

Definition add_device (d : Device.t) : M unit :=
  now <- utcnow ;;
  wifi <- randint 50 100 ;;
  response <- uniform (1 # 10) (1 # 2) ;;
  modify (fun w =>
    set_devices
      (dict_set (Device.id d) (mk_data d now (mk_sim wifi response))
                (devices w)) w).

Definition remove_device (device_id : string) : M unit :=
  modify (fun w =>
    match dict_get device_id (devices w) with
    | Some _ => set_devices (dict_del device_id (devices w)) w
    | None => w
    end).

(** [self.devices[device_id]], raising when the key is absent. *)
Definition devices_lookup (device_id : string) : M device_entry :=
  ds <- get devices ;;
  match dict_get device_id ds with
  | Some dd => ret dd
  | None => raise KeyError
  end.

Definition control_relay (device_id : string) (state : RelayState) : M bool :=
  ds <- get devices ;;
  match dict_get device_id ds with
  | None => ret false
  | Some _ =>
      (* Simulate network delay *)
      delay <- uniform (1 # 10) (3 # 10) ;;
      sleep delay ;;
      device_data <- devices_lookup device_id ;;
      let old_state := Device.relay_state (device device_data) in
      seen <- utcnow ;;
      changed <- utcnow ;;
      modify (fun w =>
        set_devices
          (dict_set device_id
             (mk_data
                (Device.with_last_seen seen
                   (Device.with_relay_state state (device device_data)))
                changed (sim_data device_data))
             (devices w)) w) ;;
      (* Update database *)
      stored_seen <- utcnow ;;
      db_devices_update_one device_id
        (fun d => Device.with_last_seen stored_seen
                    (Device.with_relay_state state d)) ;;
      (* Log the action *)
      log_id <- uuid4 ;;
      log_time <- utcnow ;;
      db_device_logs_insert_one
        (DeviceLog.mk log_id device_id "relay_control"
           (Some (relay_value old_state)) (Some (relay_value state))
           "manual" log_time) ;;
      (* Broadcast the change *)
      sent_seen <- utcnow ;;
      broadcast (device_update_msg device_id (relay_value state) sent_seen) ;;
      ret true
  end.

(** The in-memory part of one pass of the [for] loop of the tick. *)
Definition simulate_device (device_data : device_entry) : M device_entry :=
  let d := device device_data in
  (* Simulate uptime *)
  let d := Device.with_uptime (Device.uptime d + 5) d in
  (* Simulate occasional connectivity issues *)
  r <- random_random ;;
  let d :=
    if negb (Qle_bool (1 # 100) r) then Device.with_status OFFLINE d
    else Device.with_status ONLINE d in
  (* Update wifi signal strength *)
  step <- randint (-5) 5 ;;
  let wifi := Z.max 30 (sim_wifi_signal (sim_data device_data) + step) in
  let d := Device.with_wifi_signal (Some wifi) d in
  (* Update total runtime if relay is on *)
  let d :=
    if relay_eqb (Device.relay_state d) ON
    then Device.with_total_runtime (Device.total_runtime d + 5) d
    else d in
  now <- utcnow ;;
  let d := Device.with_last_seen now d in
  ret (mk_data d (last_state_change device_data)
         (mk_sim wifi (response_time (sim_data device_data)))).

(** What the tick persists for a device. *)
Definition persist_tick (d : Device.t) (doc : Device.t) : Device.t :=
  Device.with_last_seen (Device.last_seen d)
    (Device.with_wifi_signal (Device.wifi_signal d)
       (Device.with_total_runtime (Device.total_runtime d)
          (Device.with_uptime (Device.uptime d)
             (Device.with_status (Device.status d) doc)))).

(** The [for] loop of the tick over [self.devices.items()]: [visited] are
    the entries already handled, [pending] those still to come.  Each entry
    is mutated in place, then written to the store. *)
Fixpoint simulate_sweep (visited pending : list (string * device_entry))
  : M unit :=
  match pending with
  | [] => ret tt
  | (device_id, device_data) :: rest =>
      device_data' <- simulate_device device_data ;;
      modify (set_devices (visited ++ (device_id, device_data') :: rest)) ;;
      db_devices_update_one device_id (persist_tick (device device_data')) ;;
      simulate_sweep (visited ++ [(device_id, device_data')]) rest
  end.

Definition snapshot_row (entry : string * device_entry) : status_row :=
  let d := device (snd entry) in
  mk_row (Device.id d) (status_value (Device.status d))
         (relay_value (Device.relay_state d)) (Device.uptime d)
         (Device.wifi_signal d) (Device.last_seen d).

(** The body of [while self.running] in [simulate_devices]: one tick. *)
Definition simulate_tick : M unit :=
  try_except
    (items <- get devices ;;
     simulate_sweep [] items ;;
     (* Send periodic status updates *)
     ds <- get devices ;;
     match ds with
     | [] => ret tt
     | _ :: _ => broadcast (status_update_msg (map snapshot_row ds))
     end ;;
     sleep 5)
    (fun e =>
       logging_error ("Simulation error: " ++ exn_str e) ;;
       sleep 5).

(** [simulate_devices], cut off after [fuel] iterations. *)
Fixpoint simulate_devices (fuel : nat) : M unit :=
  match fuel with
  | O => ret tt
  | S fuel' =>
      running <- get simulator_running ;;
      if running then simulate_tick ;; simulate_devices fuel' else ret tt
  end.

(* ------------------------------------------------------------------ *)
(** ** TaskScheduler *)

Definition scheduler_start : M unit :=
  running <- get scheduler_running ;;
  if running then ret tt else modify (set_scheduler_running true).

Definition scheduler_stop : M unit := modify (set_scheduler_running false).

(** The [try] block of [execute_schedule]. *)
Definition execute_schedule_body (schedule : Schedule.t) : M unit :=
  (* Control the device *)
  success <- control_relay (Schedule.device_id schedule)
                           (Schedule.target_state schedule) ;;
  if success then
    (* Log the scheduled action *)
    log_id <- uuid4 ;;
    log_time <- utcnow ;;
    db_device_logs_insert_one
      (DeviceLog.mk log_id (Schedule.device_id schedule)
         "scheduled_control" None
         (Some (relay_value (Schedule.target_state schedule)))
         ("schedule:" ++ Schedule.name schedule) log_time) ;;
    (* If this was a ONCE schedule, deactivate it *)
    match Schedule.schedule_type schedule with
    | ONCE =>
        db_schedules_update_one (Schedule.id schedule)
          (Schedule.with_is_active false)
    | _ => ret tt
    end ;;
    logging_info
      ("Executed schedule '" ++ Schedule.name schedule
       ++ "' for device " ++ Schedule.device_id schedule)
  else ret tt.

Definition execute_schedule (schedule : Schedule.t) : M unit :=
  try_except
    (execute_schedule_body schedule)
    (fun e =>
       logging_error
         ("Failed to execute schedule " ++ Schedule.id schedule ++ ": "
          ++ exn_str e)).

(** The [for schedule_data in schedules] loop of one cycle.  Documents of
    the store are already typed, so building the [Schedule] model from a
    document is the identity. *)
Fixpoint scheduler_sweep (schedules : list Schedule.t)
    (current_time : datetime) : M unit :=
  match schedules with
  | [] => ret tt
  | schedule :: rest =>
      fire <- lift (should_trigger schedule current_time) ;;
      (if fire then execute_schedule schedule else ret tt) ;;
      scheduler_sweep rest current_time
  end.

(** The [try] block of one cycle, up to the sleep. *)
Definition scheduler_cycle : M unit :=
  current_time <- utcnow ;;
  (* Get all active schedules *)
  schedules <- db_schedules_find_active ;;
  scheduler_sweep schedules current_time.

(** The body of [while self.running] in [scheduler_loop]. *)
Definition scheduler_iteration : M unit :=
  try_except
    (scheduler_cycle ;; sleep 60)
    (fun e =>
       logging_error ("Scheduler error: " ++ exn_str e) ;;
       sleep 60).

(** [scheduler_loop], cut off after [fuel] iterations. *)
Fixpoint scheduler_loop (fuel : nat) : M unit :=
  match fuel with
  | O => ret tt
  | S fuel' =>
      running <- get scheduler_running ;;
      if running then scheduler_iteration ;; scheduler_loop fuel' else ret tt
  end.

(* ------------------------------------------------------------------ *)
(** ** The routes that reach the simulator's devices *)

Definition decimal (n : Z) : string := NilZero.string_of_int (Z.to_int n).

Definition create_device (device_input : DeviceCreate.t) : M Device.t :=
  new_id <- uuid4 ;;
  seen <- utcnow ;;
  created <- utcnow ;;
  let d :=
    Device.mk new_id (DeviceCreate.name device_input)
      (DeviceCreate.device_type device_input) (DeviceCreate.room device_input)
      (DeviceCreate.gpio_pin device_input) OFFLINE OFF seen created
      None None 0 0 in
  host <- randint 100 200 ;;
  let d := Device.with_ip_address (Some ("192.168.1." ++ decimal host)%string) d in
  let d := Device.with_status ONLINE d in
  (* Insert into database *)
  db_devices_insert_one d ;;
  (* Add to simulator *)
  add_device d ;;
  ret d.

(** The [$set] of [update_device]: the fields of the request that are
    not [None]. *)
Definition apply_update (u : DeviceUpdate.t) (d : Device.t) : Device.t :=
  let d := match DeviceUpdate.name u with
           | Some v => Device.with_name v d | None => d end in
  let d := match DeviceUpdate.room u with
           | Some v => Device.with_room v d | None => d end in
  match DeviceUpdate.gpio_pin u with
  | Some v => Device.with_gpio_pin (Some v) d | None => d
  end.

Definition update_is_empty (u : DeviceUpdate.t) : bool :=
  match DeviceUpdate.name u, DeviceUpdate.room u, DeviceUpdate.gpio_pin u with
  | None, None, None => true
  | _, _, _ => false
  end.

(** [update_device]; [None] stands for the 404 response. *)
Definition update_device (device_id : string) (device_update : DeviceUpdate.t)
  : M (option Device.t) :=
  found <- db_devices_find_one device_id ;;
  match found with
  | None => ret None
  | Some d =>
      (if update_is_empty device_update then ret tt
       else db_devices_update_one device_id (apply_update device_update)) ;;
      ret (Some (apply_update device_update d))
  end.

(** [delete_device]; [false] stands for the 404 response. *)
Definition delete_device (device_id : string) : M bool :=
  deleted <- db_devices_delete_one device_id ;;
  if deleted then remove_device device_id ;; ret true else ret false.

(** [control_device]; [false] stands for the 404 response. *)
Definition control_device (device_id : string) (state : RelayState) : M bool :=
  control_relay device_id state.

(** The hydration loop of [startup_event]. *)
Fixpoint hydrate (docs : list Device.t) : M unit :=
  match docs with
  | [] => ret tt
  | d :: rest => add_device d ;; hydrate rest
  end.

Definition startup_event : M unit :=
  (* Start device simulator *)
  simulator_start ;;
  (* Start task scheduler *)
  scheduler_start ;;
  (* Load existing devices into simulator *)
  docs <- db_devices_find ;;
  hydrate docs.

(* ------------------------------------------------------------------ *)
(** ** Vocabulary of the statements *)

(** The store never fails a call. *)
Definition reliable_store (w : world) : Prop :=
  forall k, store_fails (env w) k = false.

(** What one delivery attempt leaves in the trace. *)
Definition attempt (e : environment) (m : message) (c : conn) : event :=
  if send_fails e c then SendFailed c m else Sent c m.

Definition drop_connection (c : conn) (l : list conn) : list conn :=
  if existsb (Nat.eqb c) l then list_remove c l else l.

(** The subscriber list once every closed connection met was dropped. *)
Definition survivors (e : environment) (l : list conn) : list conn :=
  fold_left (fun acc c => drop_connection c acc) (filter (send_fails e) l) l.

Definition broadcast_outcome (m : message) (w : world) : world :=
  set_active_connections (survivors (env w) (active_connections w))
    (set_trace
       (trace w ++ Published m
          :: map (attempt (env w) m) (active_connections w)) w).

(** A computation keeps a property of the world, however it ends. *)
Definition preserves {A} (P : world -> Prop) (m : M A) : Prop :=
  forall w, P w -> P (snd (m w)).

(** A property that looks at neither the trace nor the call counter nor
    the subscriber list. *)
Definition silent (P : world -> Prop) : Prop :=
  (forall w t, P w -> P (set_trace t w))
  /\ (forall w n, P w -> P (set_calls n w))
  /\ (forall w l, P w -> P (set_active_connections l w)).

(** The world a successful [control_relay] leaves, read off the nine
    environment calls it makes. *)
Definition relay_outcome (device_id : string) (state : RelayState)
    (device_data : device_entry) (w : world) : world :=
  let e := env w in
  let c := calls w in
  let m := device_update_msg device_id (relay_value state) (clock e (8 + c)) in
  mk_world
    (survivors e (active_connections w))
    (dict_set device_id
       (mk_data
          (Device.with_last_seen (clock e (1 + c))
             (Device.with_relay_state state (device device_data)))
          (clock e (2 + c)) (sim_data device_data))
       (devices w))
    (simulator_running w) (scheduler_running w)
    (update_first (has_device_id device_id)
       (fun d => Device.with_last_seen (clock e (3 + c))
                   (Device.with_relay_state state d))
       (db_devices w))
    (db_schedules w)
    (db_device_logs w
     ++ [DeviceLog.mk (fresh_uuid e (5 + c)) device_id "relay_control"
           (Some (relay_value (Device.relay_state (device device_data))))
           (Some (relay_value state)) "manual" (clock e (6 + c))])
    (trace w
     ++ Slept (scale (1 # 10) (3 # 10) (unit_interval (entropy e c)))
     :: Published m :: map (attempt e m) (active_connections w))
    (9 + c) e.

(* ------------------------------------------------------------------ *)
(** ** A small concrete installation, used to exercise the statements *)

Definition noon : datetime := mk_datetime 2024 1 1 12 0 0 0.

(** The clock advances one second per reading from Monday 2024-01-01
    12:00:00; the store is reliable; websocket 2 is closed. *)
Definition demo_env : environment :=
  mk_env (fun n => mk_datetime 2024 1 1 12 0 (Z.of_nat n) 0)
         (fun n => 1000000000000000 * Z.of_nat n)
         (fun n => ("uuid-" ++ decimal (Z.of_nat n))%string)
         (fun _ => false)
         (fun c => Nat.eqb c 2).

Definition demo_device (device_id : string) (status : DeviceStatus)
    (relay : RelayState) : Device.t :=
  Device.mk device_id "lamp" RELAY "hall" (Some 18) status relay noon noon
    None None 0 0.

Definition demo_entry (device_id : string) (status : DeviceStatus)
    (relay : RelayState) : string * device_entry :=
  (device_id,
   mk_data (demo_device device_id status relay) noon (mk_sim 60 (1 # 10))).

Definition demo_schedule (schedule_id device_id name : string)
    (kind : ScheduleType) (target : RelayState) (trigger_time : string)
    (trigger_date : option datetime) (days : option (list Z)) : Schedule.t :=
  Schedule.mk schedule_id device_id name kind target trigger_time
    trigger_date days true noon.

Definition once_at_noon : Schedule.t :=
  demo_schedule "s-once" "dev-a" "party" ONCE OFF "12:00" (Some noon) None.
Definition daily_at_noon : Schedule.t :=
  demo_schedule "s-daily" "dev-b" "lunch" DAILY ON "12:00" None None.
Definition weekly_mon_wed : Schedule.t :=
  demo_schedule "s-weekly" "dev-b" "bins" WEEKLY ON "12:00" None
    (Some [0; 2]).

Definition demo_world : world :=
  mk_world [1; 2; 3]%nat
    [demo_entry "dev-a" ERROR ON; demo_entry "dev-b" ONLINE OFF]
    true true
    [demo_device "dev-a" ERROR ON; demo_device "dev-b" ONLINE OFF]
    [once_at_noon; daily_at_noon; weekly_mon_wed]
    [] [] 0 demo_env.

(** A world like [w] whose store fails exactly the calls listed. *)
Definition with_store_failures (failing : list nat) (w : world) : world :=
  mk_world (active_connections w) (devices w) (simulator_running w)
    (scheduler_running w) (db_devices w) (db_schedules w) (db_device_logs w)
    (trace w) (calls w)
    (mk_env (clock (env w)) (entropy (env w)) (fresh_uuid (env w))
       (fun k => existsb (Nat.eqb k) failing) (send_fails (env w))).

(** A property that looks at neither the log nor the schedule collection. *)
Definition ledger_blind (P : world -> Prop) : Prop :=
  (forall w v, P w -> P (set_db_device_logs v w))
  /\ (forall w v, P w -> P (set_db_schedules v w)).

(** The world after [n] iterations of the scheduler loop. *)
Fixpoint cycles (n : nat) (w : world) : world :=
  match n with
  | O => w
  | S n' => cycles n' (snd (scheduler_iteration w))
  end.

(** How one pass of the tick changes a registry entry. *)
Definition ticked (before after : device_entry) : Prop :=
  Device.uptime (device after) = Device.uptime (device before) + 5
  /\ Device.total_runtime (device after)
     = (if relay_eqb (Device.relay_state (device before)) ON
        then Device.total_runtime (device before) + 5
        else Device.total_runtime (device before))
  /\ Device.relay_state (device after) = Device.relay_state (device before)
  /\ (Device.status (device after) = ONLINE
      \/ Device.status (device after) = OFFLINE).

Definition untouched_or_ticked (before after : device_entry) : Prop :=
  after = before \/ ticked before after.

(** Two registry items under the same key, their entries related by [R]. *)
Definition same_key (R : device_entry -> device_entry -> Prop)
    (a b : string * device_entry) : Prop :=
  fst b = fst a /\ R (snd a) (snd b).

(** Ticks interleaved with relay commands. *)
Inductive sim_op : Type :=
| Tick
| SetRelay (device_id : string) (state : RelayState).

Definition run_op (o : sim_op) (w : world) : world :=
  match o with
  | Tick => snd (simulate_tick w)
  | SetRelay device_id state => snd (control_relay device_id state w)
  end.

Definition run_ops (ops : list sim_op) (w : world) : world :=
  fold_left (fun w o => run_op o w) ops w.

Definition never_switched_on (device_id : string) (ops : list sim_op) : Prop :=
  Forall (fun o => o <> SetRelay device_id ON) ops.

(** No device, in the registry or in the store, has status [error]. *)
Definition error_free (w : world) : Prop :=
  Forall (fun entry => Device.status (device (snd entry)) <> ERROR)
         (devices w)
  /\ Forall (fun d => Device.status d <> ERROR) (db_devices w).

(** Every operation of the system that writes a device, in the registry
    or in the store.  The schedule and log routes and the read-only routes
    write no device. *)
Inductive operation : Type :=
| CreateDevice (device_input : DeviceCreate.t)
| UpdateDevice (device_id : string) (device_update : DeviceUpdate.t)
| DeleteDevice (device_id : string)
| ControlDevice (device_id : string) (state : RelayState)
| SimulatorTick
| SchedulerIteration
| Startup.

Definition perform (o : operation) (w : world) : world :=
  match o with
  | CreateDevice device_input => snd (create_device device_input w)
  | UpdateDevice device_id device_update =>
      snd (update_device device_id device_update w)
  | DeleteDevice device_id => snd (delete_device device_id w)
  | ControlDevice device_id state => snd (control_device device_id state w)
  | SimulatorTick => snd (simulate_tick w)
  | SchedulerIteration => snd (scheduler_iteration w)
  | Startup => snd (startup_event w)
  end.

(** A schedule whose trigger time can be read. *)
Definition parses (s : Schedule.t) : Prop :=
  exists HH MM, parse_trigger_time (Schedule.trigger_time s) = Ok (HH, MM).

(** What a cycle owes one schedule: when it triggers at [now] it is
    executed, in the world the schedules before it left. *)
Definition fire (now : datetime) (w : world) (s : Schedule.t) : world :=
  match should_trigger s now with
  | Ok true => snd (execute_schedule s w)
  | _ => w
  end.

(** Every schedule of the list evaluated and, when it triggers, executed,
    one after the other. *)
Definition run_schedules (schedules : list Schedule.t) (now : datetime)
    (w : world) : world :=
  fold_left (fire now) schedules w.

(* ------------------------------------------------------------------ *)
(** ** The remaining operations of the hub, the services and the API *)

(** [ConnectionManager.send_personal_message]. *)
Definition send_personal_message (m : message) (websocket : conn) : M unit :=
  try_except (send_text websocket m) (fun _ => disconnect websocket).

Definition db_schedules_insert_one (s : Schedule.t) : M unit :=
  store_call ;;
  modify (fun w => set_db_schedules (db_schedules w ++ [s]) w).

Definition db_schedules_find : M (list Schedule.t) :=
  store_call ;; get db_schedules.

Definition db_schedules_find_one (schedule_id : string)
  : M (option Schedule.t) :=
  store_call ;;
  docs <- get db_schedules ;;
  ret (find (has_schedule_id schedule_id) docs).

Definition db_schedules_delete_one (schedule_id : string) : M bool :=
  store_call ;;
  docs <- get db_schedules ;;
  let '(docs', found) := delete_first (has_schedule_id schedule_id) docs in
  modify (set_db_schedules docs') ;;
  ret found.

(** [get_devices]. *)
Definition get_devices : M (list Device.t) := db_devices_find.

(** [get_device]; [None] stands for the 404 response. *)
Definition get_device (device_id : string) : M (option Device.t) :=
  db_devices_find_one device_id.

Module ScheduleCreate.
Record t := mk {
  device_id : string;
  name : string;
  schedule_type : ScheduleType;
  target_state : RelayState;
  trigger_time : string;
  trigger_date : option datetime;
  days_of_week : option (list Z)
}.
End ScheduleCreate.

(** [create_schedule]; [None] stands for the 404 response. *)
Definition create_schedule (schedule_input : ScheduleCreate.t)
  : M (option Schedule.t) :=
  (* Verify device exists *)
  found <- db_devices_find_one (ScheduleCreate.device_id schedule_input) ;;
  match found with
  | None => ret None
  | Some _ =>
      new_id <- uuid4 ;;
      created <- utcnow ;;
      let schedule :=
        Schedule.mk new_id (ScheduleCreate.device_id schedule_input)
          (ScheduleCreate.name schedule_input)
          (ScheduleCreate.schedule_type schedule_input)
          (ScheduleCreate.target_state schedule_input)
          (ScheduleCreate.trigger_time schedule_input)
          (ScheduleCreate.trigger_date schedule_input)
          (ScheduleCreate.days_of_week schedule_input) true created in
      db_schedules_insert_one schedule ;;
      ret (Some schedule)
  end.

(** [get_schedules]. *)
Definition get_schedules : M (list Schedule.t) := db_schedules_find.

(** [get_device_schedules]. *)
Definition get_device_schedules (device_id : string) : M (list Schedule.t) :=
  store_call ;;
  docs <- get db_schedules ;;
  ret (filter (fun s => String.eqb (Schedule.device_id s) device_id) docs).

(** The [$set] of [update_schedule]: every field of the request. *)
Definition apply_schedule_update (u : ScheduleCreate.t) (s : Schedule.t)
  : Schedule.t :=
  Schedule.mk (Schedule.id s) (ScheduleCreate.device_id u)
    (ScheduleCreate.name u) (ScheduleCreate.schedule_type u)
    (ScheduleCreate.target_state u) (ScheduleCreate.trigger_time u)
    (ScheduleCreate.trigger_date u) (ScheduleCreate.days_of_week u)
    (Schedule.is_active s) (Schedule.created_at s).

(** [update_schedule]; [None] stands for the 404 response.  The update
    keeps the id, so the second [find_one] finds the document again. *)
Definition update_schedule (schedule_id : string)
    (schedule_update : ScheduleCreate.t) : M (option Schedule.t) :=
  found <- db_schedules_find_one schedule_id ;;
  match found with
  | None => ret None
  | Some _ =>
      db_schedules_update_one schedule_id
        (apply_schedule_update schedule_update) ;;
      db_schedules_find_one schedule_id
  end.

(** [delete_schedule]; [false] stands for the 404 response. *)
Definition delete_schedule (schedule_id : string) : M bool :=
  db_schedules_delete_one schedule_id.

(** [toggle_schedule]; [None] stands for the 404 response, [Some b] for
    the new activity flag. *)
Definition toggle_schedule (schedule_id : string) : M (option bool) :=
  found <- db_schedules_find_one schedule_id ;;
  match found with
  | None => ret None
  | Some schedule =>
      let new_status := negb (Schedule.is_active schedule) in
      db_schedules_update_one schedule_id
        (Schedule.with_is_active new_status) ;;
      ret (Some new_status)
  end.

(** The integer fields of [get_system_stats].  The source also reports
    [round(total_runtime / 3600, 2)], a float computed from the sum kept
    here as [stat_total_runtime]. *)
Record system_stats := mk_stats {
  stat_total_devices : Z;
  stat_online_devices : Z;
  stat_offline_devices : Z;
  stat_total_schedules : Z;
  stat_active_schedules : Z;
  stat_total_runtime : Z
}.

Definition count_documents {A} (collection : world -> list A)
    (query : A -> bool) : M Z :=
  store_call ;;
  docs <- get collection ;;
  ret (Z.of_nat (List.length (filter query docs))).

Definition is_online (d : Device.t) : bool :=
  String.eqb (status_value (Device.status d)) "online".

Definition get_system_stats : M system_stats :=
  total_devices <- count_documents db_devices (fun _ => true) ;;
  online_devices <- count_documents db_devices is_online ;;
  total_schedules <- count_documents db_schedules (fun _ => true) ;;
  active_schedules <- count_documents db_schedules Schedule.is_active ;;
  (* Get total runtime for all devices *)
  docs <- db_devices_find ;;
  let total_runtime :=
    fold_left (fun acc d => acc + Device.total_runtime d) docs 0 in
  ret (mk_stats total_devices online_devices
         (total_devices - online_devices) total_schedules active_schedules
         total_runtime).

(** [shutdown_event], up to closing the store client. *)
Definition shutdown_event : M unit :=
  simulator_stop ;;
  scheduler_stop.

(* ------------------------------------------------------------------ *)
(** ** Vocabulary of the further statements *)

(** The world after [n] iterations of the simulator loop. *)
Fixpoint ticks (n : nat) (w : world) : world :=
  match n with
  | O => w
  | S n' => ticks n' (snd (simulate_tick w))
  end.

(** The registry is a dict keyed by device id: keys are unique and each
    entry sits under the id of its device. *)
Definition registry_wf (w : world) : Prop :=
  NoDup (map fst (devices w))
  /\ Forall (fun entry => Device.id (device (snd entry)) = fst entry)
            (devices w).

Fixpoint has_colon (s : string) : bool :=
  match s with
  | EmptyString => false
  | String c r => Ascii.eqb c ":" || has_colon r
  end.

(** The text of a trigger time up to its first colon. *)
Fixpoint first_field (s : string) : string :=
  match s with
  | EmptyString => EmptyString
  | String c r =>
      if Ascii.eqb c ":" then EmptyString else String c (first_field r)
  end.

(** What follows the first colon, when there is one. *)
Fixpoint after_colon (s : string) : option string :=
  match s with
  | EmptyString => None
  | String c r => if Ascii.eqb c ":" then Some r else after_colon r
  end.

(** A wall-clock reading a [datetime] can carry. *)
Definition valid_time (t : datetime) : Prop :=
  0 <= hour t < 24 /\ 0 <= minute t < 60.

(** What one pass of the tick leaves of an entry, beyond [ticked]. *)
Definition ticked_fully (before after : device_entry) : Prop :=
  ticked before after
  /\ Device.id (device after) = Device.id (device before)
  /\ Device.name (device after) = Device.name (device before)
  /\ last_state_change after = last_state_change before
  /\ Device.wifi_signal (device after) = Some (sim_wifi_signal (sim_data after))
  /\ 30 <= sim_wifi_signal (sim_data after)
  /\ sim_wifi_signal (sim_data before) - 5 <= sim_wifi_signal (sim_data after)
  /\ sim_wifi_signal (sim_data after)
     <= Z.max 30 (sim_wifi_signal (sim_data before) + 5).

(** The fields the tick writes agree between a device and a document. *)
Definition persisted (d doc : Device.t) : Prop :=
  Device.status doc = Device.status d
  /\ Device.uptime doc = Device.uptime d
  /\ Device.total_runtime doc = Device.total_runtime d
  /\ Device.wifi_signal doc = Device.wifi_signal d
  /\ Device.last_seen doc = Device.last_seen d.

(** A world like [w] in which exactly the websockets of [closed] are
    closed: what the peers did to their sockets between two operations. *)
Definition with_closed_sockets (closed : conn -> bool) (w : world) : world :=
  mk_world (active_connections w) (devices w) (simulator_running w)
    (scheduler_running w) (db_devices w) (db_schedules w) (db_device_logs w)
    (trace w) (calls w)
    (mk_env (clock (env w)) (entropy (env w)) (fresh_uuid (env w))
       (store_fails (env w)) closed).

(* ------------------------------------------------------------------ *)
(** ** Proof automation *)

Arguments scale : simpl never.
Arguments unit_interval : simpl never.
Arguments broadcast : simpl never.
Arguments attempt : simpl never.
Arguments survivors : simpl never.
Arguments control_relay : simpl never.
Arguments relay_outcome : simpl never.

Ltac run_monad :=
  unfold uniform, random_random, randint, sleep, logging_error, logging_info,
    emit, devices_lookup, utcnow, uuid4, db_devices_update_one,
    db_devices_insert_one, db_device_logs_insert_one,
    db_schedules_update_one, db_schedules_find_active, store_call, ask,
    try_except, bind, get, modify, lift, ret, raise.

(* ------------------------------------------------------------------ *)
(** ** The builtins on sample inputs *)

Example py_split_time : py_split ":" "12:00" = ["12"; "00"].
Proof. reflexivity. Qed.

Example py_split_seconds : py_split ":" "12:00:30" = ["12"; "00"; "30"].
Proof. reflexivity. Qed.

Example py_split_no_colon : py_split ":" "1200" = ["1200"].
Proof. reflexivity. Qed.

Example py_int_plain : py_int "07" = Ok 7.
Proof. reflexivity. Qed.

Example py_int_padded : py_int " +1_2 " = Ok 12.
Proof. reflexivity. Qed.

Example py_int_negative : py_int "-3" = Ok (-3).
Proof. reflexivity. Qed.

Example py_int_empty : py_int "" = Raise ValueError.
Proof. reflexivity. Qed.

Example py_int_double_underscore : py_int "1__2" = Raise ValueError.
Proof. reflexivity. Qed.

Example py_int_separator_not_stripped :
  py_int (String (ascii_of_nat 28) "12") = Raise ValueError.
Proof. reflexivity. Qed.

Example py_int_no_break_space :
  py_int (String (ascii_of_nat 160) "12 ") = Ok 12.
Proof. reflexivity. Qed.

Example py_int_digit_cap :
  py_int (string_of_list_ascii (List.repeat "0"%char 4300)) = Ok 0
  /\ py_int (string_of_list_ascii (List.repeat "0"%char 4301))
     = Raise ValueError.
Proof. split; vm_compute; reflexivity. Qed.

Example parse_missing_minute :
  parse_trigger_time "12" = Raise IndexError.
Proof. reflexivity. Qed.

Example parse_bad_hour : parse_trigger_time "noon" = Raise ValueError.
Proof. reflexivity. Qed.

Example weekday_monday : weekday (mk_datetime 2024 1 1 0 0 0 0) = 0.
Proof. reflexivity. Qed.

Example weekday_leap_day : weekday (mk_datetime 2024 2 29 0 0 0 0) = 3.
Proof. reflexivity. Qed.

Example weekday_sunday : weekday (mk_datetime 2023 12 31 23 59 59 0) = 6.
Proof. reflexivity. Qed.

(* ------------------------------------------------------------------ *)
(** ** Reasoning about the monad *)

Lemma world_eta w :
  mk_world (active_connections w) (devices w) (simulator_running w)
    (scheduler_running w) (db_devices w) (db_schedules w) (db_device_logs w)
    (trace w) (calls w) (env w) = w.
Proof. destruct w; reflexivity. Qed.

Lemma preserves_ret {A} P (a : A) : preserves P (ret a).
Proof. intros w H; exact H. Qed.

Lemma preserves_raise {A} P e : preserves P (@raise A e).
Proof. intros w H; exact H. Qed.

Lemma preserves_get {A} P (f : world -> A) : preserves P (get f).
Proof. intros w H; exact H. Qed.

Lemma preserves_lift {A} P (r : result A) : preserves P (lift r).
Proof. intros w H; exact H. Qed.

Lemma preserves_modify P f :
  (forall w, P w -> P (f w)) -> preserves P (modify f).
Proof. intros Hf w H; apply Hf, H. Qed.

Lemma preserves_bind {A B} P (m : M A) (k : A -> M B) :
  preserves P m -> (forall a, preserves P (k a)) -> preserves P (bind m k).
Proof.
  intros Hm Hk w H. unfold bind. specialize (Hm w H).
  destruct (m w) as [[a|e] w']; cbn in *; [apply Hk, Hm | exact Hm].
Qed.

Lemma preserves_try {A} P (body : M A) (handler : exn -> M A) :
  preserves P body -> (forall e, preserves P (handler e)) ->
  preserves P (try_except body handler).
Proof.
  intros Hm Hk w H. unfold try_except. specialize (Hm w H).
  destruct (body w) as [[a|e] w']; cbn in *; [exact Hm | apply Hk, Hm].
Qed.

Lemma preserves_ask {A} P (f : environment -> nat -> A) :
  silent P -> preserves P (ask f).
Proof. intros (_ & Hc & _) w H. apply Hc, H. Qed.

Lemma preserves_emit P e : silent P -> preserves P (emit e).
Proof. intros (Ht & _) w H. apply Ht, H. Qed.

Lemma preserves_store_call P : silent P -> preserves P store_call.
Proof.
  intros HP. apply preserves_bind; [apply preserves_ask, HP|].
  intros []; [apply preserves_raise | apply preserves_ret].
Qed.

Lemma preserves_random_random P : silent P -> preserves P random_random.
Proof.
  intros HP. apply preserves_bind; [apply preserves_ask, HP|].
  intros; apply preserves_ret.
Qed.

Lemma preserves_randint P a b : silent P -> preserves P (randint a b).
Proof.
  intros HP. apply preserves_bind; [apply preserves_ask, HP|].
  intros; apply preserves_ret.
Qed.

Lemma preserves_uniform P a b : silent P -> preserves P (uniform a b).
Proof.
  intros HP. apply preserves_bind; [apply preserves_random_random, HP|].
  intros; apply preserves_ret.
Qed.

(* ------------------------------------------------------------------ *)
(** ** ConnectionManager.broadcast *)

Lemma disconnect_eq c w :
  disconnect c w
  = (Ok tt, set_active_connections
              (drop_connection c (active_connections w)) w).
Proof.
  unfold disconnect, modify, drop_connection.
  destruct (existsb (Nat.eqb c) (active_connections w)); [reflexivity|].
  destruct w; reflexivity.
Qed.

Lemma broadcast_send_eq m conns : forall disconnected w,
  broadcast_send m conns disconnected w
  = (Ok (disconnected ++ filter (send_fails (env w)) conns),
     set_trace (trace w ++ map (attempt (env w) m) conns) w).
Proof.
  induction conns as [|c rest IH]; intros d w; cbn [broadcast_send].
  - cbn. rewrite !app_nil_r. destruct w; reflexivity.
  - unfold bind at 1. unfold try_except, send_text, bind, get, emit, modify,
      raise, ret.
    cbn [filter map].
    replace (attempt (env w) m c)
      with (if send_fails (env w) c then SendFailed c m else Sent c m)
      by reflexivity.
    destruct (send_fails (env w) c) eqn:Hc; cbn -[broadcast_send attempt];
      rewrite IH; destruct w; cbn -[attempt];
      rewrite <- !app_assoc; reflexivity.
Qed.

Lemma broadcast_cleanup_eq d : forall w,
  broadcast_cleanup d w
  = (Ok tt, set_active_connections
              (fold_left (fun acc c => drop_connection c acc) d
                         (active_connections w)) w).
Proof.
  induction d as [|c rest IH]; intros w; cbn [broadcast_cleanup fold_left].
  - destruct w; reflexivity.
  - unfold bind. rewrite disconnect_eq, IH. reflexivity.
Qed.

Lemma broadcast_eq m w : broadcast m w = (Ok tt, broadcast_outcome m w).
Proof.
  unfold broadcast, bind, emit, modify, get.
  rewrite broadcast_send_eq. rewrite broadcast_cleanup_eq.
  cbn. unfold broadcast_outcome, survivors. cbn.
  rewrite <- app_assoc. reflexivity.
Qed.

Lemma preserves_broadcast P m : silent P -> preserves P (broadcast m).
Proof.
  intros (Ht & _ & Hl) w H. rewrite broadcast_eq. cbn.
  unfold broadcast_outcome. apply Hl, Ht, H.
Qed.

Lemma list_remove_middle c l1 l2 :
  ~ In c l1 -> list_remove c (l1 ++ c :: l2) = l1 ++ l2.
Proof.
  induction l1 as [|x l1 IH]; intros Hn; cbn.
  - rewrite Nat.eqb_refl. reflexivity.
  - destruct (Nat.eqb x c) eqn:E.
    + apply Nat.eqb_eq in E. exfalso. apply Hn. left. exact E.
    + rewrite IH; [reflexivity|]. intros Hin. apply Hn. right. exact Hin.
Qed.

Lemma filter_none {A} (p : A -> bool) l :
  Forall (fun x => p x = false) l -> filter p l = [].
Proof.
  induction 1 as [|x l Hx _ IH]; cbn; [reflexivity|]. rewrite Hx. exact IH.
Qed.

Lemma survivors_one e l1 c l2 :
  send_fails e c = true ->
  Forall (fun x => send_fails e x = false) (l1 ++ l2) ->
  survivors e (l1 ++ c :: l2) = l1 ++ l2.
Proof.
  intros Hc Hall. apply Forall_app in Hall as [H1 H2].
  unfold survivors. rewrite filter_app. cbn [filter]. rewrite Hc.
  rewrite (filter_none _ _ H1), (filter_none _ _ H2). cbn.
  unfold drop_connection.
  assert (Hin : existsb (Nat.eqb c) (l1 ++ c :: l2) = true).
  { apply existsb_exists. exists c. split; [|apply Nat.eqb_refl].
    apply in_or_app. right. left. reflexivity. }
  rewrite Hin. apply list_remove_middle.
  intros Hin1. rewrite Forall_forall in H1. specialize (H1 c Hin1). congruence.
Qed.

Lemma attempts_live e m l :
  Forall (fun x => send_fails e x = false) l ->
  map (attempt e m) l = map (fun c => Sent c m) l.
Proof.
  induction 1 as [|x l Hx _ IH]; cbn; [reflexivity|].
  unfold attempt at 1. rewrite Hx, IH. reflexivity.
Qed.

(* ------------------------------------------------------------------ *)
(** ** DeviceSimulator.control_relay *)

Lemma control_relay_unknown w device_id state :
  dict_get device_id (devices w) = None ->
  control_relay device_id state w = (Ok false, w).
Proof.
  intros Hd. unfold control_relay, bind, get. rewrite Hd. reflexivity.
Qed.

Lemma control_relay_reliable w device_id state device_data :
  dict_get device_id (devices w) = Some device_data ->
  reliable_store w ->
  control_relay device_id state w
  = (Ok true, relay_outcome device_id state device_data w).
Proof.
  intros Hd Hr. unfold control_relay. run_monad. rewrite Hd. cbn.
  rewrite Hd. cbn. rewrite !Hr. cbn. rewrite broadcast_eq.
  unfold broadcast_outcome, relay_outcome. cbn.
  rewrite <- app_assoc. reflexivity.
Qed.

(* ------------------------------------------------------------------ *)
(** ** Dict lemmas *)

Lemma dict_get_set_same {V} k (v : V) d : dict_get k (dict_set k v d) = Some v.
Proof.
  induction d as [|[k' v'] r IH]; cbn.
  - rewrite String.eqb_refl. reflexivity.
  - destruct (String.eqb k' k) eqn:E; cbn; rewrite E; [reflexivity | exact IH].
Qed.

Lemma dict_get_set_other {V} k k' (v : V) d :
  k' <> k -> dict_get k' (dict_set k v d) = dict_get k' d.
Proof.
  intros Hne. induction d as [|[k0 v0] r IH]; cbn.
  - destruct (String.eqb k k') eqn:E; [|reflexivity].
    apply String.eqb_eq in E. congruence.
  - destruct (String.eqb k0 k) eqn:E; cbn.
    + apply String.eqb_eq in E. subst k0.
      destruct (String.eqb k k') eqn:E'; [|reflexivity].
      apply String.eqb_eq in E'. congruence.
    + rewrite IH. reflexivity.
Qed.

(* ------------------------------------------------------------------ *)
(** ** TaskScheduler.should_trigger *)

Lemma date_eqb_eq a b : date_eqb a b = true <-> a = b.
Proof.
  destruct a as [[y1 m1] d1], b as [[y2 m2] d2]; cbn.
  rewrite !andb_true_iff, !Z.eqb_eq. split.
  - intros [[-> ->] ->]. reflexivity.
  - intros E. inversion E. auto.
Qed.

Lemma weekday_range t : 0 <= weekday t <= 6.
Proof. unfold weekday. pose proof (Z.mod_pos_bound (toordinal t + 6) 7). lia. Qed.

Lemma should_trigger_parsed s now HH MM :
  parse_trigger_time (Schedule.trigger_time s) = Ok (HH, MM) ->
  should_trigger s now =
    if (hour now =? HH) && (minute now =? MM) then
      match Schedule.schedule_type s with
      | ONCE =>
          match Schedule.trigger_date s with
          | Some D => Ok (date_eqb (date now) (date D))
          | None => Ok false
          end
      | DAILY => Ok true
      | WEEKLY =>
          match Schedule.days_of_week s with
          | Some (d :: ds) => Ok (existsb (Z.eqb (weekday now)) (d :: ds))
          | _ => Ok false
          end
      end
    else Ok false.
Proof. intros Hp. unfold should_trigger. rewrite Hp. reflexivity. Qed.

Lemma should_trigger_true_parsed s now :
  should_trigger s now = Ok true ->
  exists HH MM,
    parse_trigger_time (Schedule.trigger_time s) = Ok (HH, MM)
    /\ hour now = HH /\ minute now = MM.
Proof.
  unfold should_trigger.
  destruct (parse_trigger_time (Schedule.trigger_time s)) as [[HH MM]|e];
    cbn; [|discriminate].
  destruct ((hour now =? HH) && (minute now =? MM)) eqn:E; [|discriminate].
  apply andb_true_iff in E as [E1 E2]. apply Z.eqb_eq in E1, E2.
  intros _. exists HH, MM. auto.
Qed.

(** C2. A [daily] schedule triggers exactly when the hour and the minute
    of the evaluation time equal the parsed HH and MM of its trigger time;
    whenever the trigger time parses, the answer is that comparison, so one
    minute earlier or later the answer is false. *)
Theorem daily_triggers_on_exact_minute (s : Schedule.t) (now : datetime) :
  Schedule.schedule_type s = DAILY ->
  (should_trigger s now = Ok true <->
   exists HH MM,
     parse_trigger_time (Schedule.trigger_time s) = Ok (HH, MM)
     /\ hour now = HH /\ minute now = MM)
  /\ (forall HH MM,
        parse_trigger_time (Schedule.trigger_time s) = Ok (HH, MM) ->
        should_trigger s now
        = Ok ((hour now =? HH) && (minute now =? MM))
        /\ (minute now = MM + 1 \/ minute now = MM - 1 ->
            should_trigger s now = Ok false)).
Proof.
  intros Hk. split; [split|].
  - apply should_trigger_true_parsed.
  - intros (HH & MM & Hp & Hh & Hm).
    rewrite (should_trigger_parsed _ _ _ _ Hp), Hk.
    subst. rewrite !Z.eqb_refl. reflexivity.
  - intros HH MM Hp. rewrite (should_trigger_parsed _ _ _ _ Hp), Hk.
    split.
    + destruct ((hour now =? HH) && (minute now =? MM)); reflexivity.
    + intros Hoff.
      assert (E : (minute now =? MM) = false) by (apply Z.eqb_neq; lia).
      rewrite E, andb_false_r. reflexivity.
Qed.

Lemma daily_triggers_on_exact_minute_witness :
  should_trigger daily_at_noon noon = Ok true
  /\ should_trigger daily_at_noon (mk_datetime 2024 1 1 12 1 0 0) = Ok false
  /\ should_trigger daily_at_noon (mk_datetime 2024 1 1 11 59 0 0) = Ok false.
Proof.
  split; [|split].
  - apply (proj1 (daily_triggers_on_exact_minute daily_at_noon noon
                    eq_refl)).
    exists 12, 0. repeat split; reflexivity.
  - apply (proj2 (daily_triggers_on_exact_minute daily_at_noon
                    (mk_datetime 2024 1 1 12 1 0 0) eq_refl) 12 0 eq_refl).
    left. reflexivity.
  - exact (proj1 (proj2 (daily_triggers_on_exact_minute daily_at_noon
                    (mk_datetime 2024 1 1 11 59 0 0) eq_refl) 12 0 eq_refl)).
Defined.

(** C3. For a [weekly] schedule whose trigger time parses: when the hour and
    minute of the evaluation time match and the configured day set is not
    empty, it triggers exactly when the weekday index of the evaluation time
    (0 = Monday .. 6 = Sunday) is in the set; with no day set configured, or
    an empty one, it returns false. *)
Theorem weekly_triggers_on_configured_days (s : Schedule.t) (now : datetime)
    (HH MM : Z) :
  Schedule.schedule_type s = WEEKLY ->
  parse_trigger_time (Schedule.trigger_time s) = Ok (HH, MM) ->
  (forall days,
     hour now = HH -> minute now = MM ->
     Schedule.days_of_week s = Some days -> days <> [] ->
     (should_trigger s now = Ok true <-> In (weekday now) days)
     /\ (should_trigger s now = Ok false <-> ~ In (weekday now) days)
     /\ 0 <= weekday now <= 6)
  /\ (Schedule.days_of_week s = None \/ Schedule.days_of_week s = Some [] ->
      should_trigger s now = Ok false).
Proof.
  intros Hk Hp. rewrite (should_trigger_parsed _ _ _ _ Hp), Hk. split.
  - intros days Hh Hm Hd Hne. rewrite Hd. subst HH MM.
    rewrite !Z.eqb_refl. cbn [andb].
    destruct days as [|d ds]; [congruence|].
    assert (Hex : forall b, existsb (Z.eqb (weekday now)) (d :: ds) = b ->
                  (b = true <-> In (weekday now) (d :: ds))).
    { intros b <-. rewrite existsb_exists. split.
      - intros (x & Hin & Hx). apply Z.eqb_eq in Hx. subst x. exact Hin.
      - intros Hin. exists (weekday now). split; [exact Hin|apply Z.eqb_refl]. }
    specialize (Hex _ eq_refl).
    pose proof (weekday_range now) as Hr.
    destruct (existsb (Z.eqb (weekday now)) (d :: ds)).
    + assert (Hin : In (weekday now) (d :: ds)) by (apply Hex; reflexivity).
      split; [tauto|]. split; [|exact Hr].
      split; [discriminate | intros Hn; contradiction].
    + assert (Hn : ~ In (weekday now) (d :: ds))
        by (intros Hin; apply Hex in Hin; discriminate).
      split; [|split; [tauto | exact Hr]].
      split; [discriminate | intros Hin; contradiction].
  - intros [Hd|Hd]; rewrite Hd;
      destruct ((hour now =? HH) && (minute now =? MM)); reflexivity.
Qed.

Lemma weekly_triggers_on_configured_days_witness :
  weekday noon = 0
  /\ should_trigger weekly_mon_wed noon = Ok true
  /\ should_trigger weekly_mon_wed (mk_datetime 2024 1 2 12 0 0 0) = Ok false.
Proof.
  split; [reflexivity|]. split.
  - apply (proj1 (weekly_triggers_on_configured_days weekly_mon_wed noon 12 0
                    eq_refl eq_refl) [0; 2] eq_refl eq_refl eq_refl).
    + discriminate.
    + left. reflexivity.
  - apply (proj1 (weekly_triggers_on_configured_days weekly_mon_wed
                    (mk_datetime 2024 1 2 12 0 0 0) 12 0 eq_refl eq_refl)
             [0; 2] eq_refl eq_refl eq_refl).
    + discriminate.
    + vm_compute. intros [H|[H|[]]]; discriminate.
Defined.

(* ------------------------------------------------------------------ *)
(** ** The testable properties of the broadcast hub and of setRelay *)

(** C7. When exactly one entry [c] of the subscriber list is a closed
    connection, [broadcast] attempts delivery to every entry in list order,
    delivers to the others, leaves the list untouched during the delivery
    loop, removes [c] and nothing else afterwards, and returns normally. *)
Theorem broadcast_drops_the_closed_subscriber (m : message) (w : world)
    (before after : list conn) (c : conn) :
  active_connections w = before ++ c :: after ->
  send_fails (env w) c = true ->
  Forall (fun x => send_fails (env w) x = false) (before ++ after) ->
  exists w',
    broadcast m w = (Ok tt, w')
    /\ trace w'
       = trace w ++ Published m
         :: map (fun x => Sent x m) before
         ++ SendFailed c m :: map (fun x => Sent x m) after
    /\ active_connections
         (snd (broadcast_send m (active_connections w) [] w))
       = active_connections w
    /\ fst (broadcast_send m (active_connections w) [] w) = Ok [c]
    /\ active_connections w' = before ++ after
    /\ List.length (active_connections w')
       = (List.length (active_connections w) - 1)%nat
    /\ devices w' = devices w
    /\ db_devices w' = db_devices w
    /\ db_schedules w' = db_schedules w
    /\ db_device_logs w' = db_device_logs w.
Proof.
  intros Hl Hc Hlive.
  exists (broadcast_outcome m w). split; [apply broadcast_eq|].
  pose proof Hlive as Hlive'. apply Forall_app in Hlive' as [Hb Ha].
  unfold broadcast_outcome. cbn.
  rewrite broadcast_send_eq. cbn. rewrite Hl.
  rewrite (survivors_one _ _ _ _ Hc Hlive).
  rewrite map_app. cbn [map].
  rewrite (attempts_live _ _ _ Hb), (attempts_live _ _ _ Ha).
  unfold attempt. rewrite Hc.
  rewrite filter_app. cbn [filter]. rewrite Hc.
  rewrite (filter_none _ _ Hb), (filter_none _ _ Ha).
  rewrite !length_app. cbn [length].
  repeat split; try reflexivity. cbn [List.length]. lia.
Qed.

Lemma broadcast_drops_the_closed_subscriber_witness :
  exists w',
    broadcast (status_update_msg []) demo_world = (Ok tt, w')
    /\ trace w'
       = [Published (status_update_msg []); Sent 1%nat (status_update_msg []);
          SendFailed 2%nat (status_update_msg []); Sent 3%nat (status_update_msg [])]
    /\ active_connections w' = [1; 3]%nat.
Proof.
  destruct (broadcast_drops_the_closed_subscriber (status_update_msg [])
              demo_world [1%nat] [3%nat] 2%nat eq_refl eq_refl)
    as (w' & Hrun & Htrace & _ & _ & Hconns & _).
  - repeat constructor.
  - exists w'. split; [exact Hrun|]. split; [exact Htrace | exact Hconns].
Defined.

(** C5. On a device id that is not registered, [control_relay] returns
    false and leaves the whole world as it was: no log entry, no broadcast,
    no store write, no change to any registered device. *)
Theorem control_relay_unknown_device (w : world) (device_id : string)
    (state : RelayState) :
  dict_get device_id (devices w) = None ->
  control_relay device_id state w = (Ok false, w).
Proof. apply control_relay_unknown. Qed.

Lemma control_relay_unknown_device_witness :
  control_relay "ghost" ON demo_world = (Ok false, demo_world).
Proof. apply control_relay_unknown_device. reflexivity. Defined.

(** C4. On a registered device id, with a store that answers its calls,
    [control_relay] returns true; the device's relay state is the requested
    one and its last-seen a fresh clock reading; every other device is
    untouched; the store update sets relay state and last-seen of the
    device's document and nothing else; exactly one log entry is appended,
    labelled "manual", with the old and the new state; exactly one message
    is published, a [device_update_msg] with the device id, the relay state and
    a last-seen reading. *)
Theorem control_relay_known_device (w : world) (device_id : string)
    (state : RelayState) (device_data : device_entry) :
  dict_get device_id (devices w) = Some device_data ->
  reliable_store w ->
  exists w' log seen changed stored_seen sent_seen delay,
    control_relay device_id state w = (Ok true, w')
    /\ dict_get device_id (devices w')
       = Some (mk_data
                 (Device.with_last_seen seen
                    (Device.with_relay_state state (device device_data)))
                 changed (sim_data device_data))
    /\ (forall other, other <> device_id ->
          dict_get other (devices w') = dict_get other (devices w))
    /\ db_devices w'
       = update_first (has_device_id device_id)
           (fun d => Device.with_last_seen stored_seen
                       (Device.with_relay_state state d))
           (db_devices w)
    /\ db_schedules w' = db_schedules w
    /\ db_device_logs w' = db_device_logs w ++ [log]
    /\ DeviceLog.device_id log = device_id
    /\ DeviceLog.action log = "relay_control"
    /\ DeviceLog.triggered_by log = "manual"
    /\ DeviceLog.old_state log
       = Some (relay_value (Device.relay_state (device device_data)))
    /\ DeviceLog.new_state log = Some (relay_value state)
    /\ trace w'
       = trace w ++ Slept delay
         :: Published (device_update_msg device_id (relay_value state) sent_seen)
         :: map (attempt (env w)
                   (device_update_msg device_id (relay_value state) sent_seen))
                (active_connections w)
    /\ seen = clock (env w) (1 + calls w)
    /\ stored_seen = clock (env w) (3 + calls w)
    /\ sent_seen = clock (env w) (8 + calls w).
Proof.
  intros Hd Hr.
  exists (relay_outcome device_id state device_data w).
  eexists. exists (clock (env w) (1 + calls w)).
  exists (clock (env w) (2 + calls w)), (clock (env w) (3 + calls w)).
  exists (clock (env w) (8 + calls w)). eexists.
  split; [apply control_relay_reliable; assumption|].
  unfold relay_outcome; cbn -[Nat.add].
  split; [apply dict_get_set_same|].
  split; [intros other Hne; apply dict_get_set_other; exact Hne|].
  repeat split; reflexivity.
Qed.

Lemma control_relay_known_device_witness :
  exists w',
    control_relay "dev-b" ON demo_world = (Ok true, w')
    /\ option_map (fun e => Device.relay_state (device e))
         (dict_get "dev-b" (devices w')) = Some ON
    /\ map DeviceLog.triggered_by (db_device_logs w') = ["manual"]
    /\ map DeviceLog.old_state (db_device_logs w') = [Some "off"]
    /\ map DeviceLog.new_state (db_device_logs w') = [Some "on"].
Proof.
  destruct (control_relay_known_device demo_world "dev-b" ON
              (snd (demo_entry "dev-b" ONLINE OFF)) eq_refl
              (fun k => eq_refl))
    as (w' & log & seen & changed & stored & sent & delay & Hrun & Hdev & _
        & _ & _ & Hlogs & _ & _ & Hby & Hold & Hnew & _).
  exists w'. split; [exact Hrun|]. rewrite Hdev, Hlogs. cbn.
  rewrite Hby, Hold, Hnew. repeat split; reflexivity.
Defined.

(* ------------------------------------------------------------------ *)
(** ** What control_relay does to each part of the world, store failures
       included *)

Lemma control_relay_effects w device_id state device_data :
  dict_get device_id (devices w) = Some device_data ->
  let w' := snd (control_relay device_id state w) in
  devices w' = devices (relay_outcome device_id state device_data w)
  /\ (db_devices w' = db_devices w
      \/ db_devices w'
         = db_devices (relay_outcome device_id state device_data w))
  /\ db_schedules w' = db_schedules w
  /\ scheduler_running w' = scheduler_running w
  /\ simulator_running w' = simulator_running w
  /\ env w' = env w.
Proof.
  intros Hd. unfold control_relay. run_monad. rewrite Hd. cbn.
  rewrite Hd. cbn.
  destruct (store_fails (env w) (S (S (S (S (calls w)))))); cbn;
    [repeat split; auto|].
  destruct (store_fails (env w) (S (S (S (S (S (S (S (calls w))))))))); cbn;
    [repeat split; auto|].
  rewrite broadcast_eq. cbn. repeat split; auto.
Qed.

Lemma control_relay_keeps P device_id state :
  (forall w device_data,
     dict_get device_id (devices w) = Some device_data ->
     P w -> P (snd (control_relay device_id state w))) ->
  preserves P (control_relay device_id state).
Proof.
  intros Hsome w HP.
  destruct (dict_get device_id (devices w)) as [dd|] eqn:Hd.
  - apply (Hsome w dd Hd HP).
  - rewrite (control_relay_unknown _ _ _ Hd). exact HP.
Qed.

(* ------------------------------------------------------------------ *)
(** ** TaskScheduler.execute_schedule *)

Lemma execute_schedule_reliable s w device_data :
  dict_get (Schedule.device_id s) (devices w) = Some device_data ->
  reliable_store w ->
  let w1 := relay_outcome (Schedule.device_id s) (Schedule.target_state s)
              device_data w in
  exists w',
    execute_schedule s w = (Ok tt, w')
    /\ devices w' = devices w1
    /\ db_devices w' = db_devices w1
    /\ db_device_logs w'
       = db_device_logs w1
         ++ [DeviceLog.mk (fresh_uuid (env w) (9 + calls w))
               (Schedule.device_id s) "scheduled_control" None
               (Some (relay_value (Schedule.target_state s)))
               ("schedule:" ++ Schedule.name s)
               (clock (env w) (10 + calls w))]
    /\ db_schedules w'
       = match Schedule.schedule_type s with
         | ONCE => update_first (has_schedule_id (Schedule.id s))
                     (Schedule.with_is_active false) (db_schedules w)
         | _ => db_schedules w
         end
    /\ env w' = env w.
Proof.
  intros Hd Hr w1. unfold execute_schedule, execute_schedule_body.
  unfold try_except. unfold bind at 1.
  rewrite (control_relay_reliable _ _ _ _ Hd Hr). fold w1.
  run_monad. unfold w1, relay_outcome. cbn. rewrite Hr. cbn.
  destruct (Schedule.schedule_type s); cbn; rewrite ?Hr; cbn;
    eexists; repeat split.
Qed.

Lemma preserves_logs_insert P l :
  silent P -> ledger_blind P -> preserves P (db_device_logs_insert_one l).
Proof.
  intros HS [HL _]. apply preserves_bind; [apply preserves_store_call, HS|].
  intros _. apply preserves_modify. intros w. apply HL.
Qed.

Lemma preserves_schedules_update P k f :
  silent P -> ledger_blind P -> preserves P (db_schedules_update_one k f).
Proof.
  intros HS [_ HL]. apply preserves_bind; [apply preserves_store_call, HS|].
  intros _. apply preserves_modify. intros w. apply HL.
Qed.

Lemma preserves_execute_schedule P s :
  silent P -> ledger_blind P ->
  (forall device_id state, preserves P (control_relay device_id state)) ->
  preserves P (execute_schedule s).
Proof.
  intros HS HL HC. unfold execute_schedule, execute_schedule_body.
  apply preserves_try; [|intros e; apply preserves_emit, HS].
  apply preserves_bind; [apply HC|]. intros [|]; [|apply preserves_ret].
  apply preserves_bind; [apply preserves_ask, HS|]. intros log_id.
  apply preserves_bind; [apply preserves_ask, HS|]. intros log_time.
  apply preserves_bind; [apply preserves_logs_insert; assumption|]. intros _.
  apply preserves_bind; [|intros _; apply preserves_emit, HS].
  destruct (Schedule.schedule_type s);
    [apply preserves_schedules_update; assumption | apply preserves_ret ..].
Qed.

Lemma preserves_scheduler_sweep P now schedules :
  silent P -> ledger_blind P ->
  (forall device_id state, preserves P (control_relay device_id state)) ->
  preserves P (scheduler_sweep schedules now).
Proof.
  intros HS HL HC. induction schedules as [|s rest IH]; cbn [scheduler_sweep].
  - apply preserves_ret.
  - apply preserves_bind; [apply preserves_lift|]. intros fire.
    apply preserves_bind; [|intros _; exact IH].
    destruct fire; [apply preserves_execute_schedule; assumption
                   | apply preserves_ret].
Qed.

Lemma preserves_scheduler_iteration P :
  silent P -> ledger_blind P ->
  (forall device_id state, preserves P (control_relay device_id state)) ->
  preserves P scheduler_iteration.
Proof.
  intros HS HL HC. unfold scheduler_iteration, scheduler_cycle.
  apply preserves_try.
  - apply preserves_bind; [|intros _; apply preserves_emit, HS].
    apply preserves_bind; [apply preserves_ask, HS|]. intros now.
    apply preserves_bind;
      [|intros l; apply preserves_scheduler_sweep; assumption].
    unfold db_schedules_find_active.
    apply preserves_bind; [apply preserves_store_call, HS|]. intros _.
    apply preserves_bind; [apply preserves_get|]. intros; apply preserves_ret.
  - intros e. apply preserves_bind; [apply preserves_emit, HS|].
    intros _. apply preserves_emit, HS.
Qed.

Lemma scheduler_keeps_running :
  preserves (fun w => scheduler_running w = true) scheduler_iteration.
Proof.
  apply preserves_scheduler_iteration.
  - repeat split; intros; assumption.
  - split; intros; assumption.
  - intros device_id state. apply control_relay_keeps.
    intros w dd Hd Hrun.
    destruct (control_relay_effects w device_id state dd Hd)
      as (_ & _ & _ & Hk & _).
    rewrite Hk. exact Hrun.
Qed.

Lemma execute_schedule_returns s w : fst (execute_schedule s w) = Ok tt.
Proof.
  unfold execute_schedule, try_except.
  destruct (execute_schedule_body s w) as [[[]|e] w1]; reflexivity.
Qed.

Lemma scheduler_iteration_returns w : fst (scheduler_iteration w) = Ok tt.
Proof.
  unfold scheduler_iteration, try_except. unfold bind at 1.
  destruct (scheduler_cycle w) as [[[]|e] w1]; reflexivity.
Qed.

Lemma should_trigger_answers s now :
  parses s -> exists b, should_trigger s now = Ok b.
Proof.
  intros (HH & MM & Hp). rewrite (should_trigger_parsed _ _ _ _ Hp).
  destruct ((hour now =? HH) && (minute now =? MM)); [|eexists; reflexivity].
  destruct (Schedule.schedule_type s).
  - destruct (Schedule.trigger_date s); eexists; reflexivity.
  - eexists; reflexivity.
  - destruct (Schedule.days_of_week s) as [[|d ds]|]; eexists; reflexivity.
Qed.

Lemma scheduler_sweep_runs_all schedules now : forall w,
  Forall parses schedules ->
  scheduler_sweep schedules now w = (Ok tt, run_schedules schedules now w).
Proof.
  induction schedules as [|s rest IH]; intros w Hall; [reflexivity|].
  inversion Hall as [|x xs Hs Hrest]; subst.
  destruct (should_trigger_answers s now Hs) as (b & Hb).
  cbn [scheduler_sweep run_schedules fold_left]. unfold fire at 2.
  unfold bind at 1. unfold lift. rewrite Hb. unfold bind at 1.
  destruct b.
  - pose proof (execute_schedule_returns s w) as Hret.
    destruct (execute_schedule s w) as [[[]|e] w1]; cbn in *;
      [apply IH, Hrest | discriminate].
  - cbn. apply IH, Hrest.
Qed.

Lemma scheduler_cycle_runs_the_load w :
  store_fails (env w) (1 + calls w) = false ->
  Forall parses (filter Schedule.is_active (db_schedules w)) ->
  scheduler_cycle w
  = (Ok tt,
     run_schedules (filter Schedule.is_active (db_schedules w))
       (clock (env w) (calls w)) (set_calls (2 + calls w) w)).
Proof.
  intros Hstore Hall.
  rewrite <- (scheduler_sweep_runs_all _ _ _ Hall).
  unfold scheduler_cycle. run_monad. cbn -[Nat.add filter].
  change (S (calls w)) with (1 + calls w)%nat. rewrite Hstore.
  reflexivity.
Qed.

(** C8. [execute_schedule] never lets an error of its body escape: it
    logs it and returns normally, whatever failed (relay control, log
    insert, schedule update).  So a cycle is not aborted by it: the sweep
    goes on with the remaining schedules, and a cycle that loads schedules
    whose trigger times parse evaluates every one of them at the cycle's
    time and executes each that triggers, one after the other, whatever
    errors the executions meet.  An iteration of the scheduler loop always
    ends normally with the 60-unit sleep, after logging the error when the
    cycle raised one; and a running loop performs one such iteration after
    another. *)
Theorem schedule_errors_are_contained :
  (forall s w, fst (execute_schedule s w) = Ok tt)
  /\ (forall s w e w1,
        execute_schedule_body s w = (Raise e, w1) ->
        exists detail,
          execute_schedule s w
          = (Ok tt,
             set_trace
               (trace w1
                ++ [LogError ("Failed to execute schedule " ++ Schedule.id s
                              ++ ": " ++ detail)]) w1))
  /\ (forall s rest now w,
        should_trigger s now = Ok true ->
        scheduler_sweep (s :: rest) now w
        = scheduler_sweep rest now (snd (execute_schedule s w)))
  /\ (forall schedules now w,
        Forall parses schedules ->
        scheduler_sweep schedules now w
        = (Ok tt, run_schedules schedules now w))
  /\ (forall before s after now w,
        run_schedules (before ++ s :: after) now w
        = run_schedules after now (fire now (run_schedules before now w) s))
  /\ (forall w,
        store_fails (env w) (1 + calls w) = false ->
        Forall parses (filter Schedule.is_active (db_schedules w)) ->
        scheduler_cycle w
        = (Ok tt,
           run_schedules (filter Schedule.is_active (db_schedules w))
             (clock (env w) (calls w)) (set_calls (2 + calls w) w)))
  /\ (forall w,
        exists w1,
          scheduler_iteration w
          = (Ok tt, set_trace (trace w1 ++ [Slept 60%Q]) w1)
          /\ match scheduler_cycle w with
             | (Ok _, w') => w1 = w'
             | (Raise e, w') =>
                 exists detail,
                   w1 = set_trace
                          (trace w'
                           ++ [LogError ("Scheduler error: " ++ detail)]) w'
             end)
  /\ (forall n w,
        scheduler_running w = true ->
        scheduler_loop n w = (Ok tt, cycles n w)).
Proof.
  split; [exact execute_schedule_returns|].
  split.
  { intros s w e w1 Hbody. exists (exn_str e).
    unfold execute_schedule, try_except. rewrite Hbody. reflexivity. }
  split.
  { intros s rest now w Hfire. cbn [scheduler_sweep].
    unfold bind at 1. unfold lift. rewrite Hfire. unfold bind at 1.
    pose proof (execute_schedule_returns s w) as Hret.
    destruct (execute_schedule s w) as [[[]|e] w1]; cbn in *;
      [reflexivity | discriminate]. }
  split; [intros schedules now w; apply scheduler_sweep_runs_all|].
  split.
  { intros before s after now w. unfold run_schedules.
    rewrite fold_left_app. reflexivity. }
  split; [exact scheduler_cycle_runs_the_load|].
  split.
  { intros w. unfold scheduler_iteration, try_except. unfold bind at 1.
    destruct (scheduler_cycle w) as [[[]|e] w1].
    - exists w1. split; reflexivity.
    - eexists. split; [reflexivity|]. exists (exn_str e). reflexivity. }
  induction n as [|n IH]; intros w Hrun; cbn [scheduler_loop cycles].
  - reflexivity.
  - unfold bind at 1. unfold get. rewrite Hrun. unfold bind at 1.
    pose proof (scheduler_iteration_returns w) as Hret.
    pose proof (scheduler_keeps_running w Hrun) as Hkeep.
    destruct (scheduler_iteration w) as [[[]|e] w1]; cbn in *;
      [apply IH; exact Hkeep | discriminate].
Qed.

Lemma schedule_errors_are_contained_witness :
  let w := with_store_failures [6%nat] demo_world in
  fst (execute_schedule_body once_at_noon (set_calls 2 w))
  = Raise PersistenceError
  /\ fst (scheduler_cycle w) = Ok tt
  /\ map DeviceLog.triggered_by (db_device_logs (snd (scheduler_cycle w)))
     = ["manual"; "schedule:lunch"; "manual"; "schedule:bins"]
  /\ map Schedule.is_active (db_schedules (snd (scheduler_cycle w)))
     = [true; true; true]
  /\ scheduler_sweep [once_at_noon; daily_at_noon] noon w
     = scheduler_sweep [daily_at_noon] noon
         (snd (execute_schedule once_at_noon w))
  /\ scheduler_loop 2 w = (Ok tt, cycles 2 w).
Proof.
  intros w. split; [reflexivity|].
  assert (Hcycle :
    scheduler_cycle w
    = (Ok tt,
       run_schedules (filter Schedule.is_active (db_schedules w))
         (clock (env w) (calls w)) (set_calls (2 + calls w) w))).
  { apply (proj1 (proj2 (proj2 (proj2 (proj2
             (proj2 schedule_errors_are_contained)))))).
    - reflexivity.
    - repeat constructor; exists 12, 0; reflexivity. }
  rewrite Hcycle. split; [reflexivity|]. split; [reflexivity|].
  split; [reflexivity|]. split.
  - apply (proj1 (proj2 (proj2 schedule_errors_are_contained))).
    reflexivity.
  - apply (proj2 (proj2 (proj2 (proj2 (proj2 (proj2 (proj2
             schedule_errors_are_contained))))))).
    reflexivity.
Defined.

(* ------------------------------------------------------------------ *)
(** ** One-shot schedules and the log of a scheduled change *)

Lemma deactivated_not_loaded k l :
  NoDup (map Schedule.id l) ->
  Forall (fun s' => Schedule.id s' <> k)
    (filter Schedule.is_active
       (update_first (has_schedule_id k) (Schedule.with_is_active false) l)).
Proof.
  induction l as [|a r IH]; intros Hnd; cbn; [constructor|].
  inversion Hnd as [|x xs Hnotin Hnd']; subst.
  unfold has_schedule_id at 1. destruct (String.eqb (Schedule.id a) k) eqn:E.
  - apply String.eqb_eq in E. subst k. cbn.
    apply Forall_forall. intros x Hx. apply filter_In in Hx as [Hx _].
    intros Heq. apply Hnotin. rewrite <- Heq. apply in_map, Hx.
  - apply String.eqb_neq in E. cbn.
    destruct (Schedule.is_active a); [constructor; [exact E|]|]; apply IH, Hnd'.
Qed.

Lemma deactivated_in_store s l :
  In s l -> NoDup (map Schedule.id l) ->
  In (Schedule.with_is_active false s)
     (update_first (has_schedule_id (Schedule.id s))
        (Schedule.with_is_active false) l).
Proof.
  induction l as [|a r IH]; intros Hin Hnd; [contradiction|].
  inversion Hnd as [|x xs Hnotin Hnd']; subst. cbn.
  unfold has_schedule_id at 1.
  destruct (String.eqb (Schedule.id a) (Schedule.id s)) eqn:E.
  - apply String.eqb_eq in E. destruct Hin as [->|Hin]; [left; reflexivity|].
    exfalso. apply Hnotin. rewrite E. apply in_map, Hin.
  - apply String.eqb_neq in E. destruct Hin as [->|Hin]; [congruence|].
    right. apply IH; assumption.
Qed.

(** C1. A [once] schedule with trigger date [D] triggers exactly when the
    hour and minute of the evaluation time equal its parsed trigger time and
    the calendar date of the evaluation time is that of [D].  When it then
    fires successfully (registered device, store answering),
    [execute_schedule] sets the active flag of the schedule's document to
    false, so that, schedule ids being unique in the store, the next load of
    the active schedules does not contain it. *)
Theorem once_fires_on_its_date_then_deactivates (s : Schedule.t)
    (D : datetime) :
  Schedule.schedule_type s = ONCE ->
  Schedule.trigger_date s = Some D ->
  (forall now,
     should_trigger s now = Ok true <->
     exists HH MM,
       parse_trigger_time (Schedule.trigger_time s) = Ok (HH, MM)
       /\ hour now = HH /\ minute now = MM /\ date now = date D)
  /\ (forall w device_data,
        dict_get (Schedule.device_id s) (devices w) = Some device_data ->
        reliable_store w ->
        exists w',
          execute_schedule s w = (Ok tt, w')
          /\ db_schedules w'
             = update_first (has_schedule_id (Schedule.id s))
                 (Schedule.with_is_active false) (db_schedules w)
          /\ (NoDup (map Schedule.id (db_schedules w)) ->
              (In s (db_schedules w) ->
               In (Schedule.with_is_active false s) (db_schedules w'))
              /\ fst (db_schedules_find_active w')
                 = Ok (filter Schedule.is_active (db_schedules w'))
              /\ Forall (fun s' => Schedule.id s' <> Schedule.id s)
                   (filter Schedule.is_active (db_schedules w')))).
Proof.
  intros Hk HD. split.
  - intros now. split.
    + intros Ht.
      destruct (should_trigger_true_parsed _ _ Ht) as (HH & MM & Hp & Hh & Hm).
      exists HH, MM. repeat split; try assumption.
      rewrite (should_trigger_parsed _ _ _ _ Hp), Hk, HD in Ht.
      subst HH MM. rewrite !Z.eqb_refl in Ht. cbn [andb] in Ht.
      apply date_eqb_eq. injection Ht as Ht. exact Ht.
    + intros (HH & MM & Hp & Hh & Hm & Hdate).
      rewrite (should_trigger_parsed _ _ _ _ Hp), Hk, HD.
      subst HH MM. rewrite !Z.eqb_refl. cbn [andb]. f_equal.
      apply date_eqb_eq. exact Hdate.
  - intros w dd Hd Hr.
    destruct (execute_schedule_reliable s w dd Hd Hr)
      as (w' & Hrun & _ & _ & _ & Hsched & Henv).
    rewrite Hk in Hsched.
    exists w'. split; [exact Hrun|]. split; [exact Hsched|].
    intros Hnd. rewrite Hsched. split; [|split].
    + intros Hin. apply deactivated_in_store; assumption.
    + unfold db_schedules_find_active. run_monad. cbn. rewrite Henv, Hr.
      cbn. rewrite Hsched. reflexivity.
    + apply deactivated_not_loaded, Hnd.
Qed.

Lemma once_fires_on_its_date_then_deactivates_witness :
  should_trigger once_at_noon noon = Ok true
  /\ exists w',
       execute_schedule once_at_noon demo_world = (Ok tt, w')
       /\ map Schedule.id (filter Schedule.is_active (db_schedules w'))
          = ["s-daily"; "s-weekly"].
Proof.
  destruct (once_fires_on_its_date_then_deactivates once_at_noon noon
              eq_refl eq_refl) as [Hiff Hexec].
  split.
  - apply Hiff. exists 12, 0. repeat split; reflexivity.
  - destruct (Hexec demo_world (snd (demo_entry "dev-a" ERROR ON)) eq_refl
                (fun k => eq_refl)) as (w' & Hrun & Hsched & _).
    exists w'. split; [exact Hrun|]. rewrite Hsched. reflexivity.
Defined.

(** C9. A schedule-triggered relay change that succeeds (registered
    device, store answering) appends exactly two log entries: first the one
    [control_relay] writes, labelled "manual" and carrying the old state,
    then the one [execute_schedule] writes, labelled with the schedule's
    name and with no old state. *)
Theorem scheduled_change_appends_two_logs (s : Schedule.t) (w : world)
    (device_data : device_entry) :
  dict_get (Schedule.device_id s) (devices w) = Some device_data ->
  reliable_store w ->
  exists w' manual_log schedule_log,
    execute_schedule s w = (Ok tt, w')
    /\ db_device_logs w' = db_device_logs w ++ [manual_log; schedule_log]
    /\ DeviceLog.device_id manual_log = Schedule.device_id s
    /\ DeviceLog.action manual_log = "relay_control"
    /\ DeviceLog.triggered_by manual_log = "manual"
    /\ DeviceLog.old_state manual_log
       = Some (relay_value (Device.relay_state (device device_data)))
    /\ DeviceLog.new_state manual_log
       = Some (relay_value (Schedule.target_state s))
    /\ DeviceLog.device_id schedule_log = Schedule.device_id s
    /\ DeviceLog.action schedule_log = "scheduled_control"
    /\ DeviceLog.triggered_by schedule_log
       = ("schedule:" ++ Schedule.name s)%string
    /\ DeviceLog.old_state schedule_log = None
    /\ DeviceLog.new_state schedule_log
       = Some (relay_value (Schedule.target_state s)).
Proof.
  intros Hd Hr.
  destruct (execute_schedule_reliable s w device_data Hd Hr)
    as (w' & Hrun & _ & _ & Hlogs & _).
  exists w'. do 2 eexists. split; [exact Hrun|].
  split.
  - rewrite Hlogs. unfold relay_outcome. cbn -[Nat.add].
    rewrite <- app_assoc. reflexivity.
  - repeat split.
Qed.

Lemma scheduled_change_appends_two_logs_witness :
  exists w',
    execute_schedule daily_at_noon demo_world = (Ok tt, w')
    /\ map DeviceLog.triggered_by (db_device_logs w')
       = ["manual"; "schedule:lunch"]
    /\ map DeviceLog.old_state (db_device_logs w') = [Some "off"; None].
Proof.
  destruct (scheduled_change_appends_two_logs daily_at_noon demo_world
              (snd (demo_entry "dev-b" ONLINE OFF)) eq_refl
              (fun k => eq_refl))
    as (w' & l1 & l2 & Hrun & Hlogs & _ & _ & Hby1 & Hold1 & _ & _ & _
        & Hby2 & Hold2 & _).
  exists w'. split; [exact Hrun|]. rewrite Hlogs. cbn.
  rewrite Hby1, Hby2, Hold1, Hold2. split; reflexivity.
Defined.

(* ------------------------------------------------------------------ *)
(** ** The simulator tick *)

Lemma simulate_device_spec device_data w :
  exists device_data',
    simulate_device device_data w
    = (Ok device_data', set_calls (3 + calls w) w)
    /\ ticked device_data device_data'
    /\ (Device.status (device device_data') = OFFLINE <->
        Qle_bool (1 # 100) (unit_interval (entropy (env w) (calls w)))
        = false).
Proof.
  unfold simulate_device. run_monad.
  cbn -[Z.add Z.max Z.modulo Z.sub Nat.add Qle_bool unit_interval].
  eexists. split; [reflexivity|]. unfold ticked.
  destruct (Qle_bool (1 # 100) (unit_interval (entropy (env w) (calls w))));
    destruct (Device.relay_state (device device_data)) eqn:Hrel;
    cbn -[Z.add Z.max Z.modulo Z.sub Nat.add]; rewrite ?Hrel;
    cbn -[Z.add Z.max Z.modulo Z.sub Nat.add];
    repeat split; auto; discriminate.
Qed.

Lemma Forall2_same_key_refl R l :
  (forall a, R a a) -> Forall2 (same_key R) l l.
Proof.
  intros HR. induction l as [|a l IH]; constructor; [|exact IH].
  split; [reflexivity | apply HR].
Qed.

Lemma Forall2_same_key_weaken (R R' : device_entry -> device_entry -> Prop)
    l l' :
  (forall a b, R a b -> R' a b) ->
  Forall2 (same_key R) l l' -> Forall2 (same_key R') l l'.
Proof.
  intros HR. induction 1 as [|a b l l' [Hk Hab] _ IH]; constructor;
    [split; [exact Hk | apply HR, Hab] | exact IH].
Qed.

Lemma dict_get_related R k l l' a :
  Forall2 (same_key R) l l' ->
  dict_get k l = Some a ->
  exists b, dict_get k l' = Some b /\ R a b.
Proof.
  induction 1 as [|[k1 v1] [k2 v2] l l' [Hk Hv] _ IH]; cbn;
    [discriminate|].
  cbn in Hk, Hv. subst k2.
  destruct (String.eqb k1 k); [|exact IH].
  intros E. injection E as <-. exists v2. split; [reflexivity | exact Hv].
Qed.

Lemma Forall_update_first {A} (P : A -> Prop) p f l :
  (forall a, P a -> P (f a)) -> Forall P l -> Forall P (update_first p f l).
Proof.
  intros Hf. induction 1 as [|a l Ha Hl IH]; cbn; [constructor|].
  destruct (p a); constructor; auto.
Qed.

Lemma simulate_sweep_step visited device_id device_data rest w dd' :
  simulate_device device_data w = (Ok dd', set_calls (3 + calls w) w) ->
  simulate_sweep visited ((device_id, device_data) :: rest) w
  = let w1 := set_devices (visited ++ (device_id, dd') :: rest)
                (set_calls (3 + calls w) w) in
    if store_fails (env w) (3 + calls w)
    then (Raise PersistenceError, set_calls (4 + calls w) w1)
    else simulate_sweep (visited ++ [(device_id, dd')]) rest
           (set_db_devices
              (update_first (has_device_id device_id)
                 (persist_tick (device dd')) (db_devices w))
              (set_calls (4 + calls w) w1)).
Proof.
  intros Hsim. cbn [simulate_sweep]. unfold bind at 1. rewrite Hsim.
  unfold db_devices_update_one. run_monad. cbn -[simulate_sweep].
  destruct (store_fails (env w) (S (S (S (calls w))))); reflexivity.
Qed.

Lemma simulate_sweep_spec pending : forall visited w,
  devices w = visited ++ pending ->
  exists pending',
    devices (snd (simulate_sweep visited pending w)) = visited ++ pending'
    /\ Forall2 (same_key untouched_or_ticked) pending pending'
    /\ (fst (simulate_sweep visited pending w) = Ok tt ->
        Forall2 (same_key ticked) pending pending')
    /\ (reliable_store w -> fst (simulate_sweep visited pending w) = Ok tt)
    /\ (Forall (fun d => Device.status d <> ERROR) (db_devices w) ->
        Forall (fun d => Device.status d <> ERROR)
               (db_devices (snd (simulate_sweep visited pending w)))).
Proof.
  induction pending as [|[device_id device_data] rest IH]; intros visited w Hw.
  - exists []. cbn. repeat split; auto; constructor.
  - destruct (simulate_device_spec device_data w)
      as (dd' & Hsim & Hticked & _).
    rewrite (simulate_sweep_step _ _ _ _ _ _ Hsim). cbv zeta.
    destruct (store_fails (env w) (3 + calls w)) eqn:Hfail.
    + exists ((device_id, dd') :: rest). split; [reflexivity|].
      split.
      { constructor.
        - split; [reflexivity | right; exact Hticked].
        - apply Forall2_same_key_refl. intros a. left. reflexivity. }
      split; [discriminate|]. split; [|auto].
      intros Hr. rewrite Hr in Hfail. discriminate.
    + match goal with
      | |- context [simulate_sweep _ rest ?w1] =>
          destruct (IH (visited ++ [(device_id, dd')]) w1)
            as (rest' & Hdev & Hrel & Hok & Hrel_ok & Hdb)
      end.
      { cbn. rewrite <- app_assoc. reflexivity. }
      exists ((device_id, dd') :: rest').
      split; [rewrite Hdev, <- app_assoc; reflexivity|].
      split.
      { constructor; [|exact Hrel].
        split; [reflexivity | right; exact Hticked]. }
      split.
      { intros Hres. constructor; [|apply Hok, Hres].
        split; [reflexivity | exact Hticked]. }
      split.
      { intros Hr. apply Hrel_ok. exact Hr. }
      intros Hfree. apply Hdb. cbn. apply Forall_update_first; [|exact Hfree].
      intros d _. unfold persist_tick. cbn.
      destruct Hticked as (_ & _ & _ & [-> | ->]); discriminate.
Qed.

Lemma simulate_tick_returns w :
  exists w2,
    simulate_tick w = (Ok tt, w2)
    /\ devices w2 = devices (snd (simulate_sweep [] (devices w) w))
    /\ db_devices w2 = db_devices (snd (simulate_sweep [] (devices w) w)).
Proof.
  unfold simulate_tick, try_except. unfold bind at 1. unfold get at 1.
  unfold bind at 1.
  destruct (simulate_sweep [] (devices w) w) as [[[]|e] w1].
  - unfold bind at 1. unfold get at 1. unfold bind at 1.
    destruct (devices w1) eqn:Hds.
    + cbn. eexists. split; [reflexivity|]. cbn. rewrite Hds.
      split; reflexivity.
    + rewrite broadcast_eq. cbn. eexists. split; [reflexivity|]. cbn.
      rewrite Hds. split; reflexivity.
  - cbn. eexists. split; [reflexivity|]. split; reflexivity.
Qed.

Lemma simulate_tick_frame w :
  devices (snd (simulate_tick w))
  = devices (snd (simulate_sweep [] (devices w) w))
  /\ db_devices (snd (simulate_tick w))
     = db_devices (snd (simulate_sweep [] (devices w) w)).
Proof.
  destruct (simulate_tick_returns w) as (w2 & -> & Hd & Hdb).
  split; assumption.
Qed.

Lemma simulate_tick_spec w :
  exists after,
    devices (snd (simulate_tick w)) = after
    /\ Forall2 (same_key untouched_or_ticked) (devices w) after
    /\ (reliable_store w -> Forall2 (same_key ticked) (devices w) after)
    /\ (Forall (fun d => Device.status d <> ERROR) (db_devices w) ->
        Forall (fun d => Device.status d <> ERROR)
               (db_devices (snd (simulate_tick w)))).
Proof.
  destruct (simulate_tick_frame w) as [Hd Hdb].
  destruct (simulate_sweep_spec (devices w) [] w eq_refl)
    as (after & Hdev & Hrel & Hok & Hrel_ok & Hfree).
  exists after. rewrite Hd, Hdb. split; [exact Hdev|].
  split; [exact Hrel|]. split; [|exact Hfree].
  intros Hr. apply Hok, Hrel_ok, Hr.
Qed.

(* ------------------------------------------------------------------ *)
(** ** Counters under ticks and relay commands *)

Lemma control_relay_entry w device_id state other before :
  dict_get other (devices w) = Some before ->
  exists after,
    dict_get other (devices (snd (control_relay device_id state w)))
    = Some after
    /\ Device.uptime (device after) = Device.uptime (device before)
    /\ Device.total_runtime (device after)
       = Device.total_runtime (device before)
    /\ Device.status (device after) = Device.status (device before)
    /\ (other <> device_id -> after = before)
    /\ (other = device_id -> Device.relay_state (device after) = state).
Proof.
  intros Hb.
  destruct (dict_get device_id (devices w)) as [dd|] eqn:Hd.
  - destruct (control_relay_effects w device_id state dd Hd) as (Hdev & _).
    rewrite Hdev. unfold relay_outcome. cbn -[Nat.add].
    destruct (String.eqb_spec other device_id) as [->|Hne].
    + rewrite dict_get_set_same. eexists. split; [reflexivity|].
      assert (dd = before) by congruence. subst dd.
      cbn. repeat split; auto. intros Hne. congruence.
    + rewrite (dict_get_set_other _ _ _ _ Hne). exists before.
      repeat split; auto. intros He. congruence.
  - rewrite (control_relay_unknown _ _ _ Hd). cbn. exists before.
    repeat split; auto. intros He. congruence.
Qed.

Lemma run_op_entry o w device_id before :
  dict_get device_id (devices w) = Some before ->
  exists after,
    dict_get device_id (devices (run_op o w)) = Some after
    /\ (Device.total_runtime (device before) <= Device.uptime (device before)
        -> Device.total_runtime (device after)
           <= Device.uptime (device after))
    /\ (o <> SetRelay device_id ON ->
        Device.relay_state (device before) = OFF ->
        Device.total_runtime (device before) = 0 ->
        Device.relay_state (device after) = OFF
        /\ Device.total_runtime (device after) = 0).
Proof.
  intros Hb. destruct o as [|target state]; cbn [run_op].
  - destruct (simulate_tick_spec w) as (after & Hdev & Hrel & _).
    rewrite Hdev.
    destruct (dict_get_related _ _ _ _ _ Hrel Hb) as (b & Hget & Hb').
    exists b. split; [exact Hget|].
    destruct Hb' as [->|(Hup & Hrun & Hrelay & _)]; [tauto|].
    split.
    + intros Hle. rewrite Hup, Hrun.
      destruct (relay_eqb (Device.relay_state (device before)) ON); lia.
    + intros _ Hoff Hzero. rewrite Hrelay, Hrun, Hoff. cbn. auto.
  - destruct (control_relay_entry w target state device_id before Hb)
      as (after & Hget & Hup & Hrun & _ & Hother & Hsame).
    exists after. split; [exact Hget|]. split; [lia|].
    intros Hop Hoff Hzero. split; [|lia].
    destruct (String.eqb_spec device_id target) as [->|Hne].
    + rewrite (Hsame eq_refl). destruct state; [congruence | reflexivity].
    + rewrite (Hother Hne). exact Hoff.
Qed.

(** C6. One tick, the store answering, adds 5 to the uptime of every
    registered device and 5 to its total runtime exactly when its relay is
    on.  A relay command touches neither counter.  Hence, through any
    interleaving of ticks and relay commands (store failures included),
    [total_runtime <= uptime] is kept, and a device that starts with a total
    runtime of 0 and its relay off, and is never switched on, keeps a total
    runtime of 0. *)
Theorem tick_counts_uptime_and_runtime :
  (forall w device_id before,
     reliable_store w ->
     dict_get device_id (devices w) = Some before ->
     exists after,
       dict_get device_id (devices (snd (simulate_tick w))) = Some after
       /\ Device.uptime (device after) = Device.uptime (device before) + 5
       /\ Device.total_runtime (device after)
          = match Device.relay_state (device before) with
            | ON => Device.total_runtime (device before) + 5
            | OFF => Device.total_runtime (device before)
            end)
  /\ (forall w device_id state other before,
        dict_get other (devices w) = Some before ->
        exists after,
          dict_get other (devices (snd (control_relay device_id state w)))
          = Some after
          /\ Device.uptime (device after) = Device.uptime (device before)
          /\ Device.total_runtime (device after)
             = Device.total_runtime (device before))
  /\ (forall ops w device_id before,
        dict_get device_id (devices w) = Some before ->
        Device.total_runtime (device before)
        <= Device.uptime (device before) ->
        exists after,
          dict_get device_id (devices (run_ops ops w)) = Some after
          /\ Device.total_runtime (device after)
             <= Device.uptime (device after)
          /\ (Device.total_runtime (device before) = 0 ->
              Device.relay_state (device before) = OFF ->
              never_switched_on device_id ops ->
              Device.total_runtime (device after) = 0)).
Proof.
  split; [|split].
  - intros w device_id before Hr Hb.
    destruct (simulate_tick_spec w) as (after & Hdev & _ & Hrel & _).
    rewrite Hdev.
    destruct (dict_get_related _ _ _ _ _ (Hrel Hr) Hb)
      as (b & Hget & Hup & Hrun & _).
    exists b. split; [exact Hget|]. split; [exact Hup|].
    rewrite Hrun. destruct (Device.relay_state (device before)); reflexivity.
  - intros w device_id state other before Hb.
    destruct (control_relay_entry w device_id state other before Hb)
      as (after & Hget & Hup & Hrun & _).
    exists after. auto.
  - induction ops as [|o ops IH]; intros w device_id before Hb Hle.
    + exists before. cbn. auto.
    + destruct (run_op_entry o w device_id before Hb)
        as (mid & Hmid & Hle' & Hzero).
      destruct (IH (run_op o w) device_id mid Hmid (Hle' Hle))
        as (after & Hget & Hle'' & Hzero').
      exists after. cbn [run_ops fold_left]. split; [exact Hget|].
      split; [exact Hle''|].
      intros H0 Hoff Hnever. inversion Hnever as [|x xs Ho Hrest]; subst.
      destruct (Hzero Ho Hoff H0) as [Hoff' H0'].
      apply Hzero'; assumption.
Qed.

Lemma tick_counts_uptime_and_runtime_witness :
  (exists after,
     dict_get "dev-a" (devices (snd (simulate_tick demo_world))) = Some after
     /\ Device.uptime (device after) = 5
     /\ Device.total_runtime (device after) = 5)
  /\ (exists after,
        dict_get "dev-b"
          (devices (run_ops [Tick; SetRelay "dev-a" OFF; Tick; Tick]
                            demo_world)) = Some after
        /\ Device.total_runtime (device after)
           <= Device.uptime (device after)
        /\ Device.total_runtime (device after) = 0).
Proof.
  split.
  - destruct (proj1 tick_counts_uptime_and_runtime demo_world "dev-a"
                (snd (demo_entry "dev-a" ERROR ON)) (fun k => eq_refl)
                eq_refl) as (after & Hget & Hup & Hrun).
    exists after. split; [exact Hget|]. split; [exact Hup | exact Hrun].
  - destruct (proj2 (proj2 tick_counts_uptime_and_runtime)
                [Tick; SetRelay "dev-a" OFF; Tick; Tick] demo_world "dev-b"
                (snd (demo_entry "dev-b" ONLINE OFF)) eq_refl)
      as (after & Hget & Hle & Hzero).
    + cbn. lia.
    + exists after. split; [exact Hget|]. split; [exact Hle|].
      apply Hzero; [reflexivity | reflexivity |].
      repeat constructor; discriminate.
Defined.

(* ------------------------------------------------------------------ *)
(** ** The status [error] *)

Lemma dict_get_In {V} k (v : V) l : dict_get k l = Some v -> In (k, v) l.
Proof.
  induction l as [|[k' v'] r IH]; cbn; [discriminate|].
  destruct (String.eqb_spec k' k) as [->|_].
  - intros E. injection E as ->. left. reflexivity.
  - intros E. right. apply IH, E.
Qed.

Lemma registry_ok_set k v (l : list (string * device_entry)) :
  Forall (fun entry => Device.status (device (snd entry)) <> ERROR) l ->
  Device.status (device v) <> ERROR ->
  Forall (fun entry => Device.status (device (snd entry)) <> ERROR)
         (dict_set k v l).
Proof.
  intros Hl Hv. induction Hl as [|[k' v'] r Ha Hr IH]; cbn.
  - constructor; [exact Hv | constructor].
  - destruct (String.eqb k' k); constructor; auto.
Qed.

Lemma registry_ok_del k (l : list (string * device_entry)) :
  Forall (fun entry => Device.status (device (snd entry)) <> ERROR) l ->
  Forall (fun entry => Device.status (device (snd entry)) <> ERROR)
         (dict_del k l).
Proof.
  induction 1 as [|[k' v'] r Ha Hr IH]; cbn; [constructor|].
  destruct (String.eqb k' k); [exact Hr | constructor; auto].
Qed.

Lemma Forall_delete_first {A} (P : A -> Prop) p l :
  Forall P l -> Forall P (fst (delete_first p l)).
Proof.
  induction 1 as [|a r Ha Hr IH]; cbn; [constructor|].
  destruct (p a); [exact Hr|].
  destruct (delete_first p r) as [r' found]. cbn in *. constructor; auto.
Qed.

Lemma error_free_silent : silent error_free.
Proof.
  split; [|split]; intros w v [H1 H2]; split; assumption.
Qed.

Lemma error_free_ledger_blind : ledger_blind error_free.
Proof. split; intros w v [H1 H2]; split; assumption. Qed.

Lemma control_relay_error_free device_id state :
  preserves error_free (control_relay device_id state).
Proof.
  apply control_relay_keeps. intros w dd Hd [Hreg Hdb].
  destruct (control_relay_effects w device_id state dd Hd)
    as (Hdev & Hstore & _).
  split.
  - rewrite Hdev. unfold relay_outcome. cbn -[Nat.add].
    apply registry_ok_set; [exact Hreg|]. cbn.
    rewrite Forall_forall in Hreg. apply (Hreg _ (dict_get_In _ _ _ Hd)).
  - destruct Hstore as [-> | ->]; [exact Hdb|].
    unfold relay_outcome. cbn -[Nat.add].
    apply Forall_update_first; [|exact Hdb]. intros d Hok. exact Hok.
Qed.

Lemma add_device_error_free d :
  Device.status d <> ERROR -> preserves error_free (add_device d).
Proof.
  intros Hd w [Hreg Hdb]. unfold add_device. run_monad. cbn -[Z.add Z.sub].
  split; [|exact Hdb]. apply registry_ok_set; assumption.
Qed.

Lemma hydrate_error_free docs :
  Forall (fun d => Device.status d <> ERROR) docs ->
  preserves error_free (hydrate docs).
Proof.
  induction 1 as [|d docs Hd _ IH]; cbn [hydrate].
  - apply preserves_ret.
  - apply preserves_bind; [apply add_device_error_free, Hd|].
    intros _. exact IH.
Qed.

Lemma startup_error_free : preserves error_free startup_event.
Proof.
  unfold startup_event.
  apply preserves_bind.
  { unfold simulator_start. apply preserves_bind; [apply preserves_get|].
    intros [|]; [apply preserves_ret|].
    apply preserves_modify. intros w [H1 H2]. split; assumption. }
  intros _. apply preserves_bind.
  { unfold scheduler_start. apply preserves_bind; [apply preserves_get|].
    intros [|]; [apply preserves_ret|].
    apply preserves_modify. intros w [H1 H2]. split; assumption. }
  intros _ w Hfree. unfold db_devices_find. run_monad. cbn.
  destruct (store_fails (env w) (calls w)); cbn.
  - destruct Hfree as [H1 H2]. split; assumption.
  - apply hydrate_error_free; [apply Hfree|].
    destruct Hfree as [H1 H2]. split; assumption.
Qed.

Lemma create_device_spec device_input w :
  let d :=
    Device.mk (fresh_uuid (env w) (calls w))
      (DeviceCreate.name device_input)
      (DeviceCreate.device_type device_input)
      (DeviceCreate.room device_input) (DeviceCreate.gpio_pin device_input)
      ONLINE OFF (clock (env w) (1 + calls w)) (clock (env w) (2 + calls w))
      (Some ("192.168.1."
             ++ decimal (100 + entropy (env w) (3 + calls w)
                               mod (200 - 100 + 1)))%string)
      None 0 0 in
  if store_fails (env w) (4 + calls w)
  then create_device device_input w
       = (Raise PersistenceError, set_calls (5 + calls w) w)
  else exists entry,
      create_device device_input w
      = (Ok d,
         set_devices (dict_set (Device.id d) entry (devices w))
           (set_db_devices (db_devices w ++ [d])
              (set_calls (8 + calls w) w)))
      /\ device entry = d.
Proof.
  unfold create_device, add_device. run_monad.
  cbn -[Z.add Z.sub Z.modulo decimal String.append].
  destruct (store_fails (env w) (S (S (S (S (calls w))))));
    cbn -[Z.add Z.sub Z.modulo decimal String.append]; [reflexivity|].
  eexists. split; reflexivity.
Qed.

Lemma create_device_error_free device_input :
  preserves error_free (create_device device_input).
Proof.
  intros w [Hreg Hdb]. pose proof (create_device_spec device_input w) as H.
  cbv zeta in H. destruct (store_fails (env w) (4 + calls w)).
  - rewrite H. split; assumption.
  - destruct H as (entry & -> & Hentry). split; cbn -[Nat.add].
    + apply registry_ok_set; [exact Hreg|]. rewrite Hentry. discriminate.
    + apply Forall_app. split; [exact Hdb|].
      constructor; [discriminate | constructor].
Qed.

Lemma apply_update_status u d :
  Device.status (apply_update u d) = Device.status d.
Proof.
  unfold apply_update.
  destruct (DeviceUpdate.name u), (DeviceUpdate.room u),
    (DeviceUpdate.gpio_pin u); reflexivity.
Qed.

Lemma update_device_error_free device_id u :
  preserves error_free (update_device device_id u).
Proof.
  intros w [Hreg Hdb]. unfold update_device, db_devices_find_one,
    db_devices_update_one. run_monad. cbn.
  destruct (store_fails (env w) (calls w)); cbn; [split; assumption|].
  destruct (find (has_device_id device_id) (db_devices w)); cbn;
    [|split; assumption].
  destruct (update_is_empty u); cbn; [split; assumption|].
  destruct (store_fails (env w) (S (calls w))); cbn; [split; assumption|].
  split; [exact Hreg|]. apply Forall_update_first; [|exact Hdb].
  intros d Hd. rewrite apply_update_status. exact Hd.
Qed.

Lemma delete_device_error_free device_id :
  preserves error_free (delete_device device_id).
Proof.
  intros w [Hreg Hdb]. unfold delete_device, db_devices_delete_one,
    remove_device. run_monad. cbn.
  destruct (store_fails (env w) (calls w)); cbn; [split; assumption|].
  pose proof (Forall_delete_first _ (has_device_id device_id) _ Hdb) as Hdel.
  destruct (delete_first (has_device_id device_id) (db_devices w))
    as [docs' found]. cbn in Hdel. cbn.
  destruct found; cbn; [|split; assumption].
  destruct (dict_get device_id (devices w)); cbn; split; try assumption.
  apply registry_ok_del, Hreg.
Qed.

Lemma registry_ok_ticked l l' :
  Forall2 (same_key untouched_or_ticked) l l' ->
  Forall (fun entry => Device.status (device (snd entry)) <> ERROR) l ->
  Forall (fun entry => Device.status (device (snd entry)) <> ERROR) l'.
Proof.
  induction 1 as [|a b l l' [_ Hab] _ IH]; intros Hl; [constructor|].
  inversion Hl as [|x xs Ha Hrest]; subst. constructor; [|apply IH, Hrest].
  destruct Hab as [-> | (_ & _ & _ & [-> | ->])];
    [exact Ha | discriminate | discriminate].
Qed.

Lemma registry_live_ticked l l' :
  Forall2 (same_key ticked) l l' ->
  Forall (fun entry =>
            Device.status (device (snd entry)) = ONLINE
            \/ Device.status (device (snd entry)) = OFFLINE) l'.
Proof.
  induction 1 as [|a b l l' [_ (_ & _ & _ & Hst)] _ IH]; constructor;
    assumption.
Qed.

Lemma simulate_tick_error_free : preserves error_free simulate_tick.
Proof.
  intros w [Hreg Hdb].
  destruct (simulate_tick_spec w) as (after & Hdev & Hrel & _ & Hstore).
  split; [|apply Hstore, Hdb].
  rewrite Hdev. apply (registry_ok_ticked _ _ Hrel Hreg).
Qed.

(** C10. No operation introduces the status [error]: if no device of the
    registry or of the store has it before an operation, none has it
    afterwards, store failures included.  A device that [create_device]
    returns is [online], in the store and in the registry.  A pass of the
    tick sets the status to [offline] when the draw of [random.random()] is
    below 0.01 and to [online] otherwise; so, the store answering, after a
    tick every registered device is [online] or [offline], whatever its
    status was before; when a store write fails, the devices the sweep did
    not reach keep their entry. *)
Theorem error_status_is_never_assigned :
  (forall o w, error_free w -> error_free (perform o w))
  /\ (forall device_input w d w',
        create_device device_input w = (Ok d, w') ->
        Device.status d = ONLINE
        /\ db_devices w' = db_devices w ++ [d]
        /\ exists entry,
             dict_get (Device.id d) (devices w') = Some entry
             /\ device entry = d)
  /\ (forall device_data w,
        exists device_data' w',
          simulate_device device_data w = (Ok device_data', w')
          /\ (Device.status (device device_data') = OFFLINE
              \/ Device.status (device device_data') = ONLINE)
          /\ (Device.status (device device_data') = OFFLINE <->
              Qle_bool (1 # 100)
                (unit_interval (entropy (env w) (calls w))) = false))
  /\ (forall w,
        reliable_store w ->
        Forall (fun entry =>
                  Device.status (device (snd entry)) = ONLINE
                  \/ Device.status (device (snd entry)) = OFFLINE)
               (devices (snd (simulate_tick w))))
  /\ (forall w,
        Forall2
          (same_key (fun before after =>
             after = before
             \/ Device.status (device after) = ONLINE
             \/ Device.status (device after) = OFFLINE))
          (devices w) (devices (snd (simulate_tick w)))).
Proof.
  split.
  { intros o w Hfree. destruct o; cbn [perform].
    - apply create_device_error_free, Hfree.
    - apply update_device_error_free, Hfree.
    - apply delete_device_error_free, Hfree.
    - apply control_relay_error_free, Hfree.
    - apply simulate_tick_error_free, Hfree.
    - apply preserves_scheduler_iteration;
        [apply error_free_silent | apply error_free_ledger_blind
        | apply control_relay_error_free | exact Hfree].
    - apply startup_error_free, Hfree. }
  split.
  { intros device_input w d w' Hrun.
    pose proof (create_device_spec device_input w) as H. cbv zeta in H.
    destruct (store_fails (env w) (4 + calls w)); [congruence|].
    destruct H as (entry & Heq & Hentry). rewrite Heq in Hrun.
    injection Hrun as <- <-. split; [reflexivity|]. split; [reflexivity|].
    exists entry. split; [|exact Hentry]. cbn -[Nat.add].
    apply dict_get_set_same. }
  split.
  { intros device_data w.
    destruct (simulate_device_spec device_data w)
      as (dd' & Hrun & (_ & _ & _ & Hst) & Hdraw).
    exists dd'. eexists. split; [exact Hrun|]. split; [tauto | exact Hdraw]. }
  split.
  { intros w Hr.
    destruct (simulate_tick_spec w) as (after & Hdev & _ & Hrel & _).
    rewrite Hdev. apply (registry_live_ticked _ _ (Hrel Hr)). }
  intros w.
  destruct (simulate_tick_spec w) as (after & Hdev & Hrel & _).
  rewrite Hdev. apply (Forall2_same_key_weaken _ _ _ _ (fun a b H =>
    match H with
    | or_introl E => or_introl E
    | or_intror (conj _ (conj _ (conj _ Hst))) => or_intror Hst
    end) Hrel).
Qed.

Lemma error_status_is_never_assigned_witness :
  Forall (fun entry =>
            Device.status (device (snd entry)) = ONLINE
            \/ Device.status (device (snd entry)) = OFFLINE)
         (devices (snd (simulate_tick demo_world)))
  /\ option_map (fun e => Device.status (device e))
       (dict_get "dev-a" (devices demo_world)) = Some ERROR
  /\ error_free
       (perform SimulatorTick (snd (simulate_tick demo_world))).
Proof.
  pose proof (proj1 (proj2 (proj2 (proj2 error_status_is_never_assigned)))
                demo_world (fun k => eq_refl)) as Htick.
  split; [exact Htick|]. split; [reflexivity|].
  apply (proj1 error_status_is_never_assigned).
  vm_compute. split; repeat constructor; discriminate.
Defined.

(* ------------------------------------------------------------------ *)
(** * Further properties *)

(** ** The broadcast hub *)

Lemma survivors_behind_live e l : forall p,
  Forall (fun x => send_fails e x = false) p ->
  fold_left (fun acc c => drop_connection c acc) (filter (send_fails e) l)
            (p ++ l)
  = p ++ filter (fun c => negb (send_fails e c)) l.
Proof.
  induction l as [|x r IH]; intros p Hp; cbn [filter fold_left].
  - reflexivity.
  - destruct (send_fails e x) eqn:Hx; cbn [negb fold_left].
    + unfold drop_connection at 2.
      assert (Hin : existsb (Nat.eqb x) (p ++ x :: r) = true).
      { apply existsb_exists. exists x. split; [|apply Nat.eqb_refl].
        apply in_or_app. right. left. reflexivity. }
      rewrite Hin. rewrite list_remove_middle; [apply IH, Hp|].
      intros Hxp. rewrite Forall_forall in Hp. specialize (Hp x Hxp).
      congruence.
    + replace (p ++ x :: r) with ((p ++ [x]) ++ r)
        by (rewrite <- app_assoc; reflexivity).
      rewrite IH; [rewrite <- app_assoc; reflexivity|].
      apply Forall_app. split; [exact Hp|]. constructor; [exact Hx|constructor].
Qed.

Lemma survivors_are_the_live e l :
  survivors e l = filter (fun c => negb (send_fails e c)) l.
Proof. apply (survivors_behind_live e l []). constructor. Qed.

Lemma broadcast_outcome_live m w :
  exists w',
    broadcast m w = (Ok tt, w')
    /\ active_connections w'
       = filter (fun c => negb (send_fails (env w) c)) (active_connections w)
    /\ trace w'
       = trace w ++ Published m
         :: map (attempt (env w) m) (active_connections w)
    /\ env w' = env w.
Proof.
  exists (broadcast_outcome m w). split; [apply broadcast_eq|].
  unfold broadcast_outcome. cbn. rewrite survivors_are_the_live.
  repeat split.
Qed.

(** X1. Whatever the subscriber list (several closed connections, the same
    connection subscribed more than once), [broadcast] returns normally,
    attempts every entry in order, and leaves exactly the entries of the
    live connections, in their original order. *)
Theorem broadcast_keeps_exactly_the_live (m : message) (w : world) :
  exists w',
    broadcast m w = (Ok tt, w')
    /\ active_connections w'
       = filter (fun c => negb (send_fails (env w) c)) (active_connections w)
    /\ trace w'
       = trace w ++ Published m
         :: map (attempt (env w) m) (active_connections w).
Proof.
  destruct (broadcast_outcome_live m w) as (w' & H1 & H2 & H3 & _).
  exists w'. auto.
Qed.

Lemma filter_live_all e l :
  Forall (fun x => send_fails e x = false)
         (filter (fun c => negb (send_fails e c)) l).
Proof.
  apply Forall_forall. intros x Hx. apply filter_In in Hx as [_ Hx].
  destruct (send_fails e x); [discriminate | reflexivity].
Qed.

Lemma filter_all {A} (p : A -> bool) l :
  Forall (fun x => p x = true) l -> filter p l = l.
Proof.
  induction 1 as [|x l Hx _ IH]; cbn; [reflexivity|]. rewrite Hx, IH.
  reflexivity.
Qed.

(** X2. A second [broadcast] removes exactly the subscribers whose socket
    is closed by then.  After one [broadcast] only live connections are
    subscribed, so when no connection that was live at the first broadcast
    has closed since, the second one delivers to every subscriber and
    removes none. *)
Theorem second_broadcast_removes_nobody (m m' : message) (w : world)
    (closed : conn -> bool) :
  let w1 := with_closed_sockets closed (snd (broadcast m w)) in
  let w2 := snd (broadcast m' w1) in
  active_connections w2
  = filter (fun c => negb (closed c)) (active_connections w1)
  /\ ((forall c, In c (active_connections w) ->
                 send_fails (env w) c = false -> closed c = false) ->
      active_connections w2 = active_connections w1
      /\ trace w2
         = trace w1 ++ Published m'
           :: map (fun c => Sent c m') (active_connections w1)).
Proof.
  destruct (broadcast_outcome_live m w)
    as (w0 & Hrun1 & Hconn1 & _ & _).
  rewrite Hrun1. cbn [snd].
  destruct (broadcast_outcome_live m' (with_closed_sockets closed w0))
    as (w2 & Hrun2 & Hconn2 & Htrace2 & _).
  rewrite Hrun2. cbn [snd]. cbn [with_closed_sockets active_connections
    trace env send_fails] in *.
  split; [exact Hconn2|]. intros Hstay.
  assert (Hlive : Forall (fun x => closed x = false) (active_connections w0)).
  { rewrite Hconn1. apply Forall_forall. intros x Hx.
    apply filter_In in Hx as [Hin Hx]. apply Hstay; [exact Hin|].
    destruct (send_fails (env w) x); [discriminate | reflexivity]. }
  split.
  - rewrite Hconn2. apply filter_all.
    apply Forall_forall. intros x Hx. rewrite Forall_forall in Hlive.
    rewrite (Hlive x Hx). reflexivity.
  - rewrite Htrace2. f_equal. f_equal. apply attempts_live. exact Hlive.
Qed.

Lemma second_broadcast_removes_nobody_witness :
  let w1 :=
    with_closed_sockets (fun c => Nat.eqb c 2)
      (snd (broadcast (status_update_msg []) demo_world)) in
  let w2 := snd (broadcast (status_update_msg []) w1) in
  active_connections w1 = [1; 3]%nat
  /\ active_connections w2 = [1; 3]%nat
  /\ trace w2
     = trace w1
       ++ [Published (status_update_msg []);
           Sent 1%nat (status_update_msg []);
           Sent 3%nat (status_update_msg [])].
Proof.
  intros w1 w2.
  destruct (proj2 (second_broadcast_removes_nobody (status_update_msg [])
                     (status_update_msg []) demo_world
                     (fun c => Nat.eqb c 2))) as [Hconns Htrace].
  - intros c _ Hlive. exact Hlive.
  - split; [reflexivity|]. split; [exact Hconns | exact Htrace].
Defined.

Lemma count_occ_list_remove c l x :
  In c l ->
  count_occ Nat.eq_dec (list_remove c l) x
  = if Nat.eq_dec x c then Nat.pred (count_occ Nat.eq_dec l c)
    else count_occ Nat.eq_dec l x.
Proof.
  induction l as [|y r IH]; intros Hin; [contradiction|].
  cbn [list_remove]. destruct (Nat.eqb_spec y c) as [->|Hne].
  - cbn [count_occ]. destruct (Nat.eq_dec c c) as [_|N]; [|congruence].
    destruct (Nat.eq_dec x c) as [->|Hx]; [reflexivity|].
    destruct (Nat.eq_dec c x); [congruence | reflexivity].
  - destruct Hin as [E|Hin]; [congruence|]. specialize (IH Hin).
    cbn [count_occ]. rewrite IH.
    destruct (Nat.eq_dec x c) as [->|Hx].
    + destruct (Nat.eq_dec y c); [congruence|]. reflexivity.
    + destruct (Nat.eq_dec y x); reflexivity.
Qed.

Lemma existsb_eqb_In c l : existsb (Nat.eqb c) l = true <-> In c l.
Proof.
  rewrite existsb_exists. split.
  - intros (x & Hin & E). apply Nat.eqb_eq in E. subst. exact Hin.
  - intros Hin. exists c. split; [exact Hin | apply Nat.eqb_refl].
Qed.

Lemma count_occ_drop_connection c l x :
  count_occ Nat.eq_dec (drop_connection c l) x
  = if Nat.eq_dec x c then Nat.pred (count_occ Nat.eq_dec l c)
    else count_occ Nat.eq_dec l x.
Proof.
  unfold drop_connection.
  destruct (existsb (Nat.eqb c) l) eqn:E.
  - apply count_occ_list_remove, existsb_eqb_In, E.
  - destruct (Nat.eq_dec x c) as [->|_]; [|reflexivity].
    assert (Hn : ~ In c l).
    { intros Hin. apply existsb_eqb_In in Hin. congruence. }
    apply (count_occ_not_In Nat.eq_dec) in Hn. rewrite Hn. reflexivity.
Qed.

(** X3. [disconnect] removes one subscription of the connection and only
    one: its number of entries drops by one (staying 0 when it was not
    subscribed) and every other connection keeps its entries; nothing else
    in the world changes.  So a connection subscribed twice is still
    subscribed after one [disconnect]. *)
Theorem disconnect_removes_one_subscription (c : conn) (w : world) :
  exists l',
    disconnect c w = (Ok tt, set_active_connections l' w)
    /\ count_occ Nat.eq_dec l' c
       = Nat.pred (count_occ Nat.eq_dec (active_connections w) c)
    /\ (forall x, x <> c ->
          count_occ Nat.eq_dec l' x
          = count_occ Nat.eq_dec (active_connections w) x)
    /\ (~ In c (active_connections w) -> l' = active_connections w).
Proof.
  exists (drop_connection c (active_connections w)).
  split; [apply disconnect_eq|]. split; [|split].
  - rewrite count_occ_drop_connection.
    destruct (Nat.eq_dec c c); [reflexivity | congruence].
  - intros x Hx. rewrite count_occ_drop_connection.
    destruct (Nat.eq_dec x c); [congruence | reflexivity].
  - intros Hn. unfold drop_connection.
    destruct (existsb (Nat.eqb c) (active_connections w)) eqn:E;
      [|reflexivity].
    apply existsb_eqb_In in E. contradiction.
Qed.

Lemma disconnect_removes_one_subscription_witness :
  let w := snd (connect 7%nat (snd (connect 7%nat demo_world))) in
  exists l',
    disconnect 7%nat w = (Ok tt, set_active_connections l' w)
    /\ count_occ Nat.eq_dec l' 7%nat = 1%nat
    /\ count_occ Nat.eq_dec l' 1%nat = 1%nat.
Proof.
  intros w.
  destruct (disconnect_removes_one_subscription 7%nat w)
    as (l' & Hrun & Hc & Hother & _).
  exists l'. split; [exact Hrun|]. split; [exact Hc|].
  rewrite (Hother 1%nat); [reflexivity | discriminate].
Defined.

Lemma list_remove_last c l : ~ In c l -> list_remove c (l ++ [c]) = l.
Proof.
  intros Hn. rewrite (list_remove_middle c l [] Hn). apply app_nil_r.
Qed.

(** X4. Subscribing a connection that was not yet subscribed and then
    unsubscribing it restores the subscriber list and the whole world. *)
Theorem connect_then_disconnect_restores (c : conn) (w : world) :
  ~ In c (active_connections w) ->
  disconnect c (snd (connect c w)) = (Ok tt, w).
Proof.
  intros Hn. rewrite disconnect_eq. unfold connect, modify. cbn.
  unfold drop_connection.
  assert (E : existsb (Nat.eqb c) (active_connections w ++ [c]) = true).
  { apply existsb_eqb_In, in_or_app. right. left. reflexivity. }
  rewrite E, (list_remove_last _ _ Hn). destruct w; reflexivity.
Qed.

Lemma connect_then_disconnect_restores_witness :
  disconnect 9%nat (snd (connect 9%nat demo_world)) = (Ok tt, demo_world).
Proof.
  apply connect_then_disconnect_restores. cbn.
  intros [H|[H|[H|[]]]]; discriminate.
Defined.

(** X5. [send_personal_message] never raises.  To a live connection it
    delivers and changes nothing else; to a closed one it records the failed
    attempt and removes one subscription of that connection, leaving every
    other subscription in place. *)
Theorem send_personal_message_is_contained (m : message) (c : conn)
    (w : world) :
  exists w',
    send_personal_message m c w = (Ok tt, w')
    /\ (send_fails (env w) c = false ->
        w' = set_trace (trace w ++ [Sent c m]) w)
    /\ (send_fails (env w) c = true ->
        trace w' = trace w ++ [SendFailed c m]
        /\ count_occ Nat.eq_dec (active_connections w') c
           = Nat.pred (count_occ Nat.eq_dec (active_connections w) c)
        /\ forall x, x <> c ->
             count_occ Nat.eq_dec (active_connections w') x
             = count_occ Nat.eq_dec (active_connections w) x).
Proof.
  unfold send_personal_message, try_except, send_text. run_monad. cbn.
  destruct (send_fails (env w) c) eqn:Hc; cbn.
  - rewrite disconnect_eq. eexists. split; [reflexivity|].
    split; [discriminate|]. intros _. cbn. split; [reflexivity|].
    split.
    + rewrite count_occ_drop_connection.
      destruct (Nat.eq_dec c c); [reflexivity | congruence].
    + intros x Hx. rewrite count_occ_drop_connection.
      destruct (Nat.eq_dec x c); [congruence | reflexivity].
  - eexists. split; [reflexivity|]. split; [reflexivity | discriminate].
Qed.

Lemma send_personal_message_is_contained_witness :
  exists w',
    send_personal_message (status_update_msg []) 2%nat demo_world
    = (Ok tt, w')
    /\ trace w' = [SendFailed 2%nat (status_update_msg [])]
    /\ count_occ Nat.eq_dec (active_connections w') 2%nat = 0%nat.
Proof.
  destruct (send_personal_message_is_contained (status_update_msg []) 2%nat
              demo_world) as (w' & Hrun & _ & Hclosed).
  destruct (Hclosed eq_refl) as (Htrace & Hcount & _).
  exists w'. split; [exact Hrun|]. split; [exact Htrace | exact Hcount].
Defined.

(* ------------------------------------------------------------------ *)
(** ** Trigger evaluation *)

Lemma py_split_fields t :
  py_split ":" t
  = first_field t
    :: match after_colon t with
       | Some r => py_split ":" r
       | None => []
       end.
Proof.
  induction t as [|c t IH]; [reflexivity|].
  cbn [py_split first_field after_colon].
  destruct (Ascii.eqb c ":"); [reflexivity|]. rewrite IH. reflexivity.
Qed.

Lemma after_colon_none t : after_colon t = None <-> has_colon t = false.
Proof.
  induction t as [|c t IH]; cbn; [tauto|].
  destruct (Ascii.eqb c ":"); cbn; [split; discriminate | exact IH].
Qed.

Lemma first_field_plain t : has_colon t = false -> first_field t = t.
Proof.
  induction t as [|c t IH]; cbn; intros Hc; [reflexivity|].
  apply orb_false_iff in Hc as [Hc Ht]. rewrite Hc, (IH Ht). reflexivity.
Qed.

Lemma py_int_raises_value_error x e : py_int x = Raise e -> e = ValueError.
Proof.
  unfold py_int.
  destruct (match rstrip (lstrip x) with
            | String "+" r => int_digits 0 false r
            | String "-" r => option_map Z.opp (int_digits 0 false r)
            | _ => int_digits 0 false (rstrip (lstrip x))
            end) as [n|].
  - destruct (count_digits (rstrip (lstrip x)) <=? int_max_str_digits);
      congruence.
  - congruence.
Qed.

Lemma parse_trigger_time_by_field t :
  parse_trigger_time t
  = match py_int (first_field t), after_colon t with
    | Raise e, _ => Raise e
    | Ok _, None => Raise IndexError
    | Ok HH, Some r =>
        match py_int (first_field r) with
        | Ok MM => Ok (HH, MM)
        | Raise e => Raise e
        end
    end.
Proof.
  unfold parse_trigger_time. rewrite (py_split_fields t). cbn.
  destruct (py_int (first_field t)) as [HH|e]; cbn; [|reflexivity].
  destruct (after_colon t) as [r|]; [|reflexivity].
  rewrite (py_split_fields r). cbn.
  destruct (py_int (first_field r)); reflexivity.
Qed.

Lemma should_trigger_raises s now e :
  should_trigger s now = Raise e
  <-> parse_trigger_time (Schedule.trigger_time s) = Raise e.
Proof.
  unfold should_trigger.
  destruct (parse_trigger_time (Schedule.trigger_time s)) as [[HH MM]|e'];
    cbn.
  - split; [|discriminate].
    destruct ((hour now =? HH) && (minute now =? MM)); [|discriminate].
    destruct (Schedule.schedule_type s).
    + destruct (Schedule.trigger_date s); discriminate.
    + discriminate.
    + destruct (Schedule.days_of_week s) as [[|d ds]|]; discriminate.
  - split; intros H; injection H as ->; reflexivity.
Qed.

(** X6. Which exception [should_trigger] raises is decided by the fields
    of the trigger time alone, whatever the schedule type and the
    evaluation time.  It raises IndexError exactly when the trigger time
    has no colon and is, as a whole, text [int()] accepts (the minute is
    missing).  It raises ValueError exactly when [int()] rejects the text
    before the first colon or, a colon being there, the text between the
    first colon and the next.  It raises nothing else, and it raises
    exactly when the trigger time does not parse. *)
Theorem should_trigger_error_by_field (s : Schedule.t) (now : datetime) :
  let t := Schedule.trigger_time s in
  (should_trigger s now = Raise IndexError
   <-> has_colon t = false /\ exists n, py_int t = Ok n)
  /\ (should_trigger s now = Raise ValueError
      <-> py_int (first_field t) = Raise ValueError
          \/ exists r, after_colon t = Some r
                       /\ py_int (first_field r) = Raise ValueError)
  /\ (forall e, should_trigger s now = Raise e ->
                e = IndexError \/ e = ValueError)
  /\ (forall e, should_trigger s now = Raise e
                <-> parse_trigger_time t = Raise e).
Proof.
  intros t.
  assert (Hshape : forall e,
    should_trigger s now = Raise e
    <-> match py_int (first_field t), after_colon t with
        | Raise e', _ => e' = e
        | Ok _, None => IndexError = e
        | Ok _, Some r => py_int (first_field r) = Raise e
        end).
  { intros e. rewrite should_trigger_raises. fold t.
    rewrite (parse_trigger_time_by_field t).
    destruct (py_int (first_field t)) as [HH|e1].
    - destruct (after_colon t) as [r|].
      + destruct (py_int (first_field r)) as [MM|e2];
          split; congruence.
      + split; congruence.
    - split; congruence. }
  split; [|split; [|split]].
  - rewrite Hshape. split.
    + destruct (py_int (first_field t)) as [HH|e1] eqn:E1.
      * destruct (after_colon t) as [r|] eqn:Ec.
        -- intros H. apply py_int_raises_value_error in H. discriminate.
        -- intros _. apply after_colon_none in Ec. split; [exact Ec|].
           rewrite (first_field_plain t Ec) in E1. exists HH. exact E1.
      * intros ->. apply py_int_raises_value_error in E1. discriminate.
    + intros (Hc & n & Hn). rewrite (first_field_plain t Hc), Hn.
      apply after_colon_none in Hc. rewrite Hc. reflexivity.
  - rewrite Hshape. split.
    + destruct (py_int (first_field t)) as [HH|e1] eqn:E1.
      * destruct (after_colon t) as [r|] eqn:Ec.
        -- intros H. right. exists r. split; [reflexivity | exact H].
        -- discriminate.
      * intros ->. left. reflexivity.
    + intros [H|(r & Hr & H)].
      * rewrite H. reflexivity.
      * rewrite Hr. destruct (py_int (first_field t)) as [HH|e1] eqn:E1;
          [exact H|]. apply py_int_raises_value_error in E1. exact E1.
  - intros e He. apply Hshape in He.
    destruct (py_int (first_field t)) as [HH|e1] eqn:E1.
    + destruct (after_colon t) as [r|].
      * right. exact (py_int_raises_value_error _ _ He).
      * left. symmetry. exact He.
    + subst e1. right. exact (py_int_raises_value_error _ _ E1).
  - intros e. apply should_trigger_raises.
Qed.

Lemma should_trigger_error_by_field_witness :
  should_trigger
    (demo_schedule "s" "dev-a" "n" DAILY ON "12" None None) noon
  = Raise IndexError
  /\ should_trigger
       (demo_schedule "s" "dev-a" "n" DAILY ON "noon" None None) noon
     = Raise ValueError
  /\ should_trigger
       (demo_schedule "s" "dev-a" "n" WEEKLY ON "12:" None None) noon
     = Raise ValueError
  /\ should_trigger
       (demo_schedule "s" "dev-a" "n" ONCE ON ":30" None None) noon
     = Raise ValueError.
Proof.
  split; [|split; [|split]].
  - apply (proj1 (should_trigger_error_by_field
                    (demo_schedule "s" "dev-a" "n" DAILY ON "12" None None)
                    noon)).
    split; [reflexivity | exists 12; reflexivity].
  - apply (proj1 (proj2 (should_trigger_error_by_field
                    (demo_schedule "s" "dev-a" "n" DAILY ON "noon" None None)
                    noon))).
    left. reflexivity.
  - apply (proj1 (proj2 (should_trigger_error_by_field
                    (demo_schedule "s" "dev-a" "n" WEEKLY ON "12:" None None)
                    noon))).
    right. exists EmptyString. split; reflexivity.
  - apply (proj1 (proj2 (should_trigger_error_by_field
                    (demo_schedule "s" "dev-a" "n" ONCE ON ":30" None None)
                    noon))).
    left. reflexivity.
Defined.

(** X7. A [once] schedule without a trigger date never triggers. *)
Theorem once_without_date_never_triggers (s : Schedule.t) (now : datetime) :
  Schedule.schedule_type s = ONCE ->
  Schedule.trigger_date s = None ->
  should_trigger s now <> Ok true.
Proof.
  intros Hk Hd. unfold should_trigger.
  destruct (parse_trigger_time (Schedule.trigger_time s)) as [[HH MM]|e'];
    cbn; [|discriminate].
  rewrite Hk, Hd.
  destruct ((hour now =? HH) && (minute now =? MM)); discriminate.
Qed.

Lemma once_without_date_never_triggers_witness :
  should_trigger
    (demo_schedule "s" "dev-a" "n" ONCE ON "12:00" None None) noon
  <> Ok true.
Proof.
  apply once_without_date_never_triggers; reflexivity.
Defined.

(** X8. The parsed hour and minute are not range-checked: a trigger time
    such as "24:00" or "12:60" parses, and then never triggers at any
    wall-clock time a [datetime] can carry. *)
Theorem out_of_range_time_never_triggers (s : Schedule.t) (now : datetime)
    (HH MM : Z) :
  parse_trigger_time (Schedule.trigger_time s) = Ok (HH, MM) ->
  ~ (0 <= HH < 24 /\ 0 <= MM < 60) ->
  valid_time now ->
  should_trigger s now = Ok false.
Proof.
  intros Hp Hout [Hh Hm]. rewrite (should_trigger_parsed _ _ _ _ Hp).
  destruct ((hour now =? HH) && (minute now =? MM)) eqn:E; [|reflexivity].
  apply andb_true_iff in E as [E1 E2]. apply Z.eqb_eq in E1, E2.
  exfalso. apply Hout. lia.
Qed.

Lemma out_of_range_time_never_triggers_witness :
  should_trigger
    (demo_schedule "s" "dev-a" "n" DAILY ON "12:60" None None)
    (mk_datetime 2024 1 1 12 59 0 0)
  = Ok false.
Proof.
  apply (out_of_range_time_never_triggers _ _ 12 60).
  - reflexivity.
  - intros [_ H]. lia.
  - split; cbn; lia.
Defined.

Lemma py_split_nonempty sep s : py_split sep s <> [].
Proof.
  destruct s as [|c r]; cbn; [discriminate|].
  destruct (Ascii.eqb c sep); [discriminate|].
  destruct (py_split sep r); discriminate.
Qed.

Lemma py_split_app a r :
  has_colon a = false ->
  py_split ":" (a ++ String ":" r) = a :: py_split ":" r.
Proof.
  induction a as [|c a IH]; cbn; intros Hc; [reflexivity|].
  apply orb_false_iff in Hc as [Hc Ha]. rewrite Hc, (IH Ha). reflexivity.
Qed.

Lemma py_split_plain a : has_colon a = false -> py_split ":" a = [a].
Proof.
  induction a as [|c a IH]; cbn; intros Hc; [reflexivity|].
  apply orb_false_iff in Hc as [Hc Ha]. rewrite Hc, (IH Ha). reflexivity.
Qed.

(** X9. Only the first two colon-separated fields of a trigger time are
    read: whatever follows a second colon (seconds, say) is ignored. *)
Theorem trailing_fields_are_ignored (a b c : string) :
  has_colon a = false ->
  has_colon b = false ->
  parse_trigger_time (a ++ String ":" (b ++ String ":" c))
  = parse_trigger_time (a ++ String ":" b).
Proof.
  intros Ha Hb. unfold parse_trigger_time.
  rewrite !(py_split_app a _ Ha), (py_split_app b _ Hb),
    (py_split_plain b Hb).
  destruct (py_split ":" c) eqn:E; [exfalso; exact (py_split_nonempty _ _ E)|].
  reflexivity.
Qed.

Lemma trailing_fields_are_ignored_witness :
  parse_trigger_time "12:00:30" = parse_trigger_time "12:00"
  /\ parse_trigger_time "12:00:30" = Ok (12, 0).
Proof.
  split; [|reflexivity].
  apply (trailing_fields_are_ignored "12" "00" "30"); reflexivity.
Defined.

(** X10. Trigger evaluation reads the hour, the minute and the calendar
    date of the evaluation time and nothing else: two evaluation times that
    differ only in seconds and microseconds get the same answer. *)
Theorem seconds_never_matter (s : Schedule.t) (now now' : datetime) :
  hour now = hour now' ->
  minute now = minute now' ->
  date now = date now' ->
  should_trigger s now = should_trigger s now'.
Proof.
  intros Hh Hm Hd. unfold should_trigger, weekday, toordinal.
  unfold date in Hd. injection Hd as Hy Hmo Hda.
  unfold date. rewrite Hh, Hm, Hy, Hmo, Hda. reflexivity.
Qed.

Lemma seconds_never_matter_witness :
  should_trigger daily_at_noon noon
  = should_trigger daily_at_noon (mk_datetime 2024 1 1 12 0 59 999999).
Proof.
  apply seconds_never_matter; reflexivity.
Defined.

(** X11. A [weekly] schedule configured with all seven weekday indices
    answers like the [daily] schedule with the same trigger time. *)
Theorem weekly_every_day_is_daily (s s' : Schedule.t) (now : datetime) :
  Schedule.schedule_type s = WEEKLY ->
  Schedule.days_of_week s = Some [0; 1; 2; 3; 4; 5; 6] ->
  Schedule.schedule_type s' = DAILY ->
  Schedule.trigger_time s' = Schedule.trigger_time s ->
  should_trigger s now = should_trigger s' now.
Proof.
  intros Hk Hd Hk' Ht. unfold should_trigger. rewrite Ht, Hk, Hk', Hd.
  destruct (parse_trigger_time (Schedule.trigger_time s)) as [[HH MM]|e];
    cbn [rbind]; [|reflexivity].
  destruct ((hour now =? HH) && (minute now =? MM)); [|reflexivity].
  f_equal. apply existsb_exists. exists (weekday now).
  split; [|apply Z.eqb_refl].
  pose proof (weekday_range now) as Hr. cbn.
  assert (H : weekday now = 0 \/ weekday now = 1 \/ weekday now = 2
              \/ weekday now = 3 \/ weekday now = 4 \/ weekday now = 5
              \/ weekday now = 6) by lia.
  intuition auto.
Qed.

Lemma weekly_every_day_is_daily_witness :
  should_trigger
    (demo_schedule "s" "dev-b" "n" WEEKLY ON "12:00" None
       (Some [0; 1; 2; 3; 4; 5; 6]))
    (mk_datetime 2024 1 6 12 0 0 0)
  = Ok true.
Proof.
  rewrite (weekly_every_day_is_daily
             (demo_schedule "s" "dev-b" "n" WEEKLY ON "12:00" None
                (Some [0; 1; 2; 3; 4; 5; 6]))
             daily_at_noon (mk_datetime 2024 1 6 12 0 0 0)
             eq_refl eq_refl eq_refl eq_refl).
  reflexivity.
Defined.

(* ------------------------------------------------------------------ *)
(** ** The schedule engine *)

Lemma scheduler_iteration_bad_head w bad rest e :
  store_fails (env w) (1 + calls w) = false ->
  filter Schedule.is_active (db_schedules w) = bad :: rest ->
  parse_trigger_time (Schedule.trigger_time bad) = Raise e ->
  scheduler_iteration w
  = (Ok tt,
     set_trace
       (trace w ++ [LogError ("Scheduler error: " ++ exn_str e); Slept 60%Q])
       (set_calls (2 + calls w) w)).
Proof.
  intros Hstore Hload Hparse.
  unfold scheduler_iteration, scheduler_cycle. run_monad. cbn.
  change (S (calls w)) with (1 + calls w)%nat.
  rewrite Hstore. cbn. rewrite Hload. cbn.
  unfold should_trigger. rewrite Hparse. cbn.
  rewrite <- app_assoc. reflexivity.
Qed.

(** X12. A trigger time that does not parse is not contained by the
    sweep: when the first active schedule of the store has one, every
    iteration of the scheduler loop stops at it, logs the error and sleeps,
    and no schedule behind it is ever evaluated.  The registry, the stored
    devices, the schedules and the device log stay as they were, however
    many iterations run. *)
Theorem bad_schedule_starves_the_cycle (bad : Schedule.t)
    (rest : list Schedule.t) (e : exn) (n : nat) (w : world) :
  reliable_store w ->
  filter Schedule.is_active (db_schedules w) = bad :: rest ->
  parse_trigger_time (Schedule.trigger_time bad) = Raise e ->
  devices (cycles n w) = devices w
  /\ db_devices (cycles n w) = db_devices w
  /\ db_schedules (cycles n w) = db_schedules w
  /\ db_device_logs (cycles n w) = db_device_logs w
  /\ trace (cycles n w)
     = trace w
       ++ List.concat (repeat [LogError ("Scheduler error: " ++ exn_str e);
                          Slept 60%Q] n).
Proof.
  intros Hr Hload Hparse. revert w Hr Hload.
  induction n as [|n IH]; intros w Hr Hload; cbn [cycles repeat concat].
  - rewrite app_nil_r. repeat split.
  - rewrite (scheduler_iteration_bad_head w bad rest e (Hr _) Hload Hparse).
    cbn [snd].
    match goal with |- context [cycles n ?w1] =>
      destruct (IH w1) as (Hd & Hdb & Hs & Hl & Ht); [exact Hr | exact Hload|]
    end.
    rewrite Hd, Hdb, Hs, Hl, Ht. cbn. rewrite <- app_assoc.
    repeat split.
Qed.

Lemma bad_schedule_starves_the_cycle_witness :
  let bad := demo_schedule "s-bad" "dev-a" "typo" DAILY ON "noon" None None in
  let w := set_db_schedules [bad; daily_at_noon] demo_world in
  should_trigger daily_at_noon noon = Ok true
  /\ db_device_logs (cycles 3 w) = []
  /\ devices (cycles 3 w) = devices w.
Proof.
  intros bad w. split; [reflexivity|].
  destruct (bad_schedule_starves_the_cycle bad [daily_at_noon] ValueError 3 w
              (fun k => eq_refl) eq_refl eq_refl)
    as (Hd & _ & _ & Hl & _).
  split; [exact Hl | exact Hd].
Defined.

(** X13. Executing a schedule whose device is not registered does nothing
    at all: no log entry, no store write, and a [once] schedule is not
    deactivated. *)
Theorem execute_schedule_unknown_device_is_noop (s : Schedule.t) (w : world) :
  dict_get (Schedule.device_id s) (devices w) = None ->
  execute_schedule s w = (Ok tt, w).
Proof.
  intros Hd. unfold execute_schedule, execute_schedule_body, try_except.
  unfold bind at 1. rewrite (control_relay_unknown _ _ _ Hd). reflexivity.
Qed.

Lemma execute_schedule_unknown_device_is_noop_witness :
  let s := demo_schedule "s" "ghost" "n" ONCE ON "12:00" (Some noon) None in
  execute_schedule s demo_world = (Ok tt, demo_world).
Proof.
  intros s. apply execute_schedule_unknown_device_is_noop. reflexivity.
Defined.

Lemma scheduler_sweep_single s now w :
  should_trigger s now = Ok true ->
  scheduler_sweep [s] now w = (Ok tt, snd (execute_schedule s w)).
Proof.
  intros Hfire. cbn [scheduler_sweep]. unfold bind at 1. unfold lift.
  rewrite Hfire. unfold bind at 1.
  pose proof (execute_schedule_returns s w) as Hret.
  destruct (execute_schedule s w) as [[[]|e] w1]; cbn in *;
    [reflexivity | discriminate].
Qed.

(** X14. Firing is not deduplicated for recurring schedules: a [daily] or
    [weekly] schedule stays as it is in the store when it fires, so two
    sweeps that both find it triggering (for instance in the same minute)
    both switch the relay, and four log entries are written. *)
Theorem recurring_schedule_fires_again (s : Schedule.t) (now now' : datetime)
    (w : world) (device_data : device_entry) :
  Schedule.schedule_type s <> ONCE ->
  should_trigger s now = Ok true ->
  should_trigger s now' = Ok true ->
  dict_get (Schedule.device_id s) (devices w) = Some device_data ->
  reliable_store w ->
  let w1 := snd (scheduler_sweep [s] now w) in
  let w2 := snd (scheduler_sweep [s] now' w1) in
  db_schedules w1 = db_schedules w
  /\ db_schedules w2 = db_schedules w
  /\ List.length (db_device_logs w2)
     = (List.length (db_device_logs w) + 4)%nat.
Proof.
  intros Hk Hfire Hfire' Hd Hr.
  rewrite (scheduler_sweep_single _ _ _ Hfire).
  destruct (execute_schedule_reliable s w device_data Hd Hr)
    as (w1 & Hrun1 & Hdev1 & _ & Hlogs1 & Hsched1 & Henv1).
  rewrite Hrun1. cbn [snd].
  rewrite (scheduler_sweep_single _ _ _ Hfire').
  assert (Hr1 : reliable_store w1) by (intros k; rewrite Henv1; apply Hr).
  assert (Hd1 : exists dd1,
             dict_get (Schedule.device_id s) (devices w1) = Some dd1).
  { rewrite Hdev1. unfold relay_outcome. cbn -[Nat.add].
    rewrite dict_get_set_same. eexists. reflexivity. }
  destruct Hd1 as (dd1 & Hd1).
  destruct (execute_schedule_reliable s w1 dd1 Hd1 Hr1)
    as (w2 & Hrun2 & _ & _ & Hlogs2 & Hsched2 & _).
  rewrite Hrun2. cbn [snd].
  assert (Hs1 : db_schedules w1 = db_schedules w).
  { rewrite Hsched1. destruct (Schedule.schedule_type s);
      [congruence | reflexivity | reflexivity]. }
  assert (Hs2 : db_schedules w2 = db_schedules w1).
  { rewrite Hsched2. destruct (Schedule.schedule_type s);
      [congruence | reflexivity | reflexivity]. }
  split; [exact Hs1|]. split; [congruence|].
  rewrite Hlogs2. unfold relay_outcome. cbn -[Nat.add].
  rewrite Hlogs1. unfold relay_outcome. cbn -[Nat.add].
  rewrite !length_app. cbn [List.length]. lia.
Qed.

Lemma recurring_schedule_fires_again_witness :
  let w2 := snd (scheduler_sweep [daily_at_noon]
                   (mk_datetime 2024 1 1 12 0 30 0)
                   (snd (scheduler_sweep [daily_at_noon] noon demo_world))) in
  List.length (db_device_logs w2) = 4%nat.
Proof.
  intros w2.
  assert (Hk : Schedule.schedule_type daily_at_noon <> ONCE) by discriminate.
  exact (proj2 (proj2 (recurring_schedule_fires_again daily_at_noon noon
           (mk_datetime 2024 1 1 12 0 30 0) demo_world
           (snd (demo_entry "dev-b" ONLINE OFF)) Hk eq_refl eq_refl eq_refl
           (fun k => eq_refl)))).
Defined.

(* ------------------------------------------------------------------ *)
(** ** The simulator loop *)

Lemma simulate_device_full device_data w :
  exists device_data',
    simulate_device device_data w
    = (Ok device_data', set_calls (3 + calls w) w)
    /\ ticked_fully device_data device_data'.
Proof.
  unfold simulate_device. run_monad.
  cbn -[Z.add Z.max Z.modulo Z.sub Nat.add Qle_bool unit_interval].
  eexists. split; [reflexivity|]. unfold ticked_fully, ticked.
  pose proof (Z.mod_pos_bound (entropy (env w) (S (calls w))) (5 - -5 + 1))
    as Hmod.
  destruct (Qle_bool (1 # 100) (unit_interval (entropy (env w) (calls w))));
    destruct (Device.relay_state (device device_data)) eqn:Hrel;
    cbn -[Z.add Z.max Z.modulo Z.sub Nat.add]; rewrite ?Hrel;
    cbn -[Z.add Z.max Z.modulo Z.sub Nat.add];
    repeat split; auto; try discriminate; lia.
Qed.

Lemma simulate_sweep_full pending : forall visited w,
  devices w = visited ++ pending ->
  exists pending',
    devices (snd (simulate_sweep visited pending w)) = visited ++ pending'
    /\ Forall2 (same_key (fun a b => b = a \/ ticked_fully a b))
               pending pending'
    /\ (fst (simulate_sweep visited pending w) = Ok tt ->
        Forall2 (same_key ticked_fully) pending pending')
    /\ trace (snd (simulate_sweep visited pending w)) = trace w
    /\ active_connections (snd (simulate_sweep visited pending w))
       = active_connections w
    /\ env (snd (simulate_sweep visited pending w)) = env w
    /\ simulator_running (snd (simulate_sweep visited pending w))
       = simulator_running w
    /\ scheduler_running (snd (simulate_sweep visited pending w))
       = scheduler_running w
    /\ db_schedules (snd (simulate_sweep visited pending w)) = db_schedules w
    /\ db_device_logs (snd (simulate_sweep visited pending w))
       = db_device_logs w.
Proof.
  induction pending as [|[device_id device_data] rest IH]; intros visited w Hw.
  - exists []. cbn. repeat split; auto; constructor.
  - destruct (simulate_device_full device_data w) as (dd' & Hsim & Hticked).
    rewrite (simulate_sweep_step _ _ _ _ _ _ Hsim). cbv zeta.
    destruct (store_fails (env w) (3 + calls w)) eqn:Hfail.
    + exists ((device_id, dd') :: rest). split; [reflexivity|].
      split.
      { constructor.
        - split; [reflexivity | right; exact Hticked].
        - apply Forall2_same_key_refl. intros a. left. reflexivity. }
      split; [discriminate|]. repeat split.
    + match goal with
      | |- context [simulate_sweep _ rest ?w1] =>
          destruct (IH (visited ++ [(device_id, dd')]) w1)
            as (rest' & Hdev & Hrel & Hok & Ht & Hc & He & Hsr & Hsch & Hds
                & Hdl)
      end.
      { cbn. rewrite <- app_assoc. reflexivity. }
      exists ((device_id, dd') :: rest').
      split; [rewrite Hdev, <- app_assoc; reflexivity|].
      split.
      { constructor; [|exact Hrel].
        split; [reflexivity | right; exact Hticked]. }
      split.
      { intros Hres. constructor; [|apply Hok, Hres].
        split; [reflexivity | exact Hticked]. }
      rewrite Ht, Hc, He, Hsr, Hsch, Hds, Hdl. repeat split.
Qed.

Lemma simulate_tick_unfold w :
  simulate_tick w
  = match simulate_sweep [] (devices w) w with
    | (Ok _, w1) =>
        match devices w1 with
        | [] => (Ok tt, set_trace (trace w1 ++ [Slept 5%Q]) w1)
        | _ :: _ =>
            let w2 := broadcast_outcome
                        (status_update_msg (map snapshot_row (devices w1)))
                        w1 in
            (Ok tt, set_trace (trace w2 ++ [Slept 5%Q]) w2)
        end
    | (Raise e, w1) =>
        (Ok tt,
         set_trace
           (trace w1
            ++ [LogError ("Simulation error: " ++ exn_str e); Slept 5%Q]) w1)
    end.
Proof.
  unfold simulate_tick, try_except. unfold bind at 1. unfold get at 1.
  unfold bind at 1.
  destruct (simulate_sweep [] (devices w) w) as [[[]|e] w1].
  - unfold bind at 1. unfold get at 1. unfold bind at 1.
    destruct (devices w1) eqn:Hds.
    + reflexivity.
    + rewrite broadcast_eq. reflexivity.
  - run_monad. cbn -[String.append]. rewrite <- app_assoc. reflexivity.
Qed.

(** X15. A tick whose store writes succeed moves the simulated wifi signal
    of every registered device by at most 5 and never below the floor of
    30; the device reports that value, and keeps its id, its name and the
    time of its last relay change. *)
Theorem tick_keeps_wifi_signal_in_range (w : world) (device_id : string)
    (before : device_entry) :
  reliable_store w ->
  dict_get device_id (devices w) = Some before ->
  exists after,
    dict_get device_id (devices (snd (simulate_tick w))) = Some after
    /\ Device.wifi_signal (device after)
       = Some (sim_wifi_signal (sim_data after))
    /\ 30 <= sim_wifi_signal (sim_data after)
    /\ sim_wifi_signal (sim_data before) - 5
       <= sim_wifi_signal (sim_data after)
       <= Z.max 30 (sim_wifi_signal (sim_data before) + 5)
    /\ Device.id (device after) = Device.id (device before)
    /\ Device.name (device after) = Device.name (device before)
    /\ last_state_change after = last_state_change before.
Proof.
  intros Hr Hb.
  destruct (simulate_tick_frame w) as [Hd _]. rewrite Hd.
  destruct (simulate_sweep_spec (devices w) [] w eq_refl)
    as (_ & _ & _ & _ & Hok & _).
  destruct (simulate_sweep_full (devices w) [] w eq_refl)
    as (after & Hdev & _ & Hrel & _).
  rewrite Hdev. cbn [app].
  destruct (dict_get_related _ _ _ _ _ (Hrel (Hok Hr)) Hb)
    as (b & Hget & _ & Hid & Hname & Hlsc & Hw & Hfloor & Hlo & Hhi).
  exists b. repeat split; assumption.
Qed.

Lemma tick_keeps_wifi_signal_in_range_witness :
  exists after,
    dict_get "dev-b" (devices (snd (simulate_tick demo_world))) = Some after
    /\ 30 <= sim_wifi_signal (sim_data after)
    /\ 55 <= sim_wifi_signal (sim_data after) <= 65.
Proof.
  destruct (tick_keeps_wifi_signal_in_range demo_world "dev-b"
              (snd (demo_entry "dev-b" ONLINE OFF)) (fun k => eq_refl)
              eq_refl)
    as (after & Hget & _ & Hfloor & Hrange & _).
  exists after. split; [exact Hget|]. split; [exact Hfloor|].
  cbn in Hrange. lia.
Defined.

Lemma row_ids_after_tick l l' :
  Forall2 (same_key ticked_fully) l l' ->
  map row_id (map snapshot_row l')
  = map (fun entry => Device.id (device (snd entry))) l.
Proof.
  induction 1 as [|a b l l' [_ (_ & Hid & _)] _ IH]; cbn; [reflexivity|].
  rewrite Hid, IH. reflexivity.
Qed.

(** X16. A tick over an empty registry publishes nothing and only sleeps.
    Over a non-empty registry, when its store writes succeed, it publishes
    exactly one [status_update] after the sweep, whose rows are the
    registered devices in registry order with their state after the sweep,
    attempts it on every subscriber, drops the closed ones, and then
    sleeps 5. *)
Theorem tick_publishes_one_snapshot (w : world) :
  (devices w = [] ->
   simulate_tick w = (Ok tt, set_trace (trace w ++ [Slept 5%Q]) w))
  /\ (devices w <> [] ->
      reliable_store w ->
      let w' := snd (simulate_tick w) in
      let m := status_update_msg (map snapshot_row (devices w')) in
      trace w'
      = trace w ++ Published m
        :: map (attempt (env w) m) (active_connections w) ++ [Slept 5%Q]
      /\ map row_id (map snapshot_row (devices w'))
         = map (fun entry => Device.id (device (snd entry))) (devices w)
      /\ active_connections w'
         = filter (fun c => negb (send_fails (env w) c))
                  (active_connections w)).
Proof.
  split.
  - intros Hempty. rewrite simulate_tick_unfold, Hempty. cbn.
    rewrite Hempty. reflexivity.
  - intros Hne Hr.
    destruct (simulate_sweep_spec (devices w) [] w eq_refl)
      as (_ & _ & _ & _ & Hok & _). specialize (Hok Hr).
    destruct (simulate_sweep_full (devices w) [] w eq_refl)
      as (after & Hdev & _ & Hrel & Ht & Hc & He & _).
    specialize (Hrel Hok). cbn [app] in Hdev.
    rewrite simulate_tick_unfold.
    destruct (simulate_sweep [] (devices w) w) as [[[]|e] w1];
      cbn [fst snd] in *; [|discriminate].
    rewrite Hdev.
    destruct after as [|a after'].
    { inversion Hrel; subst. congruence. }
    cbn -[attempt survivors filter map]. unfold broadcast_outcome.
    cbn -[attempt survivors filter map].
    rewrite Hdev, Ht, Hc, He, survivors_are_the_live.
    split; [rewrite <- app_assoc; reflexivity|].
    split; [apply (row_ids_after_tick _ _ Hrel) | reflexivity].
Qed.

Lemma tick_publishes_one_snapshot_witness :
  map (fun e => match e with
                | Published (status_update_msg rows) => map row_id rows
                | _ => []
                end)
      (trace (snd (simulate_tick demo_world)))
  = [["dev-a"; "dev-b"]; []; []; []; []].
Proof.
  destruct (proj2 (tick_publishes_one_snapshot demo_world))
    as (Htrace & Hrows & _).
  - discriminate.
  - intros k. reflexivity.
  - rewrite Htrace. cbn [trace demo_world app map].
    rewrite Hrows. reflexivity.
Defined.

(** X17. When the store write for the first registered device fails, the
    tick stops there: the device has already been aged in memory, the
    store and the other devices are untouched, nothing is published, and
    the error is logged before the usual sleep; the tick itself returns
    normally. *)
Theorem tick_store_failure_is_logged (w : world) (device_id : string)
    (device_data : device_entry) (rest : list (string * device_entry)) :
  devices w = (device_id, device_data) :: rest ->
  store_fails (env w) (3 + calls w) = true ->
  exists w' device_data',
    simulate_tick w = (Ok tt, w')
    /\ devices w' = (device_id, device_data') :: rest
    /\ ticked device_data device_data'
    /\ db_devices w' = db_devices w
    /\ active_connections w' = active_connections w
    /\ trace w'
       = trace w
         ++ [LogError "Simulation error: PersistenceError"; Slept 5%Q].
Proof.
  intros Hdev Hfail.
  destruct (simulate_device_spec device_data w) as (dd' & Hsim & Hticked & _).
  rewrite simulate_tick_unfold, Hdev.
  rewrite (simulate_sweep_step _ _ _ _ _ _ Hsim). cbv zeta. rewrite Hfail.
  eexists. exists dd'. split; [reflexivity|]. cbn.
  split; [reflexivity|]. split; [exact Hticked|]. repeat split.
Qed.

Lemma tick_store_failure_is_logged_witness :
  let w := with_store_failures [3%nat] demo_world in
  exists w',
    simulate_tick w = (Ok tt, w')
    /\ db_devices w' = db_devices w
    /\ trace w' = [LogError "Simulation error: PersistenceError"; Slept 5%Q]
    /\ option_map (fun e => Device.uptime (device e))
         (dict_get "dev-b" (devices w')) = Some 0.
Proof.
  intros w.
  destruct (tick_store_failure_is_logged w "dev-a"
              (snd (demo_entry "dev-a" ERROR ON))
              [demo_entry "dev-b" ONLINE OFF] eq_refl eq_refl)
    as (w' & dd' & Hrun & Hdev & _ & Hdb & _ & Htrace).
  exists w'. split; [exact Hrun|]. split; [exact Hdb|].
  split; [exact Htrace|]. rewrite Hdev. reflexivity.
Defined.

Lemma simulate_tick_keeps_running w :
  simulator_running (snd (simulate_tick w)) = simulator_running w.
Proof.
  destruct (simulate_sweep_full (devices w) [] w eq_refl)
    as (after & _ & _ & _ & _ & _ & _ & Hrun & _).
  rewrite simulate_tick_unfold.
  destruct (simulate_sweep [] (devices w) w) as [[[]|e] w1];
    cbn [fst snd] in *; [|exact Hrun].
  destruct (devices w1); exact Hrun.
Qed.

(** X18. The simulator loop cannot be stopped by an error: while the
    running flag is set, [n] iterations of budget perform [n] ticks and
    return normally, whatever the store and the sockets do; when the flag
    is cleared (as [stop] does) the loop leaves immediately without
    touching anything. *)
Theorem simulator_loop_runs_every_tick (n : nat) (w : world) :
  (simulator_running w = true ->
   simulate_devices n w = (Ok tt, ticks n w))
  /\ (simulator_running w = false -> simulate_devices n w = (Ok tt, w))
  /\ simulate_devices n (snd (simulator_stop w))
     = (Ok tt, snd (simulator_stop w)).
Proof.
  assert (Hstopped : forall w0, simulator_running w0 = false ->
                                simulate_devices n w0 = (Ok tt, w0)).
  { intros w0 Hoff. destruct n; cbn [simulate_devices]; [reflexivity|].
    unfold bind, get. rewrite Hoff. reflexivity. }
  split; [|split; [apply Hstopped | apply Hstopped; reflexivity]].
  clear Hstopped. revert w. induction n as [|n IH]; intros w Hrun;
    cbn [simulate_devices ticks]; [reflexivity|].
  unfold bind at 1. unfold get. rewrite Hrun. unfold bind at 1.
  pose proof (simulate_tick_keeps_running w) as Hkeep.
  destruct (simulate_tick_returns w) as (w2 & Htick & _).
  rewrite Htick in Hkeep. cbn [snd] in Hkeep. rewrite Htick.
  cbv beta iota. cbn [snd]. apply IH. rewrite Hkeep. exact Hrun.
Qed.

Lemma simulator_loop_runs_every_tick_witness :
  simulate_devices 3 (with_store_failures [3%nat; 11%nat] demo_world)
  = (Ok tt, ticks 3 (with_store_failures [3%nat; 11%nat] demo_world)).
Proof.
  apply (proj1 (simulator_loop_runs_every_tick 3 _)). reflexivity.
Defined.

(* ------------------------------------------------------------------ *)
(** ** The schedule routes *)

Lemma find_update_first {A} (p : A -> bool) f l :
  (forall a, p (f a) = p a) ->
  find p (update_first p f l) = option_map f (find p l).
Proof.
  intros Hp. induction l as [|a r IH]; cbn; [reflexivity|].
  destruct (p a) eqn:E; cbn.
  - rewrite Hp, E. reflexivity.
  - rewrite E. exact IH.
Qed.

Lemma update_first_twice {A} (p : A -> bool) f g l :
  (forall a, p (f a) = p a) ->
  update_first p g (update_first p f l)
  = update_first p (fun a => g (f a)) l.
Proof.
  intros Hp. induction l as [|a r IH]; cbn; [reflexivity|].
  destruct (p a) eqn:E; cbn.
  - rewrite Hp, E. reflexivity.
  - rewrite E, IH. reflexivity.
Qed.

Lemma update_first_fixed {A} (p : A -> bool) f l s :
  find p l = Some s -> f s = s -> update_first p f l = l.
Proof.
  induction l as [|a r IH]; cbn; [discriminate|].
  destruct (p a).
  - intros E Hs. injection E as ->. rewrite Hs. reflexivity.
  - intros E Hs. rewrite (IH E Hs). reflexivity.
Qed.

Lemma update_first_missing {A} (p : A -> bool) f l :
  find p l = None -> update_first p f l = l.
Proof.
  induction l as [|a r IH]; cbn; [reflexivity|].
  destruct (p a); [discriminate|]. intros E. rewrite (IH E). reflexivity.
Qed.

Lemma toggle_schedule_found k w s :
  store_fails (env w) (calls w) = false ->
  store_fails (env w) (1 + calls w) = false ->
  find (has_schedule_id k) (db_schedules w) = Some s ->
  toggle_schedule k w
  = (Ok (Some (negb (Schedule.is_active s))),
     set_db_schedules
       (update_first (has_schedule_id k)
          (Schedule.with_is_active (negb (Schedule.is_active s)))
          (db_schedules w))
       (set_calls (2 + calls w) w)).
Proof.
  intros H0 H1 Hfind. unfold toggle_schedule, db_schedules_find_one.
  run_monad. cbn. rewrite H0. cbn. rewrite Hfind. cbn.
  change (S (calls w)) with (1 + calls w)%nat. rewrite H1. reflexivity.
Qed.

(** X19. With the store answering, [toggle_schedule] flips the activity
    flag of the first document with that id and reports the new value;
    toggling twice restores the schedule collection exactly.  For an id no
    document has, it reports not-found and writes nothing. *)
Theorem toggle_schedule_twice_restores (k : string) (w : world) :
  reliable_store w ->
  match find (has_schedule_id k) (db_schedules w) with
  | Some s =>
      exists w1 w2,
        toggle_schedule k w = (Ok (Some (negb (Schedule.is_active s))), w1)
        /\ find (has_schedule_id k) (db_schedules w1)
           = Some (Schedule.with_is_active (negb (Schedule.is_active s)) s)
        /\ toggle_schedule k w1 = (Ok (Some (Schedule.is_active s)), w2)
        /\ db_schedules w2 = db_schedules w
  | None =>
      exists w1,
        toggle_schedule k w = (Ok None, w1)
        /\ db_schedules w1 = db_schedules w
  end.
Proof.
  intros Hr. destruct (find (has_schedule_id k) (db_schedules w)) as [s|]
    eqn:Hfind.
  - assert (Hid : forall b a,
              has_schedule_id k (Schedule.with_is_active b a)
              = has_schedule_id k a) by reflexivity.
    rewrite (toggle_schedule_found k w s (Hr _) (Hr _) Hfind).
    eexists. eexists. split; [reflexivity|].
    cbn -[Nat.add]. rewrite (find_update_first _ _ _ (Hid _)), Hfind.
    split; [reflexivity|].
    rewrite (toggle_schedule_found k _
               (Schedule.with_is_active (negb (Schedule.is_active s)) s)).
    + cbn -[Nat.add]. rewrite negb_involutive. split; [reflexivity|].
      rewrite (update_first_twice _ _ _ _ (Hid _)).
      apply (update_first_fixed _ _ _ s Hfind). destruct s; reflexivity.
    + apply Hr.
    + apply Hr.
    + cbn -[Nat.add]. rewrite (find_update_first _ _ _ (Hid _)), Hfind.
      reflexivity.
  - unfold toggle_schedule, db_schedules_find_one. run_monad. cbn.
    rewrite Hr. cbn. rewrite Hfind. eexists. split; reflexivity.
Qed.

Lemma toggle_schedule_twice_restores_witness :
  exists w1 w2,
    toggle_schedule "s-daily" demo_world = (Ok (Some false), w1)
    /\ toggle_schedule "s-daily" w1 = (Ok (Some true), w2)
    /\ db_schedules w2 = db_schedules demo_world.
Proof.
  pose proof (toggle_schedule_twice_restores "s-daily" demo_world
                (fun k => eq_refl)) as H.
  cbn [find demo_world db_schedules] in H.
  change (find (has_schedule_id "s-daily")
            [once_at_noon; daily_at_noon; weekly_mon_wed])
    with (Some daily_at_noon) in H.
  destruct H as (w1 & w2 & H1 & _ & H2 & H3).
  exists w1, w2. split; [exact H1|]. split; [exact H2 | exact H3].
Defined.

(** X20. [create_schedule] checks the device against the store, not
    against the simulator's registry, and checks nothing else: with the
    store answering, an id without a stored device gives not-found and no
    write; otherwise the schedule is appended to the collection with a fresh
    id, active, and with the trigger time exactly as given (even one that
    does not parse), so the next load of the active schedules contains
    it. *)
Theorem create_schedule_checks_only_the_stored_device
    (schedule_input : ScheduleCreate.t) (w : world) :
  reliable_store w ->
  match find (has_device_id (ScheduleCreate.device_id schedule_input))
             (db_devices w) with
  | None =>
      create_schedule schedule_input w = (Ok None, set_calls (1 + calls w) w)
  | Some _ =>
      exists s w',
        create_schedule schedule_input w = (Ok (Some s), w')
        /\ db_schedules w' = db_schedules w ++ [s]
        /\ In s (filter Schedule.is_active (db_schedules w'))
        /\ Schedule.id s = fresh_uuid (env w) (1 + calls w)
        /\ Schedule.is_active s = true
        /\ Schedule.trigger_time s
           = ScheduleCreate.trigger_time schedule_input
        /\ Schedule.device_id s = ScheduleCreate.device_id schedule_input
        /\ devices w' = devices w
        /\ db_devices w' = db_devices w
  end.
Proof.
  intros Hr. unfold create_schedule, db_devices_find_one,
    db_schedules_insert_one. run_monad. cbn. rewrite Hr. cbn.
  destruct (find (has_device_id (ScheduleCreate.device_id schedule_input))
              (db_devices w)); cbn; [|reflexivity].
  rewrite Hr. cbn. eexists. eexists. split; [reflexivity|]. cbn.
  split; [reflexivity|]. split; [|repeat split].
  apply filter_In. split; [|reflexivity].
  apply in_or_app. right. left. reflexivity.
Qed.

Lemma create_schedule_checks_only_the_stored_device_witness :
  (exists s w',
     create_schedule
       (ScheduleCreate.mk "dev-a" "typo" DAILY ON "noon" None None)
       (set_devices [] demo_world) = (Ok (Some s), w')
     /\ Schedule.trigger_time s = "noon"
     /\ Schedule.is_active s = true)
  /\ fst (create_schedule
            (ScheduleCreate.mk "ghost" "n" DAILY ON "12:00" None None)
            demo_world) = Ok None.
Proof.
  split.
  - pose proof (create_schedule_checks_only_the_stored_device
                  (ScheduleCreate.mk "dev-a" "typo" DAILY ON "noon" None None)
                  (set_devices [] demo_world) (fun k => eq_refl)) as H.
    cbn [find] in H.
    destruct H as (s & w' & Hrun & _ & _ & _ & Hact & Htime & _).
    exists s, w'. split; [exact Hrun|]. split; [exact Htime | exact Hact].
  - pose proof (create_schedule_checks_only_the_stored_device
                  (ScheduleCreate.mk "ghost" "n" DAILY ON "12:00" None None)
                  demo_world (fun k => eq_refl)) as H.
    cbn [find] in H. rewrite H. reflexivity.
Defined.

(** X21. With the store answering, [update_schedule] on a stored schedule
    replaces the seven request fields and keeps the id, the activity flag
    and the creation time; it returns the updated document.  It does not
    check that the new device exists.  For an unknown id it reports
    not-found and writes nothing. *)
Theorem update_schedule_keeps_identity (k : string) (u : ScheduleCreate.t)
    (w : world) :
  reliable_store w ->
  match find (has_schedule_id k) (db_schedules w) with
  | Some s =>
      exists w',
        update_schedule k u w = (Ok (Some (apply_schedule_update u s)), w')
        /\ db_schedules w'
           = update_first (has_schedule_id k) (apply_schedule_update u)
               (db_schedules w)
        /\ Schedule.id (apply_schedule_update u s) = Schedule.id s
        /\ Schedule.is_active (apply_schedule_update u s)
           = Schedule.is_active s
        /\ Schedule.created_at (apply_schedule_update u s)
           = Schedule.created_at s
        /\ Schedule.device_id (apply_schedule_update u s)
           = ScheduleCreate.device_id u
  | None =>
      exists w',
        update_schedule k u w = (Ok None, w')
        /\ db_schedules w' = db_schedules w
  end.
Proof.
  intros Hr. unfold update_schedule, db_schedules_find_one. run_monad. cbn.
  rewrite Hr. cbn.
  destruct (find (has_schedule_id k) (db_schedules w)) as [s|] eqn:Hfind;
    cbn.
  - rewrite !Hr. cbn.
    rewrite (find_update_first (has_schedule_id k)
               (apply_schedule_update u) (db_schedules w)
               (fun a => eq_refl)), Hfind. cbn.
    eexists. split; [reflexivity|]. repeat split.
  - eexists. split; reflexivity.
Qed.

Lemma update_schedule_keeps_identity_witness :
  exists s w',
    update_schedule "s-once"
      (ScheduleCreate.mk "ghost" "moved" DAILY ON "07:30" None None)
      demo_world = (Ok (Some s), w')
    /\ Schedule.id s = "s-once"
    /\ Schedule.device_id s = "ghost"
    /\ Schedule.is_active s = true.
Proof.
  pose proof (update_schedule_keeps_identity "s-once"
                (ScheduleCreate.mk "ghost" "moved" DAILY ON "07:30" None None)
                demo_world (fun k => eq_refl)) as H.
  change (find (has_schedule_id "s-once") (db_schedules demo_world))
    with (Some once_at_noon) in H.
  destruct H as (w' & Hrun & _ & Hid & Hact & _ & Hdev).
  eexists. exists w'. split; [exact Hrun|].
  split; [exact Hid|]. split; [exact Hdev | exact Hact].
Defined.

(* ------------------------------------------------------------------ *)
(** ** The registry and the device routes *)

Lemma add_device_eq d w :
  exists entry,
    add_device d w
    = (Ok tt,
       set_devices (dict_set (Device.id d) entry (devices w))
         (set_calls (3 + calls w) w))
    /\ device entry = d
    /\ last_state_change entry = clock (env w) (calls w)
    /\ 50 <= sim_wifi_signal (sim_data entry) <= 100.
Proof.
  unfold add_device. run_monad.
  cbn -[Z.add Z.sub Z.modulo Nat.add scale unit_interval].
  eexists. split; [reflexivity|]. cbn -[Z.add Z.sub Z.modulo].
  split; [reflexivity|]. split; [reflexivity|].
  pose proof (Z.mod_pos_bound (entropy (env w) (S (calls w))) (100 - 50 + 1)).
  lia.
Qed.

Lemma dict_get_none_keys {V} k (l : list (string * V)) :
  dict_get k l = None <-> ~ In k (map fst l).
Proof.
  induction l as [|[k' v] r IH]; cbn; [tauto|].
  destruct (String.eqb_spec k' k) as [->|Hne].
  - split; [discriminate | intros H; exfalso; apply H; left; reflexivity].
  - rewrite IH. split; [intros H [E|Hin]; [congruence | tauto] | tauto].
Qed.

Lemma dict_set_keys {V} k (v : V) l :
  map fst (dict_set k v l)
  = match dict_get k l with
    | Some _ => map fst l
    | None => map fst l ++ [k]
    end.
Proof.
  induction l as [|[k' v'] r IH]; cbn; [reflexivity|].
  destruct (String.eqb k' k); cbn; [reflexivity|].
  rewrite IH. destruct (dict_get k r); reflexivity.
Qed.

Lemma dict_del_set_fresh {V} k (v : V) l :
  dict_get k l = None -> dict_del k (dict_set k v l) = l.
Proof.
  induction l as [|[k' v'] r IH]; cbn.
  - rewrite String.eqb_refl. reflexivity.
  - destruct (String.eqb k' k) eqn:E; [discriminate|]. cbn. rewrite E.
    intros H. rewrite (IH H). reflexivity.
Qed.

(** X22. [add_device] registers the device under its own id, with a
    simulated signal seeded between 50 and 100; adding a device whose id is
    already registered replaces that entry in place and adds no key.
    Removing a freshly added device restores the registry, and removing an
    unknown id changes nothing. *)
Theorem add_then_remove_restores_registry (d : Device.t) (w : world) :
  (exists entry,
     dict_get (Device.id d) (devices (snd (add_device d w))) = Some entry
     /\ device entry = d
     /\ 50 <= sim_wifi_signal (sim_data entry) <= 100)
  /\ (forall old,
        dict_get (Device.id d) (devices w) = Some old ->
        map fst (devices (snd (add_device d w))) = map fst (devices w))
  /\ (dict_get (Device.id d) (devices w) = None ->
      devices (snd (remove_device (Device.id d) (snd (add_device d w))))
      = devices w)
  /\ (forall k,
        dict_get k (devices w) = None -> remove_device k w = (Ok tt, w)).
Proof.
  destruct (add_device_eq d w) as (entry & Hrun & Hdev & _ & Hwifi).
  rewrite Hrun. cbn [snd]. split; [|split; [|split]].
  - exists entry. cbn. rewrite dict_get_set_same. auto.
  - intros old Hold. cbn. rewrite dict_set_keys, Hold. reflexivity.
  - intros Hfresh. unfold remove_device, modify. cbn.
    rewrite dict_get_set_same. cbn. apply dict_del_set_fresh, Hfresh.
  - intros k Hk. unfold remove_device, modify. rewrite Hk. reflexivity.
Qed.

Lemma add_then_remove_restores_registry_witness :
  devices (snd (remove_device "dev-c"
                  (snd (add_device (demo_device "dev-c" OFFLINE OFF)
                          demo_world))))
  = devices demo_world.
Proof.
  apply (proj1 (proj2 (proj2 (add_then_remove_restores_registry
           (demo_device "dev-c" OFFLINE OFF) demo_world)))).
  reflexivity.
Defined.

Lemma hydrate_registers docs : forall w,
  NoDup (map Device.id docs) ->
  exists w',
    hydrate docs w = (Ok tt, w')
    /\ (forall d, In d docs ->
          exists entry,
            dict_get (Device.id d) (devices w') = Some entry
            /\ device entry = d)
    /\ (forall k, ~ In k (map Device.id docs) ->
          dict_get k (devices w') = dict_get k (devices w))
    /\ env w' = env w
    /\ simulator_running w' = simulator_running w
    /\ scheduler_running w' = scheduler_running w
    /\ db_devices w' = db_devices w.
Proof.
  induction docs as [|d rest IH]; intros w Hnd; cbn [hydrate].
  - exists w. split; [reflexivity|]. split; [intros d []|]. repeat split.
  - inversion Hnd as [|x xs Hnotin Hnd']; subst.
    destruct (add_device_eq d w) as (entry & Hrun & Hdev & _).
    unfold bind at 1. rewrite Hrun.
    match goal with |- context [hydrate rest ?w1] =>
      destruct (IH w1 Hnd') as (w' & Hrun' & Hreg & Hkeep & He & Hs & Hc & Hdb)
    end.
    exists w'. split; [exact Hrun'|]. split; [|split].
    + intros d' [<-|Hin]; [|apply Hreg, Hin].
      exists entry. rewrite (Hkeep _ Hnotin). cbn.
      rewrite dict_get_set_same. auto.
    + intros k Hk. rewrite Hkeep; [|intros Hin; apply Hk; right; exact Hin].
      cbn. apply dict_get_set_other. intros ->. apply Hk. left. reflexivity.
    + rewrite He, Hs, Hc, Hdb. repeat split.
Qed.

(** X23. With the store answering and device ids unique in it,
    [startup_event] sets both running flags and registers every stored
    device under its id, each entry holding the stored document. *)
Theorem startup_registers_every_stored_device (w : world) :
  reliable_store w ->
  NoDup (map Device.id (db_devices w)) ->
  exists w',
    startup_event w = (Ok tt, w')
    /\ simulator_running w' = true
    /\ scheduler_running w' = true
    /\ db_devices w' = db_devices w
    /\ forall d, In d (db_devices w) ->
         exists entry,
           dict_get (Device.id d) (devices w') = Some entry
           /\ device entry = d.
Proof.
  intros Hr Hnd. unfold startup_event, simulator_start, scheduler_start,
    db_devices_find. run_monad.
  destruct (simulator_running w) eqn:Hsim;
    destruct (scheduler_running w) eqn:Hsch; cbn; rewrite ?Hsch; cbn;
    rewrite Hr; cbn;
    match goal with |- context [hydrate (db_devices w) ?w1] =>
      destruct (hydrate_registers (db_devices w) w1 Hnd)
        as (w' & Hrun & Hreg & _ & _ & Hs & Hc & Hdb)
    end;
    rewrite Hrun; exists w'; cbn in Hs, Hc, Hdb;
    (split; [reflexivity|]); rewrite Hs, Hc, Hdb; auto.
Qed.

Lemma startup_registers_every_stored_device_witness :
  exists w',
    startup_event (set_devices [] demo_world) = (Ok tt, w')
    /\ map fst (devices w') = ["dev-a"; "dev-b"]
    /\ exists entry,
         dict_get "dev-a" (devices w') = Some entry
         /\ device entry = demo_device "dev-a" ERROR ON.
Proof.
  destruct (startup_registers_every_stored_device
              (set_devices [] demo_world) (fun k => eq_refl))
    as (w' & Hrun & _ & _ & _ & Hreg).
  - repeat constructor; cbn; intuition discriminate.
  - exists w'. split; [exact Hrun|]. split.
    + assert (E : w' = snd (startup_event (set_devices [] demo_world)))
        by (rewrite Hrun; reflexivity).
      rewrite E. reflexivity.
    + apply (Hreg (demo_device "dev-a" ERROR ON)). left. reflexivity.
Defined.

Lemma delete_first_missing {A} (p : A -> bool) l :
  find p l = None -> delete_first p l = (l, false).
Proof.
  induction l as [|a r IH]; cbn; [reflexivity|].
  destruct (p a); [discriminate|]. intros E. rewrite (IH E). reflexivity.
Qed.

Lemma delete_first_found {A} (p : A -> bool) l d :
  find p l = Some d -> snd (delete_first p l) = true.
Proof.
  induction l as [|a r IH]; cbn; [discriminate|].
  destruct (p a); [reflexivity|]. intros E. specialize (IH E).
  destruct (delete_first p r). exact IH.
Qed.

Lemma find_delete_first_unique k l :
  NoDup (map Device.id l) ->
  find (has_device_id k) (fst (delete_first (has_device_id k) l)) = None.
Proof.
  induction l as [|a r IH]; cbn; [reflexivity|]. intros Hnd.
  inversion Hnd as [|x xs Hnotin Hnd']; subst.
  destruct (has_device_id k a) eqn:E; cbn.
  - unfold has_device_id in E. apply String.eqb_eq in E. subst k.
    destruct (find (has_device_id (Device.id a)) r) as [d|] eqn:F;
      [|reflexivity].
    apply find_some in F as [Hin Hd]. unfold has_device_id in Hd.
    apply String.eqb_eq in Hd. exfalso. apply Hnotin. rewrite <- Hd.
    apply in_map, Hin.
  - specialize (IH Hnd'). destruct (delete_first (has_device_id k) r).
    cbn in *. rewrite E. exact IH.
Qed.

Lemma dict_get_del_unique {V} k (l : list (string * V)) :
  NoDup (map fst l) -> dict_get k (dict_del k l) = None.
Proof.
  induction l as [|[k' v] r IH]; cbn; [reflexivity|]. intros Hnd.
  inversion Hnd as [|x xs Hnotin Hnd']; subst.
  destruct (String.eqb_spec k' k) as [->|Hne].
  - apply dict_get_none_keys, Hnotin.
  - cbn. destruct (String.eqb_spec k' k); [congruence|]. apply IH, Hnd'.
Qed.

(** X24. [delete_device] is decided by the store alone.  When no stored
    document has the id it reports not-found and leaves the registry as it
    is, even if the simulator still runs that device.  When one has, and
    ids are unique in the store and in the registry, the document and the
    registry entry are both gone afterwards, so a later relay command on
    that id is refused. *)
Theorem delete_device_follows_the_store (k : string) (w : world) :
  store_fails (env w) (calls w) = false ->
  (find (has_device_id k) (db_devices w) = None ->
   delete_device k w = (Ok false, set_calls (1 + calls w) w))
  /\ (forall d state,
        find (has_device_id k) (db_devices w) = Some d ->
        NoDup (map Device.id (db_devices w)) ->
        NoDup (map fst (devices w)) ->
        exists w',
          delete_device k w = (Ok true, w')
          /\ find (has_device_id k) (db_devices w') = None
          /\ dict_get k (devices w') = None
          /\ control_relay k state w' = (Ok false, w')).
Proof.
  intros Hstore. split.
  - intros Hfind. unfold delete_device, db_devices_delete_one. run_monad.
    cbn. rewrite Hstore. cbn. rewrite (delete_first_missing _ _ Hfind).
    cbn. destruct w; reflexivity.
  - intros d state Hfind Hdb Hreg.
    unfold delete_device, db_devices_delete_one, remove_device. run_monad.
    cbn. rewrite Hstore. cbn.
    pose proof (delete_first_found _ _ _ Hfind) as Hfound.
    pose proof (find_delete_first_unique k _ Hdb) as Hgone.
    destruct (delete_first (has_device_id k) (db_devices w)) as [docs' found].
    cbn in Hfound, Hgone. subst found. cbn.
    assert (Hunreg :
      dict_get k
        (devices
           (match dict_get k (devices w) with
            | Some _ =>
                set_devices (dict_del k (devices w))
                  (set_db_devices docs' (set_calls (S (calls w)) w))
            | None => set_db_devices docs' (set_calls (S (calls w)) w)
            end)) = None).
    { destruct (dict_get k (devices w)) eqn:Hk; cbn.
      - apply dict_get_del_unique, Hreg.
      - exact Hk. }
    eexists. split; [reflexivity|]. split; [|split].
    + destruct (dict_get k (devices w)); exact Hgone.
    + exact Hunreg.
    + apply control_relay_unknown, Hunreg.
Qed.

Lemma delete_device_follows_the_store_witness :
  (exists w',
     delete_device "dev-a" demo_world = (Ok true, w')
     /\ control_relay "dev-a" ON w' = (Ok false, w'))
  /\ (exists w',
        delete_device "dev-a" (set_db_devices [] demo_world) = (Ok false, w')
        /\ map fst (devices w') = ["dev-a"; "dev-b"]).
Proof.
  split.
  - destruct (proj2 (delete_device_follows_the_store "dev-a" demo_world
                       eq_refl) (demo_device "dev-a" ERROR ON) ON eq_refl)
      as (w' & Hrun & _ & _ & Hctl).
    + repeat constructor; cbn; intuition discriminate.
    + repeat constructor; cbn; intuition discriminate.
    + exists w'. split; [exact Hrun | exact Hctl].
  - eexists. split.
    + apply (proj1 (delete_device_follows_the_store "dev-a"
                      (set_db_devices [] demo_world) eq_refl)).
      reflexivity.
    + reflexivity.
Defined.

(** X25. [control_relay] updates the stored document but never creates
    one.  With the store answering, for a registered device without a
    stored document it still reports success and the device collection is
    left as it was; with a stored document, that document afterwards
    carries the requested relay state and is otherwise unchanged up to
    last-seen. *)
Theorem control_relay_never_upserts (k : string) (state : RelayState)
    (w : world) (device_data : device_entry) :
  dict_get k (devices w) = Some device_data ->
  reliable_store w ->
  exists w',
    control_relay k state w = (Ok true, w')
    /\ match find (has_device_id k) (db_devices w) with
       | None => db_devices w' = db_devices w
       | Some doc =>
           exists doc',
             find (has_device_id k) (db_devices w') = Some doc'
             /\ Device.relay_state doc' = state
             /\ Device.with_last_seen (Device.last_seen doc)
                  (Device.with_relay_state (Device.relay_state doc) doc')
                = doc
       end.
Proof.
  intros Hd Hr. exists (relay_outcome k state device_data w).
  split; [apply control_relay_reliable; assumption|].
  unfold relay_outcome. cbn -[Nat.add].
  destruct (find (has_device_id k) (db_devices w)) as [doc|] eqn:Hfind.
  - rewrite find_update_first by reflexivity. rewrite Hfind. cbn -[Nat.add].
    eexists. split; [reflexivity|]. split; [reflexivity|].
    destruct doc; reflexivity.
  - apply update_first_missing, Hfind.
Qed.

Lemma control_relay_never_upserts_witness :
  exists w',
    control_relay "dev-a" OFF (set_db_devices [] demo_world) = (Ok true, w')
    /\ db_devices w' = [].
Proof.
  destruct (control_relay_never_upserts "dev-a" OFF
              (set_db_devices [] demo_world)
              (snd (demo_entry "dev-a" ERROR ON)) eq_refl (fun k => eq_refl))
    as (w' & Hrun & Hdb).
  exists w'. split; [exact Hrun | exact Hdb].
Defined.

(** After [shutdown_event] both background loops leave at their next
    check of the running flag, whatever budget they are given, and change
    nothing. *)
Theorem shutdown_stops_both_loops (n : nat) (w : world) :
  let w' := snd (shutdown_event w) in
  simulate_devices n w' = (Ok tt, w')
  /\ scheduler_loop n w' = (Ok tt, w')
  /\ devices w' = devices w
  /\ db_schedules w' = db_schedules w.
Proof.
  cbn. split; [|split; [|split; reflexivity]].
  - destruct n; cbn [simulate_devices]; reflexivity.
  - destruct n; cbn [scheduler_loop]; reflexivity.
Qed.

(** X26. With the store answering, [get_system_stats] reads without
    writing; it reports as offline every stored device that is not online,
    the devices in [error] included, so online and offline always add up to
    the total; and the active schedules never exceed the total. *)
Theorem stats_count_error_devices_as_offline (w : world) :
  reliable_store w ->
  exists st,
    get_system_stats w = (Ok st, set_calls (5 + calls w) w)
    /\ stat_total_devices st = Z.of_nat (List.length (db_devices w))
    /\ stat_offline_devices st
       = Z.of_nat
           (List.length
              (filter (fun d => match Device.status d with
                                | ONLINE => false
                                | OFFLINE | ERROR => true
                                end) (db_devices w)))
    /\ stat_online_devices st + stat_offline_devices st
       = stat_total_devices st
    /\ 0 <= stat_active_schedules st <= stat_total_schedules st
    /\ stat_total_runtime st
       = fold_left (fun acc d => acc + Device.total_runtime d)
                   (db_devices w) 0.
Proof.
  intros Hr. unfold get_system_stats, count_documents, db_devices_find.
  run_monad. cbn -[Z.of_nat Z.sub Z.add]. rewrite !Hr.
  cbn -[Z.of_nat Z.sub Z.add]. rewrite !filter_true.
  eexists. split; [reflexivity|]. cbn -[Z.of_nat Z.sub Z.add].
  pose proof (filter_length is_online (db_devices w)) as Hpart.
  pose proof (filter_length_le Schedule.is_active (db_schedules w)) as Hact.
  assert (Hoff : filter (fun d => negb (is_online d)) (db_devices w)
                 = filter (fun d => match Device.status d with
                                    | ONLINE => false
                                    | OFFLINE | ERROR => true
                                    end) (db_devices w)).
  { apply filter_ext. intros d. unfold is_online.
    destruct (Device.status d); reflexivity. }
  rewrite <- Hoff. repeat split; lia.
Qed.

Lemma stats_count_error_devices_as_offline_witness :
  exists st,
    fst (get_system_stats demo_world) = Ok st
    /\ stat_total_devices st = 2
    /\ stat_online_devices st = 1
    /\ stat_offline_devices st = 1.
Proof.
  destruct (stats_count_error_devices_as_offline demo_world
              (fun k => eq_refl)) as (st & Hrun & _).
  exists st. split; [rewrite Hrun; reflexivity|].
  assert (E : st = match fst (get_system_stats demo_world) with
                   | Ok s => s
                   | Raise _ => st
                   end) by (rewrite Hrun; reflexivity).
  rewrite E. repeat split.
Defined.

(* ------------------------------------------------------------------ *)
(** ** The registry stays a dict keyed by device id *)

Lemma registry_wf_set k v (l : list (string * device_entry)) :
  NoDup (map fst l) ->
  Forall (fun entry => Device.id (device (snd entry)) = fst entry) l ->
  Device.id (device v) = k ->
  NoDup (map fst (dict_set k v l))
  /\ Forall (fun entry => Device.id (device (snd entry)) = fst entry)
            (dict_set k v l).
Proof.
  intros Hnd Hkey Hv. split.
  - rewrite dict_set_keys. destruct (dict_get k l) eqn:Hk; [exact Hnd|].
    apply dict_get_none_keys in Hk.
    apply NoDup_app; [exact Hnd | repeat constructor; intros [] |].
    intros x Hx [<-|[]]. contradiction.
  - clear Hnd. induction Hkey as [|[k' v'] r Ha Hr IH]; cbn.
    + constructor; [exact Hv | constructor].
    + destruct (String.eqb_spec k' k) as [->|Hne]; constructor; auto.
Qed.

Lemma dict_del_keys_incl {V} k (l : list (string * V)) x :
  In x (map fst (dict_del k l)) -> In x (map fst l).
Proof.
  induction l as [|[k' v] r IH]; cbn; [tauto|].
  destruct (String.eqb k' k); cbn; [tauto|]. intros [E|H]; auto.
Qed.

Lemma registry_wf_del k (l : list (string * device_entry)) :
  NoDup (map fst l) ->
  Forall (fun entry => Device.id (device (snd entry)) = fst entry) l ->
  NoDup (map fst (dict_del k l))
  /\ Forall (fun entry => Device.id (device (snd entry)) = fst entry)
            (dict_del k l).
Proof.
  intros Hnd Hkey. split.
  - induction l as [|[k' v] r IH]; cbn; [constructor|].
    inversion Hnd as [|x xs Hnotin Hnd']; subst.
    inversion Hkey as [|y ys _ Hkey']; subst.
    destruct (String.eqb k' k); [exact Hnd'|]. cbn. constructor.
    + intros Hin. apply Hnotin. apply (dict_del_keys_incl _ _ _ Hin).
    + apply IH; assumption.
  - clear Hnd. induction Hkey as [|[k' v'] r Ha Hr IH]; cbn; [constructor|].
    destruct (String.eqb k' k); [exact Hr | constructor; auto].
Qed.

Lemma registry_wf_ticked l l' :
  Forall2 (same_key (fun a b => b = a \/ ticked_fully a b)) l l' ->
  NoDup (map fst l) ->
  Forall (fun entry => Device.id (device (snd entry)) = fst entry) l ->
  NoDup (map fst l')
  /\ Forall (fun entry => Device.id (device (snd entry)) = fst entry) l'.
Proof.
  intros Hrel Hnd Hkey.
  assert (Hkeys : map fst l' = map fst l).
  { clear Hnd Hkey. induction Hrel as [|a b l l' [Hk _] _ IH]; cbn;
      [reflexivity|]. rewrite Hk, IH. reflexivity. }
  split; [rewrite Hkeys; exact Hnd|]. clear Hnd Hkeys.
  induction Hrel as [|a b l l' [Hk Hab] _ IH]; [constructor|].
  inversion Hkey as [|x xs Ha Hrest]; subst. constructor; [|apply IH, Hrest].
  rewrite Hk. destruct Hab as [->|(_ & Hid & _)]; [exact Ha|].
  rewrite Hid. exact Ha.
Qed.

Lemma registry_wf_silent : silent registry_wf.
Proof. split; [|split]; intros w v [H1 H2]; split; assumption. Qed.

Lemma registry_wf_ledger_blind : ledger_blind registry_wf.
Proof. split; intros w v [H1 H2]; split; assumption. Qed.

Lemma control_relay_registry_wf device_id state :
  preserves registry_wf (control_relay device_id state).
Proof.
  apply control_relay_keeps. intros w dd Hd [Hnd Hkey].
  destruct (control_relay_effects w device_id state dd Hd) as (Hdev & _).
  unfold registry_wf. rewrite Hdev. unfold relay_outcome. cbn -[Nat.add].
  apply registry_wf_set; [exact Hnd | exact Hkey|]. cbn.
  rewrite Forall_forall in Hkey. apply (Hkey _ (dict_get_In _ _ _ Hd)).
Qed.

Lemma add_device_registry_wf d : preserves registry_wf (add_device d).
Proof.
  intros w [Hnd Hkey]. destruct (add_device_eq d w) as (entry & -> & Hd & _).
  unfold registry_wf. cbn -[Nat.add].
  apply registry_wf_set; [exact Hnd | exact Hkey|]. rewrite Hd. reflexivity.
Qed.

Lemma hydrate_registry_wf docs : preserves registry_wf (hydrate docs).
Proof.
  induction docs as [|d docs IH]; cbn [hydrate]; [apply preserves_ret|].
  apply preserves_bind; [apply add_device_registry_wf | intros _; exact IH].
Qed.

(** X27. The simulator's registry stays a well-formed dict under every
    operation, store failures included: its keys are unique and every entry
    sits under the id of the device it holds. *)
Theorem registry_stays_keyed_by_device_id (o : operation) (w : world) :
  registry_wf w -> registry_wf (perform o w).
Proof.
  intros Hwf. destruct o; cbn [perform].
  - pose proof (create_device_spec device_input w) as H. cbv zeta in H.
    destruct (store_fails (env w) (4 + calls w)).
    + rewrite H. exact Hwf.
    + destruct H as (entry & -> & Hentry). destruct Hwf as [Hnd Hkey].
      unfold registry_wf. cbn -[Nat.add].
      apply registry_wf_set; [exact Hnd | exact Hkey|].
      rewrite Hentry. reflexivity.
  - unfold update_device, db_devices_find_one, db_devices_update_one.
    run_monad. cbn.
    destruct (store_fails (env w) (calls w)); cbn; [exact Hwf|].
    destruct (find (has_device_id device_id) (db_devices w)); cbn;
      [|exact Hwf].
    destruct (update_is_empty device_update); cbn; [exact Hwf|].
    destruct (store_fails (env w) (S (calls w))); cbn; exact Hwf.
  - unfold delete_device, db_devices_delete_one, remove_device. run_monad.
    cbn. destruct (store_fails (env w) (calls w)); cbn; [exact Hwf|].
    destruct (delete_first (has_device_id device_id) (db_devices w))
      as [docs' found]. cbn.
    destruct found; cbn; [|exact Hwf].
    destruct (dict_get device_id (devices w)); cbn; [|exact Hwf].
    destruct Hwf as [Hnd Hkey]. apply registry_wf_del; assumption.
  - apply control_relay_registry_wf, Hwf.
  - destruct (simulate_tick_frame w) as [Hd _].
    destruct (simulate_sweep_full (devices w) [] w eq_refl)
      as (after & Hdev & Hrel & _).
    unfold registry_wf. rewrite Hd, Hdev. cbn [app].
    destruct Hwf as [Hnd Hkey]. apply (registry_wf_ticked _ _ Hrel Hnd Hkey).
  - apply preserves_scheduler_iteration;
      [apply registry_wf_silent | apply registry_wf_ledger_blind
      | apply control_relay_registry_wf | exact Hwf].
  - revert w Hwf. unfold startup_event.
    apply preserves_bind.
    { unfold simulator_start. apply preserves_bind; [apply preserves_get|].
      intros [|]; [apply preserves_ret|].
      apply preserves_modify. intros w [H1 H2]. split; assumption. }
    intros _. apply preserves_bind.
    { unfold scheduler_start. apply preserves_bind; [apply preserves_get|].
      intros [|]; [apply preserves_ret|].
      apply preserves_modify. intros w [H1 H2]. split; assumption. }
    intros _. apply preserves_bind.
    { unfold db_devices_find.
      apply preserves_bind;
        [apply preserves_store_call, registry_wf_silent|].
      intros _. apply preserves_get. }
    intros docs. apply hydrate_registry_wf.
Qed.

Lemma registry_stays_keyed_by_device_id_witness :
  registry_wf
    (perform SimulatorTick
       (perform (CreateDevice (DeviceCreate.mk "fan" RELAY "attic" None))
          demo_world)).
Proof.
  do 2 apply registry_stays_keyed_by_device_id.
  split; cbn; repeat constructor; cbn; intuition discriminate.
Defined.

(* ------------------------------------------------------------------ *)
(** ** A device from creation to deletion *)

Lemma find_app_last {A} (p : A -> bool) l x :
  find p l = None -> p x = true -> find p (l ++ [x]) = Some x.
Proof.
  intros Hl Hx. induction l as [|a r IH]; cbn in *; [rewrite Hx; reflexivity|].
  destruct (p a); [discriminate | apply IH, Hl].
Qed.

Lemma update_first_app_last {A} (p : A -> bool) f l x :
  find p l = None -> p x = true ->
  update_first p f (l ++ [x]) = l ++ [f x].
Proof.
  intros Hl Hx. induction l as [|a r IH]; cbn in *; [rewrite Hx; reflexivity|].
  destruct (p a); [discriminate|]. rewrite (IH Hl). reflexivity.
Qed.

Lemma delete_first_app_last {A} (p : A -> bool) l x :
  find p l = None -> p x = true -> delete_first p (l ++ [x]) = (l, true).
Proof.
  intros Hl Hx. induction l as [|a r IH]; cbn in *; [rewrite Hx; reflexivity|].
  destruct (p a); [discriminate|]. rewrite (IH Hl). reflexivity.
Qed.

Lemma dict_set_twice {V} k (v v' : V) l :
  dict_set k v' (dict_set k v l) = dict_set k v' l.
Proof.
  induction l as [|[k' v0] r IH]; cbn.
  - rewrite String.eqb_refl. reflexivity.
  - destruct (String.eqb k' k) eqn:E; cbn; rewrite E; [reflexivity|].
    rewrite IH. reflexivity.
Qed.

Lemma get_device_eq k w :
  store_fails (env w) (calls w) = false ->
  get_device k w
  = (Ok (find (has_device_id k) (db_devices w)), set_calls (1 + calls w) w).
Proof.
  intros Hs. unfold get_device, db_devices_find_one. run_monad. cbn.
  rewrite Hs. reflexivity.
Qed.

Lemma delete_device_found k w docs' :
  store_fails (env w) (calls w) = false ->
  delete_first (has_device_id k) (db_devices w) = (docs', true) ->
  delete_device k w
  = (Ok true,
     match dict_get k (devices w) with
     | Some _ =>
         set_devices (dict_del k (devices w))
           (set_db_devices docs' (set_calls (1 + calls w) w))
     | None => set_db_devices docs' (set_calls (1 + calls w) w)
     end).
Proof.
  intros Hs Hdel. unfold delete_device, db_devices_delete_one, remove_device.
  run_monad. cbn. rewrite Hs. cbn. rewrite Hdel. cbn.
  destruct (dict_get k (devices w)); reflexivity.
Qed.

(** X28. End to end, with the store answering and a fresh id (no stored
    document and no registry entry under it yet): [create_device] returns
    an online device with its relay off; switching it on succeeds; reading
    it back from the store shows the relay on and a log entry records the
    change from "off" to "on"; deleting it succeeds; after that the read
    reports not-found, a relay command is refused, and registry and device
    collection are as they were before the creation. *)
Theorem device_life_cycle (device_input : DeviceCreate.t) (w : world) :
  reliable_store w ->
  find (has_device_id (fresh_uuid (env w) (calls w))) (db_devices w) = None ->
  dict_get (fresh_uuid (env w) (calls w)) (devices w) = None ->
  let k := fresh_uuid (env w) (calls w) in
  exists d w1 w2 d' w3 w4 w5,
    create_device device_input w = (Ok d, w1)
    /\ Device.id d = k
    /\ Device.status d = ONLINE
    /\ Device.relay_state d = OFF
    /\ control_device k ON w1 = (Ok true, w2)
    /\ get_device k w2 = (Ok (Some d'), w3)
    /\ Device.relay_state d' = ON
    /\ Device.name d' = DeviceCreate.name device_input
    /\ (exists log,
          In log (db_device_logs w3)
          /\ DeviceLog.device_id log = k
          /\ DeviceLog.old_state log = Some "off"
          /\ DeviceLog.new_state log = Some "on")
    /\ delete_device k w3 = (Ok true, w4)
    /\ get_device k w4 = (Ok None, w5)
    /\ control_device k ON w5 = (Ok false, w5)
    /\ devices w5 = devices w
    /\ db_devices w5 = db_devices w.
Proof.
  intros Hr Hstore Hreg k. subst k.
  pose proof (create_device_spec device_input w) as Hc. cbv zeta in Hc.
  rewrite Hr in Hc. destruct Hc as (entry & Hcreate & Hentry).
  remember (fresh_uuid (env w) (calls w)) as k eqn:Hkdef.
  match type of Hcreate with _ = (Ok ?d0, ?w0) =>
    assert (Hid : Device.id d0 = k) by (subst k; reflexivity);
    assert (Hname : Device.name d0 = DeviceCreate.name device_input)
      by reflexivity;
    assert (Hstatus : Device.status d0 = ONLINE) by reflexivity;
    assert (Hrelay : Device.relay_state d0 = OFF) by reflexivity;
    assert (Hdev1 : devices w0 = dict_set (Device.id d0) entry (devices w))
      by reflexivity;
    assert (Hdb1 : db_devices w0 = db_devices w ++ [d0]) by reflexivity;
    assert (Hlog1 : db_device_logs w0 = db_device_logs w) by reflexivity;
    assert (Henv1 : env w0 = env w) by reflexivity;
    remember w0 as w1 eqn:Hw1def; remember d0 as d eqn:Hddef
  end.
  clear Hddef Hw1def. rewrite Hid in Hdev1.
  assert (Hk : has_device_id k d = true).
  { unfold has_device_id. rewrite Hid. apply String.eqb_refl. }
  assert (Hr1 : reliable_store w1) by (intros i; rewrite Henv1; apply Hr).
  assert (Hd1 : dict_get k (devices w1) = Some entry).
  { rewrite Hdev1. apply dict_get_set_same. }
  pose proof (control_relay_reliable w1 k ON entry Hd1 Hr1) as Hctl.
  remember (relay_outcome k ON entry w1) as w2 eqn:Hw2.
  assert (Henv2 : env w2 = env w) by (subst w2; exact Henv1).
  assert (Hdb2 : db_devices w2
                 = db_devices w
                   ++ [Device.with_last_seen (clock (env w1) (3 + calls w1))
                         (Device.with_relay_state ON d)]).
  { subst w2. unfold relay_outcome. cbn -[Nat.add]. rewrite Hdb1.
    apply (update_first_app_last (has_device_id k)
             (fun x => Device.with_last_seen (clock (env w1) (3 + calls w1))
                         (Device.with_relay_state ON x)));
      [exact Hstore | exact Hk]. }
  assert (Hdev2 : devices w2
                  = dict_set k
                      (mk_data
                         (Device.with_last_seen
                            (clock (env w1) (1 + calls w1))
                            (Device.with_relay_state ON (device entry)))
                         (clock (env w1) (2 + calls w1)) (sim_data entry))
                      (devices w)).
  { subst w2. unfold relay_outcome. cbn -[Nat.add]. rewrite Hdev1.
    apply dict_set_twice. }
  assert (Hlog2 : exists log,
             In log (db_device_logs w2)
             /\ DeviceLog.device_id log = k
             /\ DeviceLog.old_state log = Some "off"
             /\ DeviceLog.new_state log = Some "on").
  { subst w2. unfold relay_outcome. cbn -[Nat.add]. eexists. split.
    - apply in_or_app. right. left. reflexivity.
    - cbn. rewrite Hentry, Hrelay. repeat split. }
  clear Hw2.
  remember (Device.with_last_seen (clock (env w1) (3 + calls w1))
              (Device.with_relay_state ON d)) as d' eqn:Hd'.
  assert (Hk' : has_device_id k d' = true).
  { subst d'. unfold has_device_id. cbn. rewrite Hid. apply String.eqb_refl. }
  assert (Hget2 : get_device k w2
                  = (Ok (Some d'), set_calls (1 + calls w2) w2)).
  { rewrite get_device_eq by (rewrite Henv2; apply Hr). rewrite Hdb2.
    rewrite (find_app_last _ _ _ Hstore Hk'). reflexivity. }
  assert (Hdel : delete_device k (set_calls (1 + calls w2) w2)
                 = (Ok true,
                    set_devices (devices w)
                      (set_db_devices (db_devices w)
                         (set_calls (2 + calls w2) w2)))).
  { rewrite (delete_device_found k _ (db_devices w)).
    - cbn -[Nat.add]. rewrite Hdev2, dict_get_set_same.
      rewrite (dict_del_set_fresh _ _ _ Hreg). reflexivity.
    - cbn -[Nat.add]. rewrite Henv2. apply Hr.
    - cbn -[Nat.add]. rewrite Hdb2.
      apply delete_first_app_last; [exact Hstore | exact Hk']. }
  remember (set_devices (devices w)
              (set_db_devices (db_devices w) (set_calls (2 + calls w2) w2)))
    as w4 eqn:Hw4.
  assert (Hget4 : get_device k w4 = (Ok None, set_calls (1 + calls w4) w4)).
  { rewrite get_device_eq.
    - subst w4. cbn -[Nat.add]. rewrite Hstore. reflexivity.
    - subst w4. cbn -[Nat.add]. rewrite Henv2. apply Hr. }
  exists d, w1, w2, d', (set_calls (1 + calls w2) w2), w4,
    (set_calls (1 + calls w4) w4).
  split; [exact Hcreate|]. split; [exact Hid|]. split; [exact Hstatus|].
  split; [exact Hrelay|]. split; [exact Hctl|]. split; [exact Hget2|].
  split; [subst d'; reflexivity|].
  split; [subst d'; cbn; exact Hname|].
  split; [exact Hlog2|].
  split; [exact Hdel|]. split; [exact Hget4|].
  split.
  { apply control_relay_unknown. subst w4. cbn. exact Hreg. }
  subst w4. split; reflexivity.
Qed.

Lemma device_life_cycle_witness :
  exists d w5,
    fst (create_device (DeviceCreate.mk "fan" RELAY "attic" (Some 4))
           demo_world) = Ok d
    /\ Device.id d = "uuid-0"
    /\ control_device "uuid-0" ON w5 = (Ok false, w5)
    /\ devices w5 = devices demo_world
    /\ db_devices w5 = db_devices demo_world.
Proof.
  destruct (device_life_cycle (DeviceCreate.mk "fan" RELAY "attic" (Some 4))
              demo_world (fun k => eq_refl) eq_refl eq_refl)
    as (d & w1 & w2 & d' & w3 & w4 & w5 & Hc & Hid & _ & _ & _ & _ & _ & _
        & _ & _ & _ & Hctl & Hdev & Hdb).
  exists d, w5. split; [rewrite Hc; reflexivity|].
  split; [exact Hid|]. split; [exact Hctl|]. split; [exact Hdev | exact Hdb].
Defined.

(* ------------------------------------------------------------------ *)
(** ** What the tick leaves in the store *)

Lemma find_update_first_other k k' f (l : list Device.t) :
  k <> k' ->
  (forall a, Device.id (f a) = Device.id a) ->
  find (has_device_id k) (update_first (has_device_id k') f l)
  = find (has_device_id k) l.
Proof.
  intros Hne Hid. induction l as [|a r IH]; cbn; [reflexivity|].
  destruct (has_device_id k' a) eqn:E'; cbn.
  - unfold has_device_id in *. rewrite Hid.
    apply String.eqb_eq in E'.
    destruct (String.eqb_spec (Device.id a) k); [congruence | reflexivity].
  - destruct (has_device_id k a); [reflexivity | exact IH].
Qed.

Lemma persist_tick_id d doc : Device.id (persist_tick d doc) = Device.id doc.
Proof. reflexivity. Qed.

Lemma simulate_sweep_persists pending : forall visited w,
  devices w = visited ++ pending ->
  reliable_store w ->
  NoDup (map fst pending) ->
  exists pending',
    devices (snd (simulate_sweep visited pending w)) = visited ++ pending'
    /\ (forall k, ~ In k (map fst pending) ->
          find (has_device_id k)
               (db_devices (snd (simulate_sweep visited pending w)))
          = find (has_device_id k) (db_devices w))
    /\ (forall k b, dict_get k pending' = Some b ->
          find (has_device_id k)
               (db_devices (snd (simulate_sweep visited pending w)))
          = option_map (persist_tick (device b))
                       (find (has_device_id k) (db_devices w))).
Proof.
  induction pending as [|[k0 dd] rest IH]; intros visited w Hw Hr Hnd.
  - exists []. cbn. split; [exact Hw|]. split; [reflexivity|].
    intros k b H. discriminate.
  - inversion Hnd as [|x xs Hnotin Hnd']; subst.
    destruct (simulate_device_spec dd w) as (dd' & Hsim & _).
    rewrite (simulate_sweep_step _ _ _ _ _ _ Hsim). cbv zeta. rewrite Hr.
    match goal with
    | |- context [simulate_sweep _ rest ?w1] =>
        destruct (IH (visited ++ [(k0, dd')]) w1)
          as (rest' & Hdev & Hother & Hsame);
          [cbn; rewrite <- app_assoc; reflexivity | exact Hr | exact Hnd'|]
    end.
    exists ((k0, dd') :: rest').
    split; [rewrite Hdev, <- app_assoc; reflexivity|]. split.
    + intros k Hk. rewrite Hother by (intros Hin; apply Hk; right; exact Hin).
      cbn -[Nat.add]. apply find_update_first_other.
      * intros ->. apply Hk. left. reflexivity.
      * intros a. apply persist_tick_id.
    + intros k b. cbn [dict_get].
      destruct (String.eqb_spec k0 k) as [->|Hne].
      * intros E. injection E as <-. rewrite (Hother _ Hnotin).
        cbn -[Nat.add]. apply find_update_first. reflexivity.
      * intros Hb. rewrite (Hsame _ _ Hb). cbn -[Nat.add]. f_equal.
        apply find_update_first_other; [congruence|].
        intros a. apply persist_tick_id.
Qed.

(** X29. After a tick whose store writes succeed, over a registry with
    unique keys, the stored document of every registered device carries the
    status, uptime, total runtime, wifi signal and last-seen the device has
    in memory; its relay state and name are not written by the tick.  A
    registered device without a stored document gets none. *)
Theorem tick_persists_the_registry (w : world) (k : string)
    (after : device_entry) :
  reliable_store w ->
  NoDup (map fst (devices w)) ->
  dict_get k (devices (snd (simulate_tick w))) = Some after ->
  match find (has_device_id k) (db_devices w) with
  | Some doc =>
      exists doc',
        find (has_device_id k) (db_devices (snd (simulate_tick w)))
        = Some doc'
        /\ persisted (device after) doc'
        /\ Device.relay_state doc' = Device.relay_state doc
        /\ Device.name doc' = Device.name doc
  | None =>
      find (has_device_id k) (db_devices (snd (simulate_tick w))) = None
  end.
Proof.
  intros Hr Hnd. destruct (simulate_tick_frame w) as [-> ->].
  destruct (simulate_sweep_persists (devices w) [] w eq_refl Hr Hnd)
    as (pending' & Hdev & _ & Hsame).
  rewrite Hdev. cbn [app]. intros Hafter. rewrite (Hsame _ _ Hafter).
  destruct (find (has_device_id k) (db_devices w)) as [doc|]; cbn;
    [|reflexivity].
  eexists. split; [reflexivity|]. unfold persisted. cbn. repeat split.
Qed.

Lemma tick_persists_the_registry_witness :
  exists after doc',
    dict_get "dev-a" (devices (snd (simulate_tick demo_world))) = Some after
    /\ find (has_device_id "dev-a")
            (db_devices (snd (simulate_tick demo_world))) = Some doc'
    /\ Device.uptime doc' = Device.uptime (device after)
    /\ Device.status doc' = Device.status (device after).
Proof.
  destruct (dict_get "dev-a" (devices (snd (simulate_tick demo_world))))
    as [after|] eqn:Hget; [|vm_compute in Hget; discriminate].
  pose proof (tick_persists_the_registry demo_world "dev-a" after
                (fun k => eq_refl)) as H.
  change (find (has_device_id "dev-a") (db_devices demo_world))
    with (Some (demo_device "dev-a" ERROR ON)) in H.
  destruct H as (doc' & Hfind & (Hst & Hu & _) & _).
  - repeat constructor; cbn; intuition discriminate.
  - exact Hget.
  - exists after, doc'. split; [reflexivity|]. split; [exact Hfind|].
    split; [exact Hu | exact Hst].
Defined.
